(** * XceptaPay API: the account server of [server.js]

    A shallow embedding of the Express handlers of [server.js] (register,
    login, the protected CRUD routes and the transaction append), of the
    Mongoose schema they share and of the three libraries they call
    (bcryptjs, jsonwebtoken, mongoose), followed by the properties of the
    authentication, authorization and ledger logic.

    Conventions.
    - An ObjectId is the string of its 24 hexadecimal digits, the form in
      which it travels in URLs, JSON payloads and token claims.
    - A JavaScript number is an integer of [Z]; instants are milliseconds
      since the epoch, as [Date.now()] gives them.
    - A request body is a record of optional fields: [None] is a key that
      is absent ([undefined] after destructuring).  A field that is present
      carries a value of the JSON kind the schema declares for it.  The
      body of the transaction append goes to [$push] as it is: it is an
      entry, or, when it has an [$each] key, the modifiers of the [$push].
    - What a request draws from its environment (the clock, the random
      salt, the ObjectIds Mongoose generates) is an explicit argument.
    - The user collection is the list of its documents in natural
      (insertion) order.
    - The libraries behave as their current major versions document
      (bcryptjs 2, jsonwebtoken 9, mongoose 6 and later): in particular
      [required] on a String path refuses the empty string, an update
      drops the keys whose value is [undefined], and the update validators
      run before the collection is queried.  MongoDB applies the
      modifiers of a [$push] in the order of its manual: the entries of
      [$each] go in at [$position], then [$sort], then [$slice]. *)

From Stdlib Require Import String Ascii List ZArith Bool Lia Permutation.
Import ListNotations.

Local Open Scope Z_scope.
Local Open Scope string_scope.

#[local] Set Warnings "-register-all".

(** ** JSON values sent with [res.json] *)

Inductive json : Type :=
| JNull
| JBool (b : bool)
| JNum (n : Z)
| JStr (s : string)
| JArr (items : list json)
| JObj (members : list (string * json)).

(** [has_key k j]: some object inside [j], at any depth, has a member [k]. *)
Fixpoint has_key (k : string) (j : json) : bool :=
  match j with
  | JArr items => existsb (has_key k) items
  | JObj members =>
      existsb (fun m => let '(k', v) := m in (k' =? k) || has_key k v) members
  | _ => false
  end.

(** [member k j]: the value of the member [k] of the object [j]. *)
Definition member (k : string) (j : json) : option json :=
  match j with
  | JObj members =>
      option_map snd (find (fun m => fst m =? k) members)
  | _ => None
  end.

(** ** Exceptions the libraries throw *)

Inductive vkind : Type := Required | Enum | Min.

(** A failed validator: the path ([transaction_history] entries carry their
    index and the sub-path) and the validator that failed. *)
Inductive vpath : Type :=
| Path (field : string)
| Elem (field : string) (index : nat) (sub : string).

Definition verr : Type := (vpath * vkind)%type.

Inductive exn : Type :=
| ValidationError (errors : list verr)
| CastError (path : string)
| DuplicateKey (index : string)
| IllegalArguments
| BadTimespan
| JsonWebTokenError
| NotBeforeError
| TokenExpiredError
| MongoServerError.

Inductive result (A : Type) : Type :=
| Ok (a : A)
| Throw (e : exn).

Arguments Ok {A} a.
Arguments Throw {A} e.

Definition bind {A B : Type} (m : result A) (k : A -> result B) : result B :=
  match m with
  | Ok a => k a
  | Throw e => Throw e
  end.

Notation "'await' x <- m 'in' k" := (bind m (fun x => k))
  (at level 10, x pattern, m at level 100, k at level 200).

(** ** What the libraries leave abstract

    The bcrypt digest, the JWS compact serialisation (base64url of the
    claims with an HMAC signature under the secret), the wording of the
    libraries' error messages and the order MongoDB sorts the entries of a
    history in are parameters.  The serialisation comes with the two facts
    the server relies on: a token parses back, under the secret it was
    signed with, to the claims it was made from, and a token holds no
    space.  A sort specification is one MongoDB accepts or refuses, and
    sorting rearranges the entries, no more.

    The claims of a token: the [id] and [role] the server signs, the
    issue time, and the instants from which and until which the token
    holds, which a token need not carry. *)

Record claims : Type := {
  c_id : string;
  c_role : string;
  iat : Z;
  nbf : option Z;
  exp : option Z
}.

(** An entry of [transaction_history] as it is stored: a subdocument with
    its own [_id]. *)
Record Transaction : Type := {
  tx_id : string;
  date : string;
  amount : Z;
  recipient : string;
  status : string
}.

(** [s.split(sep)] for a separator of one character. *)
Fixpoint split_on (sep : ascii) (s : string) : list string :=
  match s with
  | EmptyString => [""]
  | String a r =>
      if Ascii.eqb a sep then "" :: split_on sep r
      else
        match split_on sep r with
        | piece :: pieces => String a piece :: pieces
        | [] => [String a ""]
        end
  end.

(** [free_of sep s]: the character [sep] does not occur in [s]. *)
Fixpoint free_of (sep : ascii) (s : string) : bool :=
  match s with
  | EmptyString => true
  | String a r => negb (Ascii.eqb a sep) && free_of sep r
  end.

Class Libs : Type := {
  digest : string -> string -> string;
  jws_encode : string -> claims -> string;
  jws_decode : string -> string -> option claims;
  message : exn -> string;
  sort_accepts : json -> bool;
  sort_entries : json -> list Transaction -> list Transaction;
  jws_decode_encode :
    forall key c, jws_decode key (jws_encode key c) = Some c;
  jws_encode_no_space :
    forall key c, free_of " " (jws_encode key c) = true;
  sort_entries_permutes :
    forall spec l, Permutation l (sort_entries spec l)
}.

(** ** bcryptjs *)

Module Bcrypt.
Section Bcrypt.
Context {L : Libs}.

Definition two_digits (n : Z) : string :=
  String (ascii_of_N (48 + Z.to_N (n / 10)))
    (String (ascii_of_N (48 + Z.to_N (n mod 10))) "").

(** [genSalt(rounds)]: the version tag, the cost and 22 characters that
    encode 16 random bytes, here [rnd]. *)
Definition genSalt (rounds : Z) (rnd : string) : string :=
  "$2a$" ++ two_digits rounds ++ "$" ++ rnd.

(** [hash(s, salt)]: the salt followed by the digest.  A password that is
    not a string is refused. *)
Definition hash (s : option string) (salt : string) : result string :=
  match s with
  | Some pw => Ok (salt ++ digest pw salt)
  | None => Throw IllegalArguments
  end.

(** [compare(s, hash)]: a hash that is not 60 characters long matches
    nothing; otherwise [s] is hashed under the salt the hash starts with
    and the two are compared.  (The hashes the server stores are those
    [hash] made, whose first 29 characters are a salt of [genSalt].) *)
Definition compare (s : option string) (h : string) : result bool :=
  match s with
  | None => Throw IllegalArguments
  | Some pw =>
      if negb (Nat.eqb (String.length h) 60) then Ok false
      else
        await comp <- hash (Some pw) (substring 0 29 h) in
        Ok (comp =? h)
  end.
End Bcrypt.
End Bcrypt.

(** ** jsonwebtoken *)

Module Jwt.
Section Jwt.
Context {L : Libs}.

Definition is_digit (a : ascii) : bool :=
  let n := N_of_ascii a in (48 <=? n)%N && (n <=? 57)%N.

Fixpoint digits (s : string) (acc : Z) : Z * string :=
  match s with
  | String a r =>
      if is_digit a then digits r (10 * acc + (Z.of_N (N_of_ascii a) - 48))
      else (acc, s)
  | EmptyString => (acc, s)
  end.

(** The [ms] package on a string made of a decimal count and a unit. *)
Definition ms (s : string) : option Z :=
  match s with
  | String a _ =>
      if is_digit a then
        let '(n, unit) := digits s 0 in
        match unit with
        | "" | "ms" => Some n
        | "s" => Some (n * 1000)
        | "m" => Some (n * 60000)
        | "h" => Some (n * 3600000)
        | "d" => Some (n * 86400000)
        | "w" => Some (n * 604800000)
        | _ => None
        end
      else None
  | EmptyString => None
  end.

(** [sign(payload, secret, { expiresIn })] at instant [now]: the claims
    get the issue time in seconds and the expiry that many seconds
    later. *)
Definition sign (id role : string) (secret : string) (expiresIn : string)
    (now : Z) : result string :=
  match ms expiresIn with
  | None => Throw BadTimespan
  | Some span =>
      let timestamp := now / 1000 in
      Ok (jws_encode secret
            {| c_id := id; c_role := role; iat := timestamp;
               nbf := None; exp := Some (timestamp + span / 1000) |})
  end.

(** A claim that is there and that [test] finds wrong. *)
Definition fails (claim : option Z) (test : Z -> bool) : bool :=
  match claim with
  | Some value => test value
  | None => false
  end.

(** [verify(token, secret)] at instant [now]: the token must parse and
    carry the signature of [secret]; when it has an [nbf] claim, the clock
    must have reached it; when it has an [exp] claim, the clock must not
    have reached it. *)
Definition verify (token secret : string) (now : Z) : result claims :=
  match jws_decode secret token with
  | None => Throw JsonWebTokenError
  | Some decoded =>
      let clockTimestamp := now / 1000 in
      if fails (nbf decoded) (fun start => start >? clockTimestamp)
      then Throw NotBeforeError
      else if fails (exp decoded) (fun expiry => clockTimestamp >=? expiry)
      then Throw TokenExpiredError
      else Ok decoded
  end.
End Jwt.
End Jwt.

(** ** mongoose: casts and validators *)

Module Mongoose.

Definition is_hex (a : ascii) : bool :=
  let n := N_of_ascii a in
  ((48 <=? n) && (n <=? 57) || (97 <=? n) && (n <=? 102)
   || (65 <=? n) && (n <=? 70))%N.

Definition lower (a : ascii) : ascii :=
  let n := N_of_ascii a in
  if ((65 <=? n) && (n <=? 90))%N then ascii_of_N (n + 32) else a.

Fixpoint all_hex (s : string) : bool :=
  match s with
  | EmptyString => true
  | String a r => is_hex a && all_hex r
  end.

Fixpoint lowercase (s : string) : string :=
  match s with
  | EmptyString => EmptyString
  | String a r => String (lower a) (lowercase r)
  end.

(** The cast of a string to an ObjectId: 24 hexadecimal digits, of either
    case; the ObjectId prints in lower case.  Anything else is a
    [CastError]. *)
Definition castObjectId (s : string) : option string :=
  if Nat.eqb (String.length s) 24 && all_hex s then Some (lowercase s)
  else None.

(** [required: true] on a String path: the empty string does not satisfy
    it. *)
Definition required_string (p : vpath) (v : option string) : list verr :=
  match v with
  | Some s => if s =? "" then [(p, Required)] else []
  | None => [(p, Required)]
  end.

(** [required: true] on a Number path. *)
Definition required_number (p : vpath) (v : option Z) : list verr :=
  match v with
  | Some _ => []
  | None => [(p, Required)]
  end.

(** [enum: values]: a value that is absent passes. *)
Definition enum (p : vpath) (values : list string) (v : option string)
    : list verr :=
  match v with
  | Some s => if existsb (String.eqb s) values then [] else [(p, Enum)]
  | None => []
  end.

(** [min: m]: a value that is absent passes. *)
Definition min (p : vpath) (m : Z) (v : option Z) : list verr :=
  match v with
  | Some n => if (n <? m)%Z then [(p, Min)] else []
  | None => []
  end.

(** A path that was given and is validated on its own (update
    validators): the validators run on what was given only. *)
Definition when_set {A : Type} (check : option A -> list verr)
    (v : option A) : list verr :=
  match v with
  | Some _ => check v
  | None => []
  end.

Definition or_default {A : Type} (v : option A) (d : A) : A :=
  match v with
  | Some a => a
  | None => d
  end.

(** [n | 0]: the integer [n] as a signed integer of 32 bits. *)
Definition to_int32 (n : Z) : Z :=
  (n + 2147483648) mod 4294967296 - 2147483648.

End Mongoose.

(** ** The schema ([userSchema], with [timestamps: true]) *)

Record User : Type := {
  _id : string;
  username : string;
  email : string;
  password : string;
  balance : Z;
  wallet : string;
  seed : string;
  transaction_history : list Transaction;
  role : string;
  createdAt : Z;
  updatedAt : Z
}.

(** The collection [users]. *)
Definition Db : Type := list User.

(** An entry of [transaction_history] in a request body. *)
Record TransactionBody : Type := {
  t_date : option string;
  t_amount : option Z;
  t_recipient : option string;
  t_status : option string
}.

(** The modifiers of a [$push]: the entries of [$each], and [$position],
    [$slice] and [$sort] where the body has them. *)
Record PushModifiers : Type := {
  m_each : list TransactionBody;
  m_position : option Z;
  m_slice : option Z;
  m_sort : option json
}.

(** [req.body] of [PATCH /users/:id/transactions], which is the operand
    of the [$push]: an entry, or, when the body has an [$each] key, the
    modifiers of the [$push]. *)
Inductive PatchBody : Type :=
| Entry (t : TransactionBody)
| Each (m : PushModifiers).

(** [req.body] of the other routes; also the argument of [new User] and
    the [updateData] of [PUT /users/:id], which have the same keys. *)
Record Body : Type := {
  b_username : option string;
  b_email : option string;
  b_password : option string;
  b_balance : option Z;
  b_wallet : option string;
  b_seed : option string;
  b_transaction_history : option (list TransactionBody);
  b_role : option string
}.

(** What one request takes from outside: [Date.now()], the 22 random
    characters of [bcrypt.genSalt] and the ObjectIds generated while the
    request is served, in order. *)
Record Env : Type := {
  now : Z;
  rnd : string;
  fresh : nat -> string
}.

Module Schema.
Import Mongoose.

Definition status_values : list string := ["Success"; "Failed"; "Pending"].
Definition role_values : list string := ["user"; "admin"].

(** The validators of one [transaction_history] entry. *)
Definition validate_transaction (i : nat) (t : TransactionBody)
    : list verr :=
  let at_ := Elem "transaction_history" i in
  (required_string (at_ "date") (t_date t)
   ++ required_number (at_ "amount") (t_amount t)
   ++ min (at_ "amount") 0 (t_amount t)
   ++ required_string (at_ "recipient") (t_recipient t)
   ++ enum (at_ "status") status_values (t_status t))%list.

Fixpoint validate_history (i : nat) (l : list TransactionBody)
    : list verr :=
  match l with
  | [] => []
  | t :: r => (validate_transaction i t ++ validate_history (S i) r)%list
  end.

(** The subdocument an entry is cast to: its own [_id], and [status]
    defaults to ["Pending"].  (The values put for an absent [date],
    [amount] or [recipient] are never stored: their [required] validator
    has failed.) *)
Definition cast_transaction (id : string) (t : TransactionBody)
    : Transaction :=
  {| tx_id := id;
     date := or_default (t_date t) "";
     amount := or_default (t_amount t) 0;
     recipient := or_default (t_recipient t) "";
     status := or_default (t_status t) "Pending" |}.

Fixpoint cast_history (ids : nat -> string) (i : nat)
    (l : list TransactionBody) : list Transaction :=
  match l with
  | [] => []
  | t :: r => cast_transaction (ids i) t :: cast_history ids (S i) r
  end.

(** The validators [save] runs on a new document. *)
Definition validate_user (b : Body) : list verr :=
  (required_string (Path "username") (b_username b)
   ++ required_string (Path "email") (b_email b)
   ++ required_string (Path "password") (b_password b)
   ++ validate_history 0 (or_default (b_transaction_history b) [])
   ++ enum (Path "role") role_values (b_role b))%list.

(** [new User(b)]: the document with its [_id], the schema defaults and
    both timestamps. *)
Definition new_User (env : Env) (b : Body) : User :=
  {| _id := fresh env 0;
     username := or_default (b_username b) "";
     email := or_default (b_email b) "";
     password := or_default (b_password b) "";
     balance := or_default (b_balance b) 0;
     wallet := or_default (b_wallet b) "";
     seed := or_default (b_seed b) "";
     transaction_history :=
       cast_history (fresh env) 1 (or_default (b_transaction_history b) []);
     role := or_default (b_role b) "user";
     createdAt := now env;
     updatedAt := now env |}.

(** The update validators ([runValidators: true]) of a [$set]: keys that
    are [undefined] are dropped from the update; the others are validated
    path by path. *)
Definition validate_set (b : Body) : list verr :=
  (when_set (required_string (Path "username")) (b_username b)
   ++ when_set (required_string (Path "email")) (b_email b)
   ++ when_set (required_string (Path "password")) (b_password b)
   ++ validate_history 0 (or_default (b_transaction_history b) [])
   ++ enum (Path "role") role_values (b_role b))%list.

(** The document after [{ $set: b }]. *)
Definition apply_set (env : Env) (b : Body) (u : User) : User :=
  {| _id := _id u;
     username := or_default (b_username b) (username u);
     email := or_default (b_email b) (email u);
     password := or_default (b_password b) (password u);
     balance := or_default (b_balance b) (balance u);
     wallet := or_default (b_wallet b) (wallet u);
     seed := or_default (b_seed b) (seed u);
     transaction_history :=
       match b_transaction_history b with
       | Some l => cast_history (fresh env) 0 l
       | None => transaction_history u
       end;
     role := or_default (b_role b) (role u);
     createdAt := createdAt u;
     updatedAt := now env |}.

(** The document after [{ $push: { transaction_history: t } }]. *)
Definition apply_push (env : Env) (t : TransactionBody) (u : User) : User :=
  {| _id := _id u;
     username := username u;
     email := email u;
     password := password u;
     balance := balance u;
     wallet := wallet u;
     seed := seed u;
     transaction_history :=
       (transaction_history u ++ [cast_transaction (fresh env 0) t])%list;
     role := role u;
     createdAt := createdAt u;
     updatedAt := now env |}.

(** *** [$push] with modifiers *)

(** [$position]: where the new entries go.  Without it, and from an index
    at or past the end, they go at the end; a negative index counts from
    the end, and one past the start is the start. *)
Definition insert_at (position : option Z) (old items : list Transaction)
    : list Transaction :=
  match position with
  | None => (old ++ items)%list
  | Some p =>
      let i :=
        Z.to_nat (if (p <? 0)%Z then Z.max 0 (Z.of_nat (length old) + p)
                  else p) in
      (firstn i old ++ items ++ skipn i old)%list
  end.

(** [$slice]: the first [n] entries, or the last [-n] when [n] is
    negative; none when [n] is 0. *)
Definition slice (n : Z) (l : list Transaction) : list Transaction :=
  if (n <? 0)%Z then skipn (length l - Z.to_nat (- n)) l
  else firstn (Z.to_nat n) l.

(** The truth value of [val.$sort] in [if (val.$sort)]. *)
Definition truthy_json (j : json) : bool :=
  match j with
  | JNull | JBool false | JNum 0 | JStr "" => false
  | _ => true
  end.

(** The [$sort] the update carries to MongoDB. *)
Definition sort_of (m : PushModifiers) : option json :=
  match m_sort m with
  | Some spec => if truthy_json spec then Some spec else None
  | None => None
  end.

Section Modifiers.
Context {L : Libs}.

(** The history after [$push] with modifiers: the entries of [$each] are
    cast to subdocuments and put in at [$position]; then the history is
    sorted, if there is a [$sort]; then it is cut, if there is a
    [$slice], which the cast of the update makes [$slice | 0]. *)
Definition push_each (env : Env) (m : PushModifiers)
    (old : list Transaction) : list Transaction :=
  let items := cast_history (fresh env) 0 (m_each m) in
  let inserted := insert_at (m_position m) old items in
  let sorted :=
    match sort_of m with
    | Some spec => sort_entries spec inserted
    | None => inserted
    end in
  match m_slice m with
  | Some n => slice (to_int32 n) sorted
  | None => sorted
  end.

(** The document after [{ $push: { transaction_history: { $each: ...,
    ... } } }]. *)
Definition apply_push_each (env : Env) (m : PushModifiers) (u : User)
    : User :=
  {| _id := _id u;
     username := username u;
     email := email u;
     password := password u;
     balance := balance u;
     wallet := wallet u;
     seed := seed u;
     transaction_history := push_each env m (transaction_history u);
     role := role u;
     createdAt := createdAt u;
     updatedAt := now env |}.

End Modifiers.

End Schema.

(** ** The model [User = mongoose.model("User", userSchema)] *)

Module UserModel.
Import Mongoose Schema.

Definition by_id (id : string) (u : User) : bool := _id u =? id.
Definition by_email (e : string) (u : User) : bool := email u =? e.

(** The collection without its first document of id [id]. *)
Fixpoint remove_first (id : string) (db : Db) : Db :=
  match db with
  | [] => []
  | u :: r => if by_id id u then r else u :: remove_first id r
  end.

(** The collection with its first document of id [id] replaced. *)
Fixpoint replace_first (id : string) (u' : User) (db : Db) : Db :=
  match db with
  | [] => []
  | u :: r => if by_id id u then u' :: r else u :: replace_first id u' r
  end.

(** [User.findOne({ email })].  No stored document lacks an email, so an
    [undefined] email finds nothing. *)
Definition findOne (e : option string) (db : Db) : option User :=
  match e with
  | Some s => find (by_email s) db
  | None => None
  end.

(** [User.find()]. *)
Definition find_all (db : Db) : list User := db.

(** [User.findById(id)]. *)
Definition findById (id : string) (db : Db) : result (option User) :=
  match castObjectId id with
  | None => Throw (CastError "_id")
  | Some oid => Ok (find (by_id oid) db)
  end.

(** [new User(b).save()]: the validators, then the insertion, which the
    unique indexes on [_id] and on [email] can refuse. *)
Definition save (env : Env) (b : Body) (db : Db) : result (Db * User) :=
  match validate_user b with
  | [] =>
      let doc := new_User env b in
      if existsb (by_id (_id doc)) db then Throw (DuplicateKey "_id_")
      else if existsb (by_email (email doc)) db
      then Throw (DuplicateKey "email_1")
      else Ok ((db ++ [doc])%list, doc)
  | errors => Throw (ValidationError errors)
  end.

(** The update of [findByIdAndUpdate]: the [updateData] of the update
    route, which is a [$set], or [{ $push: { transaction_history: b } }]. *)
Inductive Update : Type :=
| Set_ (b : Body)
| Push (b : PatchBody).

(** The update validators: of a [$push], on the entry pushed, or on every
    entry of [$each]. *)
Definition update_validators (upd : Update) : list verr :=
  match upd with
  | Set_ b => validate_set b
  | Push (Entry t) => validate_transaction 0 t
  | Push (Each m) => validate_history 0 (m_each m)
  end.

Section Updating.
Context {L : Libs}.

(** MongoDB refuses an update whose [$sort] it cannot read. *)
Definition unreadable (upd : Update) : bool :=
  match upd with
  | Push (Each m) =>
      match sort_of m with
      | Some spec => negb (sort_accepts spec)
      | None => false
      end
  | _ => false
  end.

Definition apply_update (env : Env) (upd : Update) (u : User) : User :=
  match upd with
  | Set_ b => apply_set env b u
  | Push (Entry t) => apply_push env t u
  | Push (Each m) => apply_push_each env m u
  end.

(** [User.findByIdAndUpdate(id, upd, { new: true, runValidators: true })]:
    the id and the update are cast and the update validators run before
    the collection is queried; MongoDB reads the update, which it can
    refuse; the document found is updated in place, unless its new email
    is the email of another document; the updated document is returned,
    or [null] when none has this id. *)
Definition findByIdAndUpdate (env : Env) (id : string) (upd : Update)
    (db : Db) : result (Db * option User) :=
  match castObjectId id with
  | None => Throw (CastError "_id")
  | Some oid =>
      match update_validators upd with
      | [] =>
          if unreadable upd then Throw MongoServerError
          else
            match find (by_id oid) db with
            | None => Ok (db, None)
            | Some u =>
                let u' := apply_update env upd u in
                if negb (email u' =? email u)
                   && existsb (by_email (email u')) (remove_first oid db)
                then Throw (DuplicateKey "email_1")
                else Ok (replace_first oid u' db, Some u')
            end
      | errors => Throw (ValidationError errors)
      end
  end.

End Updating.

(** [User.findByIdAndDelete(id)]. *)
Definition findByIdAndDelete (id : string) (db : Db)
    : result (Db * option User) :=
  match castObjectId id with
  | None => Throw (CastError "_id")
  | Some oid =>
      match find (by_id oid) db with
      | None => Ok (db, None)
      | Some u => Ok (remove_first oid db, Some u)
      end
  end.

(** The JSON form of a document: every path of the schema, the
    timestamps and the version key. *)
Definition Transaction_toJSON (t : Transaction) : json :=
  JObj [("date", JStr (date t)); ("amount", JNum (amount t));
        ("recipient", JStr (recipient t)); ("status", JStr (status t));
        ("_id", JStr (tx_id t))].

Definition toJSON (u : User) : json :=
  JObj [("_id", JStr (_id u));
        ("username", JStr (username u));
        ("email", JStr (email u));
        ("password", JStr (password u));
        ("balance", JNum (balance u));
        ("wallet", JStr (wallet u));
        ("seed", JStr (seed u));
        ("role", JStr (role u));
        ("transaction_history",
          JArr (map Transaction_toJSON (transaction_history u)));
        ("createdAt", JNum (createdAt u));
        ("updatedAt", JNum (updatedAt u));
        ("__v", JNum 0)].

End UserModel.

(** ** The server: [authMiddleware] and the routes *)

Record Response : Type := {
  status_code : Z;
  payload : json
}.

(** [req.user], set by [authMiddleware]. *)
Module Req.
Record user : Type := {
  id : string;
  role : string
}.
End Req.

Section Server.
Context {L : Libs}.

(** [process.env.JWT_SECRET]. *)
Variable JWT_SECRET : option string.

Import Mongoose Schema.

(** [res.status(code).json(j)]. *)
Definition respond (code : Z) (j : json) : Response :=
  {| status_code := code; payload := j |}.

Definition error (text : string) : json := JObj [("error", JStr text)].

(** [try { ... } catch (err) { return res.status(code).json({ error:
    err.message }) }]: what was thrown left the collection as it was. *)
Definition try_catch (db : Db) (code : Z) (m : result (Db * Response))
    : Db * Response :=
  match m with
  | Ok r => r
  | Throw err => (db, respond code (error (message err)))
  end.

(** [process.env.JWT_SECRET || "dev_secret"]. *)
Definition secret : string :=
  match JWT_SECRET with
  | Some s => if s =? "" then "dev_secret" else s
  | None => "dev_secret"
  end.

(** [authMiddleware]: the answer it sends, or the [req.user] it passes to
    the route. *)
Definition authMiddleware (env : Env) (authorization : option string)
    : Response + Req.user :=
  match authorization with
  | None => inl (respond 401 (error "Unauthorized"))
  | Some authHeader =>
      if (authHeader =? "") || negb (prefix "Bearer " authHeader)
      then inl (respond 401 (error "Unauthorized"))
      else
        let token := nth 1 (split_on " " authHeader) "" in
        match Jwt.verify token secret (now env) with
        | Ok decoded =>
            inr {| Req.id := c_id decoded; Req.role := c_role decoded |}
        | Throw _ => inl (respond 401 (error "Invalid token"))
        end
  end.

(** The truth value of [password] in [if (password)]. *)
Definition truthy (v : option string) : bool :=
  match v with
  | Some s => negb (s =? "")
  | None => false
  end.

(** [POST /auth/register]. *)
Definition post_auth_register (env : Env) (body : Body) (db : Db)
    : Db * Response :=
  try_catch db 400
    match UserModel.findOne (b_email body) db with
    | Some existing => Ok (db, respond 400 (error "Email already in use."))
    | None =>
        let salt := Bcrypt.genSalt 10 (rnd env) in
        await hashedPassword <- Bcrypt.hash (b_password body) salt in
        let newUser :=
          {| b_username := b_username body;
             b_email := b_email body;
             b_password := Some hashedPassword;
             b_balance := None;
             b_wallet := None;
             b_seed := None;
             b_transaction_history := None;
             b_role := b_role body |} in
        await (db', savedUser) <- UserModel.save env newUser db in
        Ok (db', respond 201 (UserModel.toJSON savedUser))
    end.

(** [POST /auth/login]. *)
Definition post_auth_login (env : Env) (body : Body) (db : Db)
    : Db * Response :=
  try_catch db 400
    match UserModel.findOne (b_email body) db with
    | None => Ok (db, respond 400 (error "Invalid credentials"))
    | Some user =>
        await isMatch <- Bcrypt.compare (b_password body) (password user) in
        if negb isMatch
        then Ok (db, respond 400 (error "Invalid credentials"))
        else
          await token <-
            Jwt.sign (_id user) (role user) secret "1d" (now env) in
          Ok (db,
              respond 200
                (JObj [("message", JStr "Login successful");
                       ("token", JStr token);
                       ("user",
                         JObj [("id", JStr (_id user));
                               ("username", JStr (username user));
                               ("email", JStr (email user));
                               ("role", JStr (role user))])]))
    end.

(** [POST /users]. *)
Definition post_users (env : Env) (user : Req.user) (body : Body) (db : Db)
    : Db * Response :=
  if negb (Req.role user =? "admin")
  then (db, respond 403 (error "Forbidden: Admin only"))
  else
    try_catch db 400
      (await hashedPassword <-
         (if truthy (b_password body)
          then
            let salt := Bcrypt.genSalt 10 (rnd env) in
            Bcrypt.hash (b_password body) salt
          else Ok "") in
       let newUser :=
         {| b_username := b_username body;
            b_email := b_email body;
            b_password := Some hashedPassword;
            b_balance := b_balance body;
            b_wallet := b_wallet body;
            b_seed := b_seed body;
            b_transaction_history := b_transaction_history body;
            b_role := b_role body |} in
       await (db', savedUser) <- UserModel.save env newUser db in
       Ok (db', respond 201 (UserModel.toJSON savedUser))).

(** [GET /users]. *)
Definition get_users (user : Req.user) (db : Db) : Db * Response :=
  if negb (Req.role user =? "admin")
  then (db, respond 403 (error "Forbidden: Admin only"))
  else
    try_catch db 500
      (let users := UserModel.find_all db in
       Ok (db, respond 200 (JArr (map UserModel.toJSON users)))).

(** [GET /users/:id]. *)
Definition get_user (user : Req.user) (params_id : string) (db : Db)
    : Db * Response :=
  try_catch db 500
    (if negb (Req.id user =? params_id) && negb (Req.role user =? "admin")
     then Ok (db, respond 403 (error "Forbidden"))
     else
       await found <- UserModel.findById params_id db in
       match found with
       | None => Ok (db, respond 404 (error "User not found"))
       | Some doc => Ok (db, respond 200 (UserModel.toJSON doc))
       end).

(** [updateData.password = hashed]. *)
Definition set_password (updateData : Body) (hashed : string) : Body :=
  {| b_username := b_username updateData;
     b_email := b_email updateData;
     b_password := Some hashed;
     b_balance := b_balance updateData;
     b_wallet := b_wallet updateData;
     b_seed := b_seed updateData;
     b_transaction_history := b_transaction_history updateData;
     b_role := b_role updateData |}.

(** [PUT /users/:id]. *)
Definition put_user (env : Env) (user : Req.user) (params_id : string)
    (body : Body) (db : Db) : Db * Response :=
  try_catch db 400
    (if negb (Req.id user =? params_id) && negb (Req.role user =? "admin")
     then Ok (db, respond 403 (error "Forbidden"))
     else
       let updateData :=
         {| b_username := b_username body;
            b_email := b_email body;
            b_password := None;
            b_balance := b_balance body;
            b_wallet := b_wallet body;
            b_seed := b_seed body;
            b_transaction_history := b_transaction_history body;
            b_role := b_role body |} in
       await updateData <-
         (if truthy (b_password body)
          then
            let salt := Bcrypt.genSalt 10 (rnd env) in
            await hashed <- Bcrypt.hash (b_password body) salt in
            Ok (set_password updateData hashed)
          else Ok updateData) in
       await (db', updatedUser) <-
         UserModel.findByIdAndUpdate env params_id
           (UserModel.Set_ updateData) db in
       match updatedUser with
       | None => Ok (db', respond 404 (error "User not found"))
       | Some doc => Ok (db', respond 200 (UserModel.toJSON doc))
       end).

(** [DELETE /users/:id]. *)
Definition delete_user (user : Req.user) (params_id : string) (db : Db)
    : Db * Response :=
  try_catch db 500
    (if negb (Req.id user =? params_id) && negb (Req.role user =? "admin")
     then Ok (db, respond 403 (error "Forbidden"))
     else
       await (db', deletedUser) <-
         UserModel.findByIdAndDelete params_id db in
       match deletedUser with
       | None => Ok (db', respond 404 (error "User not found"))
       | Some _ =>
           Ok (db',
               respond 200
                 (JObj [("message", JStr "User deleted successfully")]))
       end).

(** [PATCH /users/:id/transactions]. *)
Definition patch_transactions (env : Env) (user : Req.user)
    (params_id : string) (transaction : PatchBody) (db : Db)
    : Db * Response :=
  try_catch db 400
    (if negb (Req.id user =? params_id) && negb (Req.role user =? "admin")
     then Ok (db, respond 403 (error "Forbidden"))
     else
       await (db', updatedUser) <-
         UserModel.findByIdAndUpdate env params_id
           (UserModel.Push transaction) db in
       match updatedUser with
       | None => Ok (db', respond 404 (error "User not found"))
       | Some doc => Ok (db', respond 200 (UserModel.toJSON doc))
       end).

(** *** The application: one request, then a sequence of them *)

Inductive Request : Type :=
| PostAuthRegister (body : Body)
| PostAuthLogin (body : Body)
| PostUsers (authorization : option string) (body : Body)
| GetUsers (authorization : option string)
| GetUser (authorization : option string) (params_id : string)
| PutUser (authorization : option string) (params_id : string) (body : Body)
| DeleteUser (authorization : option string) (params_id : string)
| PatchTransactions (authorization : option string) (params_id : string)
    (body : PatchBody).

(** A route mounted behind [authMiddleware]. *)
Definition protected (env : Env) (authorization : option string)
    (route : Req.user -> Db -> Db * Response) (db : Db) : Db * Response :=
  match authMiddleware env authorization with
  | inl refusal => (db, refusal)
  | inr user => route user db
  end.

Definition handle (env : Env) (r : Request) (db : Db) : Db * Response :=
  match r with
  | PostAuthRegister body => post_auth_register env body db
  | PostAuthLogin body => post_auth_login env body db
  | PostUsers a body =>
      protected env a (fun user => post_users env user body) db
  | GetUsers a => protected env a get_users db
  | GetUser a i => protected env a (fun user => get_user user i) db
  | PutUser a i body =>
      protected env a (fun user => put_user env user i body) db
  | DeleteUser a i => protected env a (fun user => delete_user user i) db
  | PatchTransactions a i body =>
      protected env a (fun user => patch_transactions env user i body) db
  end.

(** The collection after the requests of [rs], served one after the
    other. *)
Fixpoint run (rs : list (Env * Request)) (db : Db) : Db :=
  match rs with
  | [] => db
  | (env, r) :: rest => run rest (fst (handle env r db))
  end.

End Server.

(** * The vocabulary of the specification *)

Section Vocabulary.
Context {L : Libs}.

Import Mongoose Schema UserModel.

(** ** Authorization *)

(** The rule of the specification. *)
Definition self_or_admin (principal : Req.user) (target : string) : Prop :=
  Req.id principal = target \/ Req.role principal = "admin".

(** A request got past the authorization check when it was not answered
    403. *)
Definition allowed (answer : Db * Response) : Prop :=
  status_code (snd answer) <> 403.

(** ** Failure signals *)

(** The failure signal of a login. *)
Definition InvalidCredentials : Response :=
  respond 400 (error "Invalid credentials").

(** The failure signal of a registration under a taken email. *)
Definition DuplicateEmail : Response :=
  respond 400 (error "Email already in use.").

(** ** Tokens *)

(** The instant, in milliseconds, at which a token issued at [issued]
    expires: one day after the second it was issued in. *)
Definition expiry (issued : Z) : Z := (issued / 1000 + 86400) * 1000.

(** ** Updates *)

(** The [updateData] of [PUT /users/:id] carries the keys of the body,
    [password] apart, which is there only when the body has a password
    that is not empty, and is then its hash. *)
Definition carries (env : Env) (body updateData : Body) : Prop :=
  b_username updateData = b_username body
  /\ b_email updateData = b_email body
  /\ b_balance updateData = b_balance body
  /\ b_wallet updateData = b_wallet body
  /\ b_seed updateData = b_seed body
  /\ b_transaction_history updateData = b_transaction_history body
  /\ b_role updateData = b_role body
  /\ (truthy (b_password body) = false -> b_password updateData = None)
  /\ (truthy (b_password body) = true ->
      Bcrypt.hash (b_password body) (Bcrypt.genSalt 10 (rnd env))
      = Ok (or_default (b_password updateData) "")
      /\ b_password updateData <> None).

(** The body does not give the user the email of another user. *)
Definition email_free (body : Body) (u : User) (db : Db) : Prop :=
  forall e,
    b_email body = Some e ->
    e = email u \/ (forall v, In v db -> email v <> e).

(** The fields the body does not provide have the value they had. *)
Definition kept (body : Body) (u u' : User) : Prop :=
  _id u' = _id u
  /\ createdAt u' = createdAt u
  /\ (b_username body = None -> username u' = username u)
  /\ (b_email body = None -> email u' = email u)
  /\ (b_password body = None -> password u' = password u)
  /\ (b_balance body = None -> balance u' = balance u)
  /\ (b_wallet body = None -> wallet u' = wallet u)
  /\ (b_seed body = None -> seed u' = seed u)
  /\ (b_transaction_history body = None ->
      transaction_history u' = transaction_history u)
  /\ (b_role body = None -> role u' = role u).

(** The fields the body provides have the value provided; a password is
    stored as its hash, the entries of a history as subdocuments. *)
Definition merged (env : Env) (body : Body) (u' : User) : Prop :=
  (forall x, b_username body = Some x -> username u' = x)
  /\ (forall x, b_email body = Some x -> email u' = x)
  /\ (forall x, b_password body = Some x -> x <> "" ->
      Bcrypt.hash (Some x) (Bcrypt.genSalt 10 (rnd env))
      = Ok (password u'))
  /\ (forall x, b_balance body = Some x -> balance u' = x)
  /\ (forall x, b_wallet body = Some x -> wallet u' = x)
  /\ (forall x, b_seed body = Some x -> seed u' = x)
  /\ (forall l, b_transaction_history body = Some l ->
      transaction_history u' = cast_history (fresh env) 0 l)
  /\ (forall x, b_role body = Some x -> role u' = x).

(** ** The transaction history *)

(** Every entry of the history of [u] is in the history of [u'], unchanged
    and at the same position: the history of [u'] is that of [u] with
    entries added at the end. *)
Definition history_kept (u u' : User) : Prop :=
  exists added,
    transaction_history u' = (transaction_history u ++ added)%list.

(** Two ids in a URL that are the same ObjectId. *)
Definition same_user (a b : string) : bool :=
  match castObjectId a, castObjectId b with
  | Some x, Some y => x =? y
  | _, _ => false
  end.

(** The [$push] has a modifier besides [$each]. *)
Definition modified (m : PushModifiers) : bool :=
  match m_position m, m_slice m, m_sort m with
  | None, None, None => false
  | _, _, _ => true
  end.

(** The requests that can rewrite or drop the history of the user
    [target]: an update of that user whose body has a
    [transaction_history], an append to that user whose body has [$each]
    with [$position], [$slice] or [$sort], and the deletion of that
    user. *)
Definition rewrites_history (target : string) (r : Request) : bool :=
  match r with
  | PutUser _ i body =>
      same_user i target
      && match b_transaction_history body with
         | Some _ => true
         | None => false
         end
  | PatchTransactions _ i (Each m) => same_user i target && modified m
  | DeleteUser _ i => same_user i target
  | _ => false
  end.

(** ** What an answer discloses *)

(** The payload is a stored document in full, the password hash under
    [password] with the rest. *)
Definition returns_document (db' : Db) (j : json) : Prop :=
  exists u,
    In u db' /\ j = toJSON u
    /\ member "password" j = Some (JStr (password u)).

End Vocabulary.

(** * The vocabulary of the further properties *)

Section Further.
Context {L : Libs}.

Import Mongoose Schema UserModel.

(** ** The answers of refusal *)

Definition Unauthorized : Response := respond 401 (error "Unauthorized").
Definition InvalidToken : Response := respond 401 (error "Invalid token").
Definition Forbidden : Response := respond 403 (error "Forbidden").
Definition AdminOnly : Response :=
  respond 403 (error "Forbidden: Admin only").
Definition NotFound : Response := respond 404 (error "User not found").

(** The [Authorization] header of a request to a route mounted behind
    [authMiddleware]; the two [/auth] routes have none to show. *)
Definition authorization_of (r : Request) : option (option string) :=
  match r with
  | PostAuthRegister _ | PostAuthLogin _ => None
  | PostUsers a _ | GetUsers a | GetUser a _ | PutUser a _ _
  | DeleteUser a _ | PatchTransactions a _ _ => Some a
  end.

(** ** Invariants of the collection *)

(** The two unique indexes: no two documents share an [_id] or an
    [email]. *)
Definition unique_keys (db : Db) : Prop :=
  NoDup (map _id db) /\ NoDup (map email db).

(** What the [required] and [min] validators ask of a stored entry and
    of a stored user. *)
Definition well_formed_transaction (t : Transaction) : Prop :=
  date t <> "" /\ recipient t <> "" /\ 0 <= amount t.

Definition well_formed_user (u : User) : Prop :=
  username u <> "" /\ email u <> "" /\ password u <> ""
  /\ Forall well_formed_transaction (transaction_history u).

(** What one request can do to the collection: nothing, add a document at
    the end, replace a document by one of the same [_id], remove a
    document. *)
Inductive effect : Db -> Db -> Prop :=
| Unchanged (db : Db) : effect db db
| Inserted (db : Db) (doc : User) :
    existsb (by_id (_id doc)) db = false ->
    existsb (by_email (email doc)) db = false ->
    well_formed_user doc ->
    effect db (db ++ [doc])%list
| Replaced (db : Db) (oid : string) (u u' : User) :
    find (by_id oid) db = Some u ->
    _id u' = _id u ->
    email u' = email u
    \/ existsb (by_email (email u')) (remove_first oid db) = false ->
    (well_formed_user u -> well_formed_user u') ->
    effect db (replace_first oid u' db)
| Removed (db : Db) (oid : string) : effect db (remove_first oid db).

(** ** Bodies that are refused *)

(** A registration that fails a validator or meets a stored email: its
    username or its email is absent or empty, its email is that of a
    stored user, its password is absent, or its role is not one of the
    two. *)
Definition registration_refused (b : Body) (db : Db) : Prop :=
  b_username b = None \/ b_username b = Some ""
  \/ b_email b = None \/ b_email b = Some ""
  \/ (exists e, b_email b = Some e /\ In e (map email db))
  \/ b_password b = None
  \/ (exists r, b_role b = Some r /\ ~ In r role_values).


End Further.

(** * Facts about strings *)

Lemma split_on_free (sep : ascii) (s : string) :
  free_of sep s = true -> split_on sep s = [s].
Proof.
  induction s as [|a r IH]; simpl; [reflexivity|].
  intros H. apply andb_true_iff in H as [Ha Hr].
  apply negb_true_iff in Ha. rewrite Ha, (IH Hr). reflexivity.
Qed.

Lemma split_on_app (sep : ascii) (s r : string) :
  free_of sep s = true ->
  split_on sep (s ++ String sep r) = s :: split_on sep r.
Proof.
  induction s as [|a s IH]; simpl; intros H.
  - rewrite Ascii.eqb_refl. reflexivity.
  - apply andb_true_iff in H as [Ha Hs].
    apply negb_true_iff in Ha. rewrite Ha, (IH Hs). reflexivity.
Qed.

Lemma free_of_app (sep : ascii) (s r : string) :
  free_of sep (s ++ r) = free_of sep s && free_of sep r.
Proof.
  induction s as [|a s IH]; simpl; [reflexivity|].
  rewrite IH. apply andb_assoc.
Qed.

Lemma prefix_app (s r : string) : prefix s (s ++ r) = true.
Proof.
  induction s as [|a s IH]; simpl; [now destruct r|].
  destruct (ascii_dec a a) as [_|N]; [exact IH|now elim N].
Qed.

(** * A concrete instance of the libraries

    A digest, a serialisation, messages and a sort simple enough to
    compute with, for the examples.  The serialisation writes every
    character as its eight bits and every number in binary, and separates
    the key and the five claims by dots; a claim a token does not carry
    has [x] in its place. *)

Module Sample.

Definition bit (b : bool) : ascii := if b then "1"%char else "0"%char.

Definition unbit (a : ascii) : option bool :=
  if Ascii.eqb a "0"%char then Some false
  else if Ascii.eqb a "1"%char then Some true
  else None.

Fixpoint enc_string (s : string) : string :=
  match s with
  | EmptyString => EmptyString
  | String (Ascii b0 b1 b2 b3 b4 b5 b6 b7) r =>
      String (bit b0) (String (bit b1) (String (bit b2) (String (bit b3)
        (String (bit b4) (String (bit b5) (String (bit b6) (String (bit b7)
          (enc_string r))))))))
  end.

Fixpoint dec_string (s : string) : option string :=
  match s with
  | EmptyString => Some EmptyString
  | String a0 (String a1 (String a2 (String a3
      (String a4 (String a5 (String a6 (String a7 r))))))) =>
      match unbit a0, unbit a1, unbit a2, unbit a3,
            unbit a4, unbit a5, unbit a6, unbit a7, dec_string r with
      | Some b0, Some b1, Some b2, Some b3,
        Some b4, Some b5, Some b6, Some b7, Some r' =>
          Some (String (Ascii b0 b1 b2 b3 b4 b5 b6 b7) r')
      | _, _, _, _, _, _, _, _, _ => None
      end
  | _ => None
  end.

Fixpoint enc_pos (p : positive) : string :=
  match p with
  | xH => EmptyString
  | xO q => String "0" (enc_pos q)
  | xI q => String "1" (enc_pos q)
  end.

Fixpoint dec_pos (s : string) : option positive :=
  match s with
  | EmptyString => Some xH
  | String a r =>
      match unbit a, dec_pos r with
      | Some b, Some q => Some (if b then xI q else xO q)
      | _, _ => None
      end
  end.

Definition enc_Z (z : Z) : string :=
  match z with
  | Z0 => "z"
  | Zpos p => String "p" (enc_pos p)
  | Zneg p => String "n" (enc_pos p)
  end.

Definition dec_Z (s : string) : option Z :=
  match s with
  | String a r =>
      if Ascii.eqb a "z"%char then
        if r =? "" then Some Z0 else None
      else if Ascii.eqb a "p"%char then option_map Zpos (dec_pos r)
      else if Ascii.eqb a "n"%char then option_map Zneg (dec_pos r)
      else None
  | EmptyString => None
  end.

Definition enc_exp (e : option Z) : string :=
  match e with
  | Some z => enc_Z z
  | None => "x"
  end.

Definition dec_exp (s : string) : option (option Z) :=
  if s =? "x" then Some None else option_map Some (dec_Z s).

Definition encode (key : string) (c : claims) : string :=
  enc_string key ++ "." ++ enc_string (c_id c) ++ "."
    ++ enc_string (c_role c) ++ "." ++ enc_Z (iat c) ++ "."
    ++ enc_exp (nbf c) ++ "." ++ enc_exp (exp c).

Definition decode (key token : string) : option claims :=
  match split_on "." token with
  | [k; i; r; t0; t1; t2] =>
      if k =? enc_string key then
        match dec_string i, dec_string r, dec_Z t0, dec_exp t1,
              dec_exp t2 with
        | Some i', Some r', Some t0', Some t1', Some t2' =>
            Some {| c_id := i'; c_role := r'; iat := t0'; nbf := t1';
                    exp := t2' |}
        | _, _, _, _, _ => None
        end
      else None
  | _ => None
  end.

(** The digest: the password, cut or padded to 31 characters. *)
Definition padding : string := "0123456789012345678901234567890".

Definition wording (e : exn) : string :=
  match e with
  | ValidationError _ => "Validation failed"
  | CastError _ => "Cast to ObjectId failed"
  | DuplicateKey _ => "E11000 duplicate key error"
  | IllegalArguments => "Illegal arguments"
  | BadTimespan => "bad timespan"
  | JsonWebTokenError => "invalid token"
  | NotBeforeError => "jwt not active"
  | TokenExpiredError => "jwt expired"
  | MongoServerError => "The $sort is invalid"
  end.

(** The sort: by amount, upwards under [{ amount: 1 }] and downwards
    under [{ amount: -1 }], the two specifications accepted. *)
Definition accepts (spec : json) : bool :=
  match spec with
  | JObj [("amount", JNum 1)] | JObj [("amount", JNum (-1))] => true
  | _ => false
  end.

Definition before (spec : json) (a b : Transaction) : bool :=
  match spec with
  | JObj [("amount", JNum (-1))] => (amount b <=? amount a)%Z
  | _ => (amount a <=? amount b)%Z
  end.

Fixpoint insert (spec : json) (a : Transaction) (l : list Transaction)
    : list Transaction :=
  match l with
  | [] => [a]
  | b :: r => if before spec a b then a :: l else b :: insert spec a r
  end.

Fixpoint sort (spec : json) (l : list Transaction) : list Transaction :=
  match l with
  | [] => []
  | a :: r => insert spec a (sort spec r)
  end.

Lemma insert_permutes (spec : json) (a : Transaction)
    (l : list Transaction) :
  Permutation (a :: l) (insert spec a l).
Proof.
  induction l as [|b r IH]; cbn [insert]; [reflexivity|].
  destruct (before spec a b); [reflexivity|].
  rewrite perm_swap. now apply perm_skip.
Qed.

Lemma sort_permutes (spec : json) (l : list Transaction) :
  Permutation l (sort spec l).
Proof.
  induction l as [|a r IH]; cbn [sort]; [reflexivity|].
  rewrite <- insert_permutes. now apply perm_skip.
Qed.

Lemma dec_enc_string (s : string) : dec_string (enc_string s) = Some s.
Proof.
  induction s as [|a r IH]; [reflexivity|].
  destruct a as [b0 b1 b2 b3 b4 b5 b6 b7].
  cbn [enc_string dec_string]. rewrite IH.
  destruct b0, b1, b2, b3, b4, b5, b6, b7; reflexivity.
Qed.

Lemma dec_enc_pos (p : positive) : dec_pos (enc_pos p) = Some p.
Proof.
  induction p as [q IH|q IH|]; simpl; try rewrite IH; reflexivity.
Qed.

Lemma dec_enc_Z (z : Z) : dec_Z (enc_Z z) = Some z.
Proof.
  destruct z as [|p|p]; simpl; try rewrite dec_enc_pos; reflexivity.
Qed.

Lemma bit_free (sep : ascii) (b : bool) :
  free_of sep "01" = true -> Ascii.eqb (bit b) sep = false.
Proof.
  simpl. intros H. apply andb_true_iff in H as [H0 H1].
  apply andb_true_iff in H1 as [H1 _].
  apply negb_true_iff in H0, H1. now destruct b.
Qed.

Lemma enc_string_free (sep : ascii) (s : string) :
  free_of sep "01" = true -> free_of sep (enc_string s) = true.
Proof.
  intros H. induction s as [|a r IH]; [reflexivity|].
  destruct a as [b0 b1 b2 b3 b4 b5 b6 b7].
  cbn [enc_string free_of]. rewrite !(bit_free sep _ H), IH. reflexivity.
Qed.

Lemma enc_pos_free (sep : ascii) (p : positive) :
  free_of sep "01" = true -> free_of sep (enc_pos p) = true.
Proof.
  intros H.
  pose proof (bit_free sep true H) as H1.
  pose proof (bit_free sep false H) as H0. simpl in H0, H1.
  induction p as [q IH|q IH|]; simpl; rewrite ?H0, ?H1, ?IH; reflexivity.
Qed.

Lemma enc_Z_free (sep : ascii) (z : Z) :
  free_of sep "01zpn" = true -> free_of sep (enc_Z z) = true.
Proof.
  intros H. cbn [free_of] in H.
  destruct (Ascii.eqb "0" sep) eqn:E0, (Ascii.eqb "1" sep) eqn:E1,
    (Ascii.eqb "z" sep) eqn:Ez, (Ascii.eqb "p" sep) eqn:Ep,
    (Ascii.eqb "n" sep) eqn:En; try discriminate.
  assert (H01 : free_of sep "01" = true).
  { cbn [free_of]. now rewrite E0, E1. }
  destruct z as [|p|p]; cbn [enc_Z free_of]; rewrite ?Ez, ?Ep, ?En;
    cbn [negb andb]; try apply enc_pos_free; auto.
Qed.

Lemma dec_enc_exp (e : option Z) : dec_exp (enc_exp e) = Some e.
Proof.
  destruct e as [z|]; [|reflexivity].
  unfold dec_exp. cbn [enc_exp].
  assert ((enc_Z z =? "x") = false) as -> by now destruct z.
  now rewrite dec_enc_Z.
Qed.

Lemma enc_exp_free (sep : ascii) (e : option Z) :
  free_of sep "01zpnx" = true -> free_of sep (enc_exp e) = true.
Proof.
  intros H. cbn [free_of] in H.
  destruct (Ascii.eqb "0" sep) eqn:E0, (Ascii.eqb "1" sep) eqn:E1,
    (Ascii.eqb "z" sep) eqn:Ez, (Ascii.eqb "p" sep) eqn:Ep,
    (Ascii.eqb "n" sep) eqn:En, (Ascii.eqb "x" sep) eqn:Ex;
    try discriminate.
  destruct e as [z|]; cbn [enc_exp free_of].
  - apply enc_Z_free. cbn [free_of]. now rewrite E0, E1, Ez, Ep, En.
  - now rewrite Ex.
Qed.

Lemma decode_encode (key : string) (c : claims) :
  decode key (encode key c) = Some c.
Proof.
  unfold decode, encode. cbn [append].
  rewrite !split_on_app, split_on_free
    by (apply enc_string_free || apply enc_Z_free || apply enc_exp_free;
        reflexivity).
  rewrite String.eqb_refl, !dec_enc_string, dec_enc_Z, !dec_enc_exp.
  now destruct c.
Qed.

Lemma encode_no_space (key : string) (c : claims) :
  free_of " " (encode key c) = true.
Proof.
  unfold encode.
  repeat (rewrite free_of_app; cbn [append free_of]).
  rewrite !enc_string_free by reflexivity.
  rewrite enc_Z_free, !enc_exp_free by reflexivity.
  reflexivity.
Qed.

#[export] Instance libs : Libs := {|
  digest := fun pw salt => substring 0 31 (pw ++ padding);
  jws_encode := encode;
  jws_decode := decode;
  message := wording;
  sort_accepts := accepts;
  sort_entries := sort;
  jws_decode_encode := decode_encode;
  jws_encode_no_space := encode_no_space;
  sort_entries_permutes := sort_permutes
|}.

End Sample.

(** * A small scenario for the examples *)

Module Scenario.
Import Sample.

Definition ann_id : string := "aaaaaaaaaaaaaaaaaaaaaaaa".
Definition bob_id : string := "bbbbbbbbbbbbbbbbbbbbbbbb".
Definition new_id : string := "cccccccccccccccccccccccc".
Definition entry_id : string := "dddddddddddddddddddddddd".

Definition env0 : Env :=
  {| now := 1700000000123;
     rnd := "abcdefghijklmnopqrstuv";
     fresh := fun n => match n with O => new_id | _ => entry_id end |}.

Definition coffee : Transaction :=
  {| tx_id := "eeeeeeeeeeeeeeeeeeeeeeee";
     date := "2023-11-14";
     amount := 4;
     recipient := "cafe";
     status := "Success" |}.

(** Ann, who registered with the password ["hunter2"], and Bob. *)
Definition ann : User :=
  {| _id := ann_id;
     username := "ann";
     email := "ann@example.org";
     password := "$2a$10$abcdefghijklmnopqrstuvhunter2012345678901234567890123";
     balance := 10;
     wallet := "rAnn";
     seed := "";
     transaction_history := [coffee];
     role := "user";
     createdAt := 1600000000000;
     updatedAt := 1600000000000 |}.

Definition bob : User :=
  {| _id := bob_id;
     username := "bob";
     email := "bob@example.org";
     password := "$2a$10$abcdefghijklmnopqrstuvswordfish0123456789012345678901";
     balance := 0;
     wallet := "";
     seed := "";
     transaction_history := [];
     role := "user";
     createdAt := 1600000000000;
     updatedAt := 1600000000000 |}.

Definition db0 : Db := [ann; bob].

Definition credentials (e pw : string) : Body :=
  {| b_username := None; b_email := Some e; b_password := Some pw;
     b_balance := None; b_wallet := None; b_seed := None;
     b_transaction_history := None; b_role := None |}.

Definition registration (name e pw r : string) : Body :=
  {| b_username := Some name; b_email := Some e; b_password := Some pw;
     b_balance := None; b_wallet := None; b_seed := None;
     b_transaction_history := None; b_role := Some r |}.

Definition without_password (name e : string) : Body :=
  {| b_username := Some name; b_email := Some e; b_password := None;
     b_balance := None; b_wallet := None; b_seed := None;
     b_transaction_history := None; b_role := None |}.

(** The header of a request that carries a token for [id] and [role],
    signed with the default secret and issued at [env0]. *)
Definition bearer (id role : string) : option string :=
  Some ("Bearer "
        ++ jws_encode "dev_secret"
             {| c_id := id; c_role := role;
                iat := 1700000000; nbf := None;
                exp := Some 1700086400 |}).

Definition as_ann : Req.user := {| Req.id := ann_id; Req.role := "user" |}.
Definition as_root : Req.user :=
  {| Req.id := new_id; Req.role := "admin" |}.

Definition entry (d : string) (n : Z) (r s : string) : TransactionBody :=
  {| t_date := Some d; t_amount := Some n; t_recipient := Some r;
     t_status := Some s |}.

Definition new_wallet : Body :=
  {| b_username := None; b_email := None; b_password := None;
     b_balance := None; b_wallet := Some "rNew"; b_seed := None;
     b_transaction_history := None; b_role := None |}.

(** Ann's profile as it is, with an empty history in the place of hers. *)
Definition empty_history : Body :=
  {| b_username := Some "ann"; b_email := Some "ann@example.org";
     b_password := None; b_balance := Some 10; b_wallet := Some "rAnn";
     b_seed := Some ""; b_transaction_history := Some [];
     b_role := Some "user" |}.

(** Eve as her registration at [env0] stores her. *)
Definition eve : User :=
  {| _id := new_id;
     username := "eve";
     email := "eve@example.org";
     password := "$2a$10$abcdefghijklmnopqrstuvpw01234567890123456789012345678";
     balance := 0;
     wallet := "";
     seed := "";
     transaction_history := [];
     role := "user";
     createdAt := 1700000000123;
     updatedAt := 1700000000123 |}.

(** The token of [bearer]. *)
Definition token (id role : string) : string :=
  jws_encode "dev_secret"
    {| c_id := id; c_role := role;
       iat := 1700000000; nbf := None;
       exp := Some 1700086400 |}.

(** A day of requests: Eve registers, Ann records an entry and changes
    her wallet, Bob deletes his account. *)
Definition day : list (Env * Request) :=
  [(env0, PostAuthRegister (registration "eve" "eve@example.org" "pw" "user"));
   (env0, PatchTransactions (bearer ann_id "user") ann_id
            (Entry (entry "2023-11-15" 0 "bakery" "Pending")));
   (env0, PutUser (bearer ann_id "user") ann_id new_wallet);
   (env0, DeleteUser (bearer bob_id "user") bob_id)].

(** A registration that asks for a balance and a wallet. *)
Definition greedy : Body :=
  {| b_username := Some "eve"; b_email := Some "eve@example.org";
     b_password := Some "pw"; b_balance := Some 1000000;
     b_wallet := Some "rEve"; b_seed := Some "s3cret";
     b_transaction_history := None; b_role := None |}.

(** What the admin fills in for Carol. *)
Definition carol_draft : Body :=
  {| b_username := Some "carol"; b_email := Some "carol@example.org";
     b_password := Some "opensesame"; b_balance := Some 25;
     b_wallet := Some "rCarol"; b_seed := None;
     b_transaction_history := Some [entry "2023-11-01" 5 "ann" "Success"];
     b_role := None |}.

(** An entry with no status. *)
Definition bare_entry : TransactionBody :=
  {| t_date := Some "2023-11-16"; t_amount := Some 3;
     t_recipient := Some "bob"; t_status := None |}.

(** Ann asks for the role of admin and a balance below zero. *)
Definition promotion : Body :=
  {| b_username := None; b_email := None; b_password := None;
     b_balance := Some (-5); b_wallet := None; b_seed := None;
     b_transaction_history := None; b_role := Some "admin" |}.

Definition new_password (pw : string) : Body :=
  {| b_username := None; b_email := None; b_password := Some pw;
     b_balance := None; b_wallet := None; b_seed := None;
     b_transaction_history := None; b_role := None |}.

(** A role the schema does not list. *)
Definition root_role : Body :=
  {| b_username := None; b_email := None; b_password := None;
     b_balance := None; b_wallet := None; b_seed := None;
     b_transaction_history := None; b_role := Some "root" |}.

(** The body [{ $each: [], $slice: 0 }]. *)
Definition cut : PushModifiers :=
  {| m_each := []; m_position := None; m_slice := Some 0;
     m_sort := None |}.

(** The body [{ $each: [entry], $position: 0 }]. *)
Definition first_place : PushModifiers :=
  {| m_each := [bare_entry]; m_position := Some 0; m_slice := None;
     m_sort := None |}.

(** Ann's profile with a history of two entries in the place of hers. *)
Definition two_entries : Body :=
  {| b_username := None; b_email := None; b_password := None;
     b_balance := None; b_wallet := None; b_seed := None;
     b_transaction_history :=
       Some [entry "2023-11-01" 5 "bob" "Success"; bare_entry];
     b_role := None |}.

End Scenario.

(** * Properties of the server *)

(** Case analysis on the scrutinee of a match, innermost first. *)
Ltac innermost x :=
  lazymatch x with
  | context [match ?y with _ => _ end] => innermost y
  | _ => destruct x eqn:?; cbn
  end.

(** ** The collection under the model's operations *)

Section Collection.
Import UserModel.

Lemma by_id_true (oid : string) (u : User) :
  by_id oid u = true <-> _id u = oid.
Proof. apply String.eqb_eq. Qed.

Lemma find_by_id_id (oid : string) (db : Db) (u : User) :
  find (by_id oid) db = Some u -> _id u = oid.
Proof. intros H. apply find_some in H as [_ H]. now apply by_id_true. Qed.

Lemma find_replace_first_same (oid : string) (u' : User) (db : Db) :
  _id u' = oid -> find (by_id oid) db <> None ->
  find (by_id oid) (replace_first oid u' db) = Some u'.
Proof.
  intros Hid. induction db as [|v db IH]; simpl; [congruence|].
  intros H. destruct (by_id oid v) eqn:E; simpl.
  - apply by_id_true in Hid. now rewrite Hid.
  - rewrite E. auto.
Qed.

Lemma find_replace_first_other (oid oid' : string) (u' : User) (db : Db) :
  _id u' = oid' -> oid <> oid' ->
  find (by_id oid) (replace_first oid' u' db) = find (by_id oid) db.
Proof.
  intros Hid Hne. induction db as [|v db IH]; simpl; [reflexivity|].
  destruct (by_id oid' v) eqn:E; simpl.
  - apply by_id_true in E.
    assert (by_id oid u' = false) as ->
      by (apply not_true_iff_false; rewrite by_id_true; congruence).
    assert (by_id oid v = false) as ->
      by (apply not_true_iff_false; rewrite by_id_true; congruence).
    reflexivity.
  - now rewrite IH.
Qed.

Lemma find_remove_first_other (oid oid' : string) (db : Db) :
  oid <> oid' ->
  find (by_id oid) (remove_first oid' db) = find (by_id oid) db.
Proof.
  intros Hne. induction db as [|v db IH]; simpl; [reflexivity|].
  destruct (by_id oid' v) eqn:E; simpl.
  - apply by_id_true in E.
    assert (by_id oid v = false) as ->
      by (apply not_true_iff_false; rewrite by_id_true; congruence).
    reflexivity.
  - now rewrite IH.
Qed.

Lemma In_remove_first (oid : string) (db : Db) (v : User) :
  In v (remove_first oid db) -> In v db.
Proof.
  induction db as [|w db IH]; simpl; [auto|].
  destruct (by_id oid w); simpl; intuition.
Qed.

Lemma find_app_found {A : Type} (f : A -> bool) (l r : list A) (a : A) :
  find f l = Some a -> find f (l ++ r)%list = Some a.
Proof.
  induction l as [|x l IH]; simpl; [discriminate|].
  destruct (f x); auto.
Qed.

Lemma In_replace_first (oid : string) (u' : User) (db : Db) :
  find (by_id oid) db <> None -> In u' (replace_first oid u' db).
Proof.
  induction db as [|v db IH]; simpl; [congruence|].
  destruct (by_id oid v); simpl; auto.
Qed.

Lemma UserModel_find_by_email_In (e : string) (db : Db) :
  (exists u, In u db /\ email u = e) -> find (by_email e) db <> None.
Proof.
  intros (u & Hin & He) Hnone.
  apply (find_none _ _ Hnone) in Hin.
  unfold by_email in Hin. rewrite He, String.eqb_refl in Hin.
  discriminate.
Qed.

End Collection.

(** ** Authorization: self or admin *)

Section Authorization.
Context {L : Libs}.

Lemma guard_false (principal : Req.user) (target : string) :
  negb (Req.id principal =? target) && negb (Req.role principal =? "admin")
    = false <-> self_or_admin principal target.
Proof.
  unfold self_or_admin.
  rewrite andb_false_iff, !negb_false_iff, !String.eqb_eq. reflexivity.
Qed.

Lemma guard_true (principal : Req.user) (target : string) :
  negb (Req.id principal =? target) && negb (Req.role principal =? "admin")
    = true -> ~ self_or_admin principal target.
Proof.
  intros H S. apply guard_false in S. congruence.
Qed.

Ltac branches :=
  repeat match goal with
    | |- context [match ?x with _ => _ end] => innermost x
    end.

Lemma get_user_allowed principal target db :
  allowed (get_user principal target db) <-> self_or_admin principal target.
Proof.
  unfold allowed, get_user.
  destruct (negb (Req.id principal =? target)
            && negb (Req.role principal =? "admin")) eqn:G; cbn.
  - split; [congruence|]. intros S. now apply guard_true in G.
  - apply guard_false in G. split; [auto|intros _].
    unfold bind, try_catch. branches; discriminate.
Qed.

Lemma put_user_allowed env principal target body db :
  allowed (put_user env principal target body db)
  <-> self_or_admin principal target.
Proof.
  unfold allowed, put_user.
  destruct (negb (Req.id principal =? target)
            && negb (Req.role principal =? "admin")) eqn:G; cbn.
  - split; [congruence|]. intros S. now apply guard_true in G.
  - apply guard_false in G. split; [auto|intros _].
    unfold bind, try_catch. branches; discriminate.
Qed.

Lemma delete_user_allowed principal target db :
  allowed (delete_user principal target db)
  <-> self_or_admin principal target.
Proof.
  unfold allowed, delete_user.
  destruct (negb (Req.id principal =? target)
            && negb (Req.role principal =? "admin")) eqn:G; cbn.
  - split; [congruence|]. intros S. now apply guard_true in G.
  - apply guard_false in G. split; [auto|intros _].
    unfold bind, try_catch. branches; discriminate.
Qed.

Lemma patch_transactions_allowed env principal target transaction db :
  allowed (patch_transactions env principal target transaction db)
  <-> self_or_admin principal target.
Proof.
  unfold allowed, patch_transactions.
  destruct (negb (Req.id principal =? target)
            && negb (Req.role principal =? "admin")) eqn:G; cbn.
  - split; [congruence|]. intros S. now apply guard_true in G.
  - apply guard_false in G. split; [auto|intros _].
    unfold bind, try_catch. branches; discriminate.
Qed.

(** C1.  Get user, update user, delete user and append transaction let a
    request of principal P on target T past the authorization check
    exactly when P's id is T or P's role is admin: one and the same rule
    for the four routes. *)
Theorem self_or_admin_on_all_four_routes
    (env : Env) (principal : Req.user) (target : string) (body : Body)
    (transaction : PatchBody) (db : Db) :
  (allowed (get_user principal target db)
     <-> self_or_admin principal target)
  /\ (allowed (put_user env principal target body db)
     <-> self_or_admin principal target)
  /\ (allowed (delete_user principal target db)
     <-> self_or_admin principal target)
  /\ (allowed (patch_transactions env principal target transaction db)
     <-> self_or_admin principal target).
Proof.
  repeat split;
    first [ apply get_user_allowed | apply put_user_allowed
          | apply delete_user_allowed | apply patch_transactions_allowed ].
Qed.

End Authorization.

(** ** Registration and login *)

Section Credentials.
Context {L : Libs}.
Variable JWT_SECRET : option string.

(** C3.  A login under an unknown email and a login whose password does
    not match the stored hash are answered alike: status 400 and the
    payload [{ error: "Invalid credentials" }], the collection left as it
    was. *)
Theorem login_failures_indistinguishable
    (env1 env2 : Env) (body1 body2 : Body) (db1 db2 : Db) (user : User) :
  UserModel.findOne (b_email body1) db1 = None ->
  UserModel.findOne (b_email body2) db2 = Some user ->
  Bcrypt.compare (b_password body2) (password user) = Ok false ->
  post_auth_login JWT_SECRET env1 body1 db1 = (db1, InvalidCredentials)
  /\ post_auth_login JWT_SECRET env2 body2 db2 = (db2, InvalidCredentials).
Proof.
  intros Unknown Known Mismatch. unfold post_auth_login.
  rewrite Unknown, Known, Mismatch. split; reflexivity.
Qed.

(** C4.  A registration whose email is the email of a stored user is
    answered [DuplicateEmail] and leaves the collection unchanged. *)
Theorem register_duplicate_email
    (env : Env) (body : Body) (db : Db) (e : string) :
  b_email body = Some e ->
  (exists u, In u db /\ email u = e) ->
  post_auth_register env body db = (db, DuplicateEmail).
Proof.
  intros He Taken. apply UserModel_find_by_email_In in Taken.
  unfold post_auth_register, UserModel.findOne. rewrite He.
  destruct (find (UserModel.by_email e) db); [reflexivity|congruence].
Qed.

End Credentials.

Section CredentialsExamples.
Import Scenario.
Existing Instance Sample.libs.

Example ann_logs_in_with_hunter2 :
  Bcrypt.compare (Some "hunter2") (password ann) = Ok true.
Proof. reflexivity. Qed.

Lemma login_failures_indistinguishable_witness :
  post_auth_login None env0 (credentials "eve@example.org" "hunter2") db0
    = (db0, InvalidCredentials)
  /\ post_auth_login None env0 (credentials "ann@example.org" "hunter3") db0
    = (db0, InvalidCredentials).
Proof.
  apply (login_failures_indistinguishable None env0 env0
           (credentials "eve@example.org" "hunter2")
           (credentials "ann@example.org" "hunter3") db0 db0 ann);
    reflexivity.
Defined.

Lemma register_duplicate_email_witness :
  post_auth_register env0
    (registration "ann2" "ann@example.org" "secret" "user") db0
  = (db0, DuplicateEmail).
Proof.
  apply (register_duplicate_email env0 _ db0 "ann@example.org");
    [reflexivity|].
  exists ann. split; [left|]; reflexivity.
Defined.

End CredentialsExamples.

(** ** Creating accounts *)

Section Accounts.
Context {L : Libs}.
Variable JWT_SECRET : option string.

Import Mongoose Schema.

Lemma find_nothing {A : Type} (f : A -> bool) (l : list A) :
  (forall x, In x l -> f x = false) -> find f l = None.
Proof.
  induction l as [|x l IH]; simpl; [reflexivity|]. intros H.
  rewrite (H x) by now left. apply IH. intros y Hy. apply H. now right.
Qed.

Lemma existsb_nothing {A : Type} (f : A -> bool) (l : list A) :
  (forall x, In x l -> f x = false) -> existsb f l = false.
Proof.
  induction l as [|x l IH]; simpl; [reflexivity|]. intros H.
  rewrite (H x) by now left. apply IH. intros y Hy. apply H. now right.
Qed.

Lemma required_string_given (p : vpath) (s : string) :
  s <> "" -> required_string p (Some s) = [].
Proof.
  intros H. unfold required_string.
  destruct (s =? "") eqn:E; [apply String.eqb_eq in E; contradiction|].
  reflexivity.
Qed.

(** A bcrypt hash is never the empty string. *)
Lemma hash_not_empty (pw rnd : string) :
  exists h, Bcrypt.hash (Some pw) (Bcrypt.genSalt 10 rnd) = Ok h /\ h <> "".
Proof.
  eexists. split; [reflexivity|]. discriminate.
Qed.

(** C10.  [POST /auth/register] is mounted without [authMiddleware] and
    stores the role of the request body as it is: a body with a name, a
    fresh email, a password and the role ["admin"] (or ["user"]) creates a
    user of that role, so anyone can create an administrator. *)
Theorem register_stores_requested_role
    (env : Env) (body : Body) (db : Db) (name e pw r : string) :
  b_username body = Some name -> name <> "" ->
  b_email body = Some e -> e <> "" ->
  b_password body = Some pw ->
  b_role body = Some r -> r = "user" \/ r = "admin" ->
  (forall u, In u db -> email u <> e) ->
  (forall u, In u db -> _id u <> fresh env 0) ->
  exists u,
    handle JWT_SECRET env (PostAuthRegister body) db
      = ((db ++ [u])%list, respond 201 (UserModel.toJSON u))
    /\ role u = r /\ username u = name /\ email u = e.
Proof.
  intros Hname Nname Hemail Nemail Hpw Hrole Renum Fresh_email Fresh_id.
  cbn [handle]. unfold post_auth_register, UserModel.findOne.
  rewrite Hemail, Hpw, Hname, Hrole.
  rewrite find_nothing.
  2:{ intros u Hu. apply not_true_iff_false. unfold UserModel.by_email.
      rewrite String.eqb_eq. now apply Fresh_email. }
  cbn [Bcrypt.hash bind]. unfold UserModel.save, validate_user.
  cbn [b_username b_email b_password b_transaction_history b_role
       or_default validate_history].
  rewrite !required_string_given by (assumption || discriminate).
  assert (enum (Path "role") role_values (Some r) = []) as ->
    by (destruct Renum; subst r; reflexivity).
  cbn [app new_User _id email or_default b_email].
  rewrite !existsb_nothing.
  - cbn. eexists. split; [reflexivity|]. cbn. auto.
  - intros u Hu. apply not_true_iff_false. unfold UserModel.by_email.
    rewrite String.eqb_eq. now apply Fresh_email.
  - intros u Hu. apply not_true_iff_false. rewrite by_id_true.
    now apply Fresh_id.
Qed.

Lemma password_missing (b : Body) :
  b_password b = Some "" ->
  In (Path "password", Required) (validate_user b).
Proof.
  intros H. unfold validate_user. rewrite H.
  rewrite !in_app_iff. right. right. left. now left.
Qed.

(** C9, on the code.  [POST /users] by an admin with no password in the
    body (or an empty one) passes the empty string to [new User], and
    [save] refuses it: the [required] validator of [password] fails, the
    answer is 400 and nothing is stored. *)
Theorem post_users_without_password_is_refused
    (env : Env) (user : Req.user) (body : Body) (db : Db) :
  Req.role user = "admin" ->
  truthy (b_password body) = false ->
  exists errors,
    In (Path "password", Required) errors
    /\ post_users env user body db
       = (db, respond 400 (error (message (ValidationError errors)))).
Proof.
  intros Admin Falsy. unfold post_users. rewrite Admin, Falsy.
  cbn [String.eqb Ascii.eqb Bool.eqb negb bind].
  unfold UserModel.save.
  match goal with
  | |- context [validate_user ?b] =>
      pose proof (password_missing b eq_refl) as Missing;
      destruct (validate_user b) as [|failure errors] eqn:E
  end.
  - destruct Missing.
  - exists (failure :: errors). split; [assumption|reflexivity].
Qed.

(** With a password, [POST /users] stores its bcrypt hash. *)
Lemma post_users_hashes_password
    (env : Env) (user : Req.user) (body : Body) (db db' : Db) (pw : string)
    (answer : Response) :
  b_password body = Some pw -> pw <> "" ->
  post_users env user body db = (db', answer) ->
  status_code answer = 201 ->
  exists u, db' = (db ++ [u])%list
    /\ Ok (password u)
       = Bcrypt.hash (Some pw) (Bcrypt.genSalt 10 (rnd env)).
Proof.
  intros Hpw Npw. unfold post_users.
  destruct (negb (Req.role user =? "admin")).
  { intros [= <- <-]. discriminate. }
  unfold truthy. rewrite Hpw.
  apply String.eqb_neq in Npw. rewrite Npw.
  cbn [negb Bcrypt.hash bind]. unfold UserModel.save.
  match goal with
  | |- context [validate_user ?b] => destruct (validate_user b)
  end; [|intros [= <- <-]; discriminate].
  match goal with
  | |- context [if ?c then _ else _] => destruct c
  end; [intros [= <- <-]; discriminate|].
  match goal with
  | |- context [if ?c then _ else _] => destruct c
  end; [intros [= <- <-]; discriminate|].
  cbn. intros [= <- <-] _. eexists. split; reflexivity.
Qed.

End Accounts.

Section AccountsExamples.
Import Scenario.
Existing Instance Sample.libs.

Lemma register_stores_requested_role_witness :
  exists u,
    handle None env0
      (PostAuthRegister (registration "eve" "eve@example.org" "pw" "admin"))
      db0
    = ((db0 ++ [u])%list, respond 201 (UserModel.toJSON u))
    /\ role u = "admin" /\ username u = "eve" /\ email u = "eve@example.org".
Proof.
  apply (register_stores_requested_role None env0
           (registration "eve" "eve@example.org" "pw" "admin") db0
           "eve" "eve@example.org" "pw" "admin");
    try reflexivity; try discriminate.
  - now right.
  - intros u [<-|[<-|[]]]; discriminate.
  - intros u [<-|[<-|[]]]; discriminate.
Defined.

Lemma post_users_without_password_is_refused_witness :
  exists errors,
    In (Path "password", Required) errors
    /\ post_users env0 as_root
         (registration "carol" "carol@example.org" "" "user") db0
       = (db0, respond 400 (error (message (ValidationError errors)))).
Proof.
  apply (post_users_without_password_is_refused env0 as_root
           (without_password "carol" "carol@example.org") db0);
    reflexivity.
Defined.

End AccountsExamples.

(** ** What an update does to the collection *)

Section Updates.
Context {L : Libs}.

Import Mongoose Schema UserModel.

Lemma apply_update_id env upd u : _id (apply_update env upd u) = _id u.
Proof. destruct upd as [b|[t|m]]; reflexivity. Qed.

Lemma apply_push_email env b u :
  email (apply_update env (Push b) u) = email u.
Proof. destruct b as [t|m]; reflexivity. Qed.

Lemma findByIdAndUpdate_cases env target upd db db' res :
  findByIdAndUpdate env target upd db = Ok (db', res) ->
  (db' = db /\ res = None
   /\ exists oid, castObjectId target = Some oid
        /\ find (by_id oid) db = None)
  \/ exists oid u,
       castObjectId target = Some oid
       /\ find (by_id oid) db = Some u
       /\ update_validators upd = []
       /\ db' = replace_first oid (apply_update env upd u) db
       /\ res = Some (apply_update env upd u).
Proof.
  unfold findByIdAndUpdate.
  destruct (castObjectId target) as [oid|]; [|discriminate].
  destruct (update_validators upd); [|discriminate].
  destruct (unreadable upd); [discriminate|].
  destruct (find (by_id oid) db) as [u|] eqn:F.
  - destruct (_ && _); [discriminate|]. intros [= <- <-].
    right. exists oid, u. auto.
  - intros [= <- <-]. left. eauto.
Qed.

Lemma findByIdAndUpdate_found env target upd db oid u :
  castObjectId target = Some oid ->
  find (by_id oid) db = Some u ->
  update_validators upd = [] ->
  unreadable upd = false ->
  email (apply_update env upd u) = email u ->
  findByIdAndUpdate env target upd db
  = Ok (replace_first oid (apply_update env upd u) db,
        Some (apply_update env upd u)).
Proof.
  intros C F V R E. unfold findByIdAndUpdate. rewrite C, V, R, F, E.
  now rewrite String.eqb_refl.
Qed.

Lemma findById_found target db u :
  findById target db = Ok (Some u) <->
  exists oid, castObjectId target = Some oid /\ find (by_id oid) db = Some u.
Proof.
  unfold findById. destruct (castObjectId target) as [oid|].
  - split; [intros [= H]; eauto|intros (o & [= <-] & H); now rewrite H].
  - split; [discriminate|intros (o & H & _); discriminate].
Qed.

Lemma findById_absent target db :
  findById target db = Ok None <->
  exists oid, castObjectId target = Some oid /\ find (by_id oid) db = None.
Proof.
  unfold findById. destruct (castObjectId target) as [oid|].
  - split; [intros [= H]; eauto|intros (o & [= <-] & H); now rewrite H].
  - split; [discriminate|intros (o & H & _); discriminate].
Qed.

Lemma put_user_cases env principal target body db :
  (fst (put_user env principal target body db) = db
   /\ status_code (snd (put_user env principal target body db)) <> 200)
  \/ exists oid u updateData,
       castObjectId target = Some oid
       /\ find (by_id oid) db = Some u
       /\ carries env body updateData
       /\ validate_set updateData = []
       /\ put_user env principal target body db
          = (replace_first oid (apply_set env updateData u) db,
             respond 200 (toJSON (apply_set env updateData u))).
Proof.
  unfold put_user.
  destruct (negb (Req.id principal =? target)
            && negb (Req.role principal =? "admin")).
  { left. cbn. split; [reflexivity|discriminate]. }
  cbv zeta.
  match goal with
  | |- context [bind ?m _] =>
      assert (exists updateData, m = Ok updateData
                                 /\ carries env body updateData)
        as (updateData & -> & Carries)
  end.
  { unfold carries. destruct (b_password body) as [s|]; cbn.
    - destruct (s =? ""); cbn; eexists; (split; [reflexivity|]); cbn;
        repeat split; auto; discriminate.
    - eexists. split; [reflexivity|]. cbn. repeat split; auto; discriminate. }
  cbn [bind].
  destruct (findByIdAndUpdate env target (Set_ updateData) db)
    as [[db' res]|e] eqn:U.
  - apply findByIdAndUpdate_cases in U
      as [(-> & -> & _)|(oid & u & C & F & V & -> & ->)].
    + left. cbn. split; [reflexivity|discriminate].
    + right. exists oid, u, updateData.
      split; [exact C|]. split; [exact F|]. split; [exact Carries|].
      split; [exact V|reflexivity].
  - left. cbn. split; [reflexivity|discriminate].
Qed.

Lemma validate_set_passes (b : Body) :
  validate_set b = [] <->
  when_set (required_string (Path "username")) (b_username b) = []
  /\ when_set (required_string (Path "email")) (b_email b) = []
  /\ when_set (required_string (Path "password")) (b_password b) = []
  /\ validate_history 0 (or_default (b_transaction_history b) []) = []
  /\ enum (Path "role") role_values (b_role b) = [].
Proof.
  unfold validate_set. split.
  - intros V.
    apply app_eq_nil in V as [Hu V]. apply app_eq_nil in V as [He V].
    apply app_eq_nil in V as [Hp V]. apply app_eq_nil in V as [Hh Hr].
    auto.
  - intros (-> & -> & -> & -> & ->). reflexivity.
Qed.

(** Past the authorization check, [PUT /users/:id] is the update of the
    collection with an [updateData] that carries the body, and that passes
    the validators when the body does. *)
Lemma put_user_authorized env principal target body db :
  self_or_admin principal target ->
  exists updateData,
    carries env body updateData
    /\ (validate_set body = [] -> validate_set updateData = [])
    /\ put_user env principal target body db
       = try_catch db 400
           (await (db', updatedUser) <-
              findByIdAndUpdate env target (Set_ updateData) db in
            match updatedUser with
            | None => Ok (db', respond 404 (error "User not found"))
            | Some doc => Ok (db', respond 200 (toJSON doc))
            end).
Proof.
  intros Auth. apply guard_false in Auth.
  unfold put_user. rewrite Auth. cbv zeta.
  match goal with
  | |- context [bind ?m _] =>
      assert (exists updateData,
                m = Ok updateData
                /\ carries env body updateData
                /\ (validate_set body = [] -> validate_set updateData = []))
        as (updateData & -> & Carries & Passes)
  end.
  { unfold carries.
    destruct (b_password body) as [s|]; cbn [truthy];
      [destruct (s =? ""); cbn [negb Bcrypt.hash bind]|];
      (eexists; split; [reflexivity|]); cbn;
      (split; [repeat split; auto; discriminate|]);
      intros V; apply validate_set_passes in V;
      apply validate_set_passes; cbn;
      destruct V as (Hu & He & _ & Hh & Hr); auto. }
  exists updateData. auto.
Qed.

(** [PATCH /users/:id/transactions] either leaves the collection as it is,
    and does not answer 200, or applies the [$push] to the document of
    that id, and answers 200 with the updated document. *)
Lemma patch_transactions_cases env principal target b db :
  (fst (patch_transactions env principal target b db) = db
   /\ status_code (snd (patch_transactions env principal target b db))
      <> 200)
  \/ exists oid u,
       castObjectId target = Some oid
       /\ find (by_id oid) db = Some u
       /\ update_validators (Push b) = []
       /\ patch_transactions env principal target b db
          = (replace_first oid (apply_update env (Push b) u) db,
             respond 200 (toJSON (apply_update env (Push b) u))).
Proof.
  unfold patch_transactions.
  destruct (negb (Req.id principal =? target)
            && negb (Req.role principal =? "admin")).
  { left. cbn. split; [reflexivity|discriminate]. }
  destruct (findByIdAndUpdate env target (Push b) db)
    as [[db' res]|e] eqn:U; cbn [bind].
  - apply findByIdAndUpdate_cases in U
      as [(-> & -> & _)|(oid & u & C & F & V & -> & ->)].
    + left. cbn. split; [reflexivity|discriminate].
    + right. exists oid, u. repeat split; eauto.
  - left. cbn. split; [reflexivity|discriminate].
Qed.

(** [DELETE /users/:id] either leaves the collection as it is or removes
    the document of that id. *)
Lemma delete_user_cases principal target db :
  fst (delete_user principal target db) = db
  \/ exists oid,
       castObjectId target = Some oid
       /\ fst (delete_user principal target db) = remove_first oid db.
Proof.
  unfold delete_user, findByIdAndDelete.
  destruct (negb (Req.id principal =? target)
            && negb (Req.role principal =? "admin")); [now left|].
  destruct (castObjectId target) as [oid|]; [|now left].
  destruct (find (by_id oid) db); [|now left].
  right. exists oid. auto.
Qed.

(** The routes that create a user leave the collection as it is or add one
    document at its end. *)
Lemma save_cases env b db db' doc :
  save env b db = Ok (db', doc) -> db' = (db ++ [doc])%list.
Proof.
  unfold save. destruct (validate_user b); [|discriminate].
  destruct (existsb _ db); [discriminate|].
  destruct (existsb _ db); [discriminate|]. now intros [= <- <-].
Qed.

Lemma post_auth_register_cases env body db :
  (fst (post_auth_register env body db) = db
   /\ status_code (snd (post_auth_register env body db)) <> 201)
  \/ exists doc,
       post_auth_register env body db
       = ((db ++ [doc])%list, respond 201 (toJSON doc)).
Proof.
  unfold post_auth_register.
  destruct (findOne (b_email body) db);
    [left; split; [reflexivity|discriminate]|].
  destruct (Bcrypt.hash _ _);
    [|left; split; [reflexivity|discriminate]].
  cbn [bind].
  match goal with
  | |- context [save env ?b db] =>
      destruct (save env b db) as [[db' doc]|e] eqn:S
  end; [|left; split; [reflexivity|discriminate]].
  apply save_cases in S as ->. right. now exists doc.
Qed.

Lemma post_users_cases env principal body db :
  (fst (post_users env principal body db) = db
   /\ status_code (snd (post_users env principal body db)) <> 201)
  \/ exists doc,
       post_users env principal body db
       = ((db ++ [doc])%list, respond 201 (toJSON doc)).
Proof.
  unfold post_users.
  destruct (negb (Req.role principal =? "admin"));
    [left; split; [reflexivity|discriminate]|].
  destruct (if truthy (b_password body) then _ else _);
    [|left; split; [reflexivity|discriminate]].
  cbn [bind].
  match goal with
  | |- context [save env ?b db] =>
      destruct (save env b db) as [[db' doc]|e] eqn:S
  end; [|left; split; [reflexivity|discriminate]].
  apply save_cases in S as ->. right. now exists doc.
Qed.

End Updates.

(** ** The ledger: appending a transaction *)

Section Ledger.
Context {L : Libs}.

Import Mongoose Schema UserModel.

Lemma negative_amount_fails (t : TransactionBody) (n : Z) :
  t_amount t = Some n -> n < 0 ->
  In (Elem "transaction_history" 0 "amount", Min) (validate_transaction 0 t).
Proof.
  intros H Neg. unfold validate_transaction. rewrite H.
  rewrite !in_app_iff. right. right. left.
  unfold min. apply Z.ltb_lt in Neg. rewrite Neg. now left.
Qed.

Lemma pending_entry_passes (t : TransactionBody) (d r : string) (n : Z) :
  t_date t = Some d -> d <> "" ->
  t_recipient t = Some r -> r <> "" ->
  t_amount t = Some n -> 0 <= n ->
  t_status t = Some "Pending" ->
  validate_transaction 0 t = [].
Proof.
  intros Hd Nd Hr Nr Hn Pos Hs. unfold validate_transaction.
  rewrite Hd, Hr, Hn, Hs, !required_string_given by assumption.
  unfold min. apply Z.ltb_ge in Pos. now rewrite Pos.
Qed.

(** C7.  For an existing user and a principal who is that user or an
    admin: an entry of amount -1 is refused with a validation error (400)
    and the collection, so the user's history, stays as it was; an entry of
    amount 0 and status ["Pending"], with a date and a recipient, is
    accepted (200), and the user's history is the former history followed
    by that one entry. *)
Theorem append_transaction_checks_amount
    (env : Env) (principal : Req.user) (target : string)
    (refused accepted : TransactionBody) (d r : string) (db : Db) (u : User) :
  self_or_admin principal target ->
  findById target db = Ok (Some u) ->
  t_amount refused = Some (-1) ->
  t_date accepted = Some d -> d <> "" ->
  t_recipient accepted = Some r -> r <> "" ->
  t_amount accepted = Some 0 -> t_status accepted = Some "Pending" ->
  (exists errors,
     In (Elem "transaction_history" 0 "amount", Min) errors
     /\ patch_transactions env principal target (Entry refused) db
        = (db, respond 400 (error (message (ValidationError errors)))))
  /\ (exists db' u',
        patch_transactions env principal target (Entry accepted) db
        = (db', respond 200 (toJSON u'))
        /\ findById target db' = Ok (Some u')
        /\ transaction_history u'
           = (transaction_history u
              ++ [{| tx_id := fresh env 0; date := d; amount := 0;
                     recipient := r; status := "Pending" |}])%list
        /\ length (transaction_history u')
           = S (length (transaction_history u))).
Proof.
  intros Auth Found Negative Hd Nd Hr Nr Amount Status.
  apply guard_false in Auth.
  apply findById_found in Found as (oid & Cast & Find).
  split.
  - pose proof (negative_amount_fails refused (-1) Negative ltac:(lia))
      as Fails.
    unfold patch_transactions, findByIdAndUpdate.
    rewrite Auth, Cast. cbn [update_validators].
    destruct (validate_transaction 0 refused) as [|failure errors];
      [destruct Fails|].
    exists (failure :: errors). split; [assumption|reflexivity].
  - pose proof (pending_entry_passes accepted d r 0 Hd Nd Hr Nr Amount
                  ltac:(lia) Status) as Passes.
    unfold patch_transactions. rewrite Auth.
    rewrite (findByIdAndUpdate_found env target (Push (Entry accepted)) db
               oid u)
      by (assumption || reflexivity).
    cbn [bind try_catch apply_update].
    exists (replace_first oid (apply_push env accepted u) db),
      (apply_push env accepted u).
    split; [reflexivity|]. split.
    + apply findById_found. exists oid. split; [assumption|].
      apply find_replace_first_same; [|congruence].
      cbn. now apply find_by_id_id in Find.
    + assert (transaction_history (apply_push env accepted u)
              = (transaction_history u
                 ++ [{| tx_id := fresh env 0; date := d; amount := 0;
                        recipient := r; status := "Pending" |}])%list) as ->.
      { cbn. unfold cast_transaction. now rewrite Hd, Hr, Amount, Status. }
      split; [reflexivity|]. rewrite length_app. cbn. lia.
Qed.

End Ledger.

Section LedgerExamples.
Import Scenario UserModel.
Existing Instance Sample.libs.

Lemma append_transaction_checks_amount_witness :
  (exists errors,
     In (Elem "transaction_history" 0 "amount", Min) errors
     /\ patch_transactions env0 as_ann ann_id
          (Entry (entry "2023-11-15" (-1) "bakery" "Pending")) db0
        = (db0, respond 400 (error (message (ValidationError errors)))))
  /\ (exists db' u',
        patch_transactions env0 as_ann ann_id
          (Entry (entry "2023-11-15" 0 "bakery" "Pending")) db0
        = (db', respond 200 (toJSON u'))
        /\ findById ann_id db' = Ok (Some u')
        /\ transaction_history u'
           = (transaction_history ann
              ++ [{| tx_id := fresh env0 0; date := "2023-11-15";
                     amount := 0; recipient := "bakery";
                     status := "Pending" |}])%list
        /\ length (transaction_history u')
           = S (length (transaction_history ann))).
Proof.
  apply (append_transaction_checks_amount env0 as_ann ann_id
           (entry "2023-11-15" (-1) "bakery" "Pending")
           (entry "2023-11-15" 0 "bakery" "Pending")
           "2023-11-15" "bakery" db0 ann);
    try reflexivity; try discriminate.
  left. reflexivity.
Defined.

Example refused_entry :
  patch_transactions env0 as_ann ann_id
    (Entry (entry "2023-11-15" (-1) "bakery" "Pending")) db0
  = (db0, respond 400 (error "Validation failed")).
Proof. reflexivity. Qed.

Example accepted_entry :
  map transaction_history
    (fst (patch_transactions env0 as_ann ann_id
            (Entry (entry "2023-11-15" 0 "bakery" "Pending")) db0))
  = [[coffee;
      {| tx_id := new_id; date := "2023-11-15"; amount := 0;
         recipient := "bakery"; status := "Pending" |}];
     []].
Proof. reflexivity. Qed.

End LedgerExamples.

(** ** Updating a user *)

Section Update.
Context {L : Libs}.

Import Mongoose Schema UserModel.

Lemma kept_refl (body : Body) (u : User) : kept body u u.
Proof. unfold kept. repeat split; auto. Qed.

Lemma apply_set_kept env body updateData u :
  carries env body updateData -> kept body u (apply_set env updateData u).
Proof.
  intros (Hu & He & Hb & Hw & Hs & Hh & Hr & Hp & _).
  unfold kept, apply_set; cbn.
  rewrite Hu, He, Hb, Hw, Hs, Hh, Hr.
  repeat split; try (intros ->; reflexivity).
  intros E. rewrite Hp; [reflexivity|]. now rewrite E.
Qed.

Lemma apply_set_merged env body updateData u :
  carries env body updateData -> merged env body (apply_set env updateData u).
Proof.
  intros (Hu & He & Hb & Hw & Hs & Hh & Hr & _ & Hp).
  unfold merged, apply_set; cbn.
  rewrite Hu, He, Hb, Hw, Hs, Hh, Hr.
  repeat split; try (intros x ->; reflexivity).
  intros x E Nx. destruct Hp as [Hhash Hsome].
  { rewrite E. cbn. apply String.eqb_neq in Nx. now rewrite Nx. }
  rewrite E in Hhash.
  destruct (b_password updateData); [exact Hhash|congruence].
Qed.

(** C8, amended.  [PUT /users/:id] on an existing user, whatever the
    request: the fields the body does not provide keep their value (the
    identifier and the creation time too); when the update is done (200)
    the answer is the updated document as it is now stored, the fields
    provided having the values provided; and the update is done when the
    principal is authorized, the body passes the validators and the email
    is not taken.  On an ObjectId that no document has, a request of an
    authorized principal whose body passes the validators is answered 404
    "User not found" and changes nothing. *)
Theorem update_merges_provided_fields
    (env : Env) (principal : Req.user) (target : string) (body : Body)
    (db : Db) (u : User)
    (principal' : Req.user) (absent : string) (body' : Body) :
  findById target db = Ok (Some u) ->
  self_or_admin principal' absent ->
  findById absent db = Ok None ->
  validate_set body' = [] ->
  (exists u',
     findById target (fst (put_user env principal target body db))
       = Ok (Some u')
     /\ kept body u u'
     /\ (status_code (snd (put_user env principal target body db)) = 200 ->
         payload (snd (put_user env principal target body db)) = toJSON u'
         /\ merged env body u')
     /\ (self_or_admin principal target ->
         validate_set body = [] ->
         email_free body u db ->
         status_code (snd (put_user env principal target body db)) = 200))
  /\ put_user env principal' absent body' db
     = (db, respond 404 (error "User not found")).
Proof.
  intros Found Auth Absent Valid. split.
  - pose proof Found as Found'.
    apply findById_found in Found' as (oid & Cast & Find).
    assert (Done :
      self_or_admin principal target ->
      validate_set body = [] ->
      email_free body u db ->
      status_code (snd (put_user env principal target body db)) = 200).
    { intros Auth' Valid' Free.
      destruct (put_user_authorized env principal target body db Auth')
        as (updateData & Carries & Passes & ->).
      unfold findByIdAndUpdate. rewrite Cast. cbn [update_validators].
      rewrite (Passes Valid'), Find. cbn [apply_update].
      destruct Carries as (_ & He & _).
      assert (negb (email (apply_set env updateData u) =? email u)
              && existsb (by_email (email (apply_set env updateData u)))
                   (remove_first oid db) = false) as ->; [|reflexivity].
      unfold apply_set; cbn [email]. rewrite He.
      destruct (b_email body) as [e|] eqn:E; cbn [or_default];
        [|now rewrite String.eqb_refl].
      destruct (Free e E) as [->|Other];
        [now rewrite String.eqb_refl|].
      rewrite existsb_nothing; [apply andb_false_r|].
      intros v Hv. apply In_remove_first in Hv.
      apply not_true_iff_false. unfold by_email. rewrite String.eqb_eq.
      now apply Other. }
    destruct (put_user_cases env principal target body db)
      as [[Same Not200]|(oid' & u0 & updateData & Cast' & Find' & Carries
                         & _ & Is)].
    + rewrite Same. exists u.
      split; [assumption|]. split; [apply kept_refl|].
      split; [contradiction|exact Done].
    + rewrite Is in *.
      assert (oid' = oid) as -> by congruence.
      assert (u0 = u) as -> by congruence.
      exists (apply_set env updateData u). cbn [fst snd payload respond].
      split; [|split; [|split]].
      * apply findById_found. exists oid. split; [assumption|].
        apply find_replace_first_same; [|congruence].
        cbn. now apply find_by_id_id in Find.
      * now apply apply_set_kept.
      * intros _. split; [reflexivity|now apply apply_set_merged].
      * reflexivity.
  - apply findById_absent in Absent as (oid & Cast & Find).
    destruct (put_user_authorized env principal' absent body' db Auth)
      as (updateData & _ & Passes & ->).
    unfold findByIdAndUpdate. rewrite Cast. cbn [update_validators].
    rewrite (Passes Valid), Find. reflexivity.
Qed.

End Update.

Section UpdateExamples.
Import Scenario UserModel.
Existing Instance Sample.libs.

Lemma update_merges_provided_fields_witness :
  (exists u',
     findById ann_id (fst (put_user env0 as_ann ann_id new_wallet db0))
       = Ok (Some u')
     /\ kept new_wallet ann u'
     /\ status_code (snd (put_user env0 as_ann ann_id new_wallet db0)) = 200
     /\ payload (snd (put_user env0 as_ann ann_id new_wallet db0))
        = toJSON u'
     /\ merged env0 new_wallet u')
  /\ put_user env0 as_root new_id new_wallet db0
     = (db0, respond 404 (error "User not found")).
Proof.
  destruct (update_merges_provided_fields env0 as_ann ann_id new_wallet db0
              ann as_root new_id new_wallet)
    as [(u' & Found & Kept & Returned & Done) Absent];
    try reflexivity.
  - right. reflexivity.
  - assert (Is200 :
      status_code (snd (put_user env0 as_ann ann_id new_wallet db0)) = 200).
    { apply Done; [left; reflexivity|reflexivity|discriminate]. }
    destruct (Returned Is200) as [Payload Merged].
    split; [|exact Absent].
    exists u'. split; [exact Found|]. split; [exact Kept|].
    split; [exact Is200|]. split; [exact Payload|exact Merged].
Defined.

(** C8, as stated, fails: the update of a user that does not exist is
    answered 400, not 404, when the body names a role the schema does not
    list, although the principal is an admin. *)
Lemma update_of_absent_user_not_404 :
  self_or_admin as_root new_id
  /\ findById new_id db0 = Ok None
  /\ put_user env0 as_root new_id root_role db0
     = (db0, respond 400 (error "Validation failed"))
  /\ handle None env0 (PutUser (bearer new_id "admin") new_id root_role) db0
     = (db0, respond 400 (error "Validation failed")).
Proof.
  split; [right; reflexivity|]. split; [reflexivity|].
  split; [reflexivity|vm_compute; reflexivity].
Qed.

(** The same request on an id that is not an ObjectId is answered 400 as
    well, and by a principal who is neither the user nor an admin, 403. *)
Example update_of_malformed_id :
  put_user env0 as_root "42" new_wallet db0
  = (db0, respond 400 (error "Cast to ObjectId failed"))
  /\ put_user env0 as_ann new_id new_wallet db0
     = (db0, respond 403 (error "Forbidden")).
Proof. split; reflexivity. Qed.

(** The answer to an update that replaces the history, member by
    member: the entries are subdocuments with their own [_id], and the
    second has the default status. *)
Example history_replaced_answer :
  payload (snd (put_user env0 as_ann ann_id two_entries db0))
  = JObj [("_id", JStr ann_id);
          ("username", JStr "ann");
          ("email", JStr "ann@example.org");
          ("password", JStr (password ann));
          ("balance", JNum 10);
          ("wallet", JStr "rAnn");
          ("seed", JStr "");
          ("role", JStr "user");
          ("transaction_history",
            JArr [JObj [("date", JStr "2023-11-01"); ("amount", JNum 5);
                        ("recipient", JStr "bob");
                        ("status", JStr "Success");
                        ("_id", JStr new_id)];
                  JObj [("date", JStr "2023-11-16"); ("amount", JNum 3);
                        ("recipient", JStr "bob");
                        ("status", JStr "Pending");
                        ("_id", JStr entry_id)]]);
          ("createdAt", JNum 1600000000000);
          ("updatedAt", JNum 1700000000123);
          ("__v", JNum 0)].
Proof. reflexivity. Qed.

Example wallet_updated :
  put_user env0 as_ann ann_id new_wallet db0
  = ([{| _id := ann_id;
         username := "ann";
         email := "ann@example.org";
         password := password ann;
         balance := 10;
         wallet := "rNew";
         seed := "";
         transaction_history := [coffee];
         role := "user";
         createdAt := 1600000000000;
         updatedAt := 1700000000123 |}; bob],
     respond 200
       (toJSON
          {| _id := ann_id;
             username := "ann";
             email := "ann@example.org";
             password := password ann;
             balance := 10;
             wallet := "rNew";
             seed := "";
             transaction_history := [coffee];
             role := "user";
             createdAt := 1600000000000;
             updatedAt := 1700000000123 |})).
Proof. reflexivity. Qed.

End UpdateExamples.

(** ** The transaction history under every route *)

Section History.
Context {L : Libs}.
Variable JWT_SECRET : option string.

Import Mongoose Schema UserModel.

Lemma history_kept_refl (u : User) : history_kept u u.
Proof. exists []. now rewrite app_nil_r. Qed.

Lemma history_kept_trans (u v w : User) :
  history_kept u v -> history_kept v w -> history_kept u w.
Proof.
  intros [a Ha] [b Hb]. exists (a ++ b)%list.
  now rewrite Hb, Ha, app_assoc.
Qed.

Lemma same_user_false (i target oid' oid : string) :
  castObjectId i = Some oid' -> castObjectId target = Some oid ->
  same_user i target = false -> oid <> oid'.
Proof.
  unfold same_user. intros -> ->. intros E ->.
  now rewrite String.eqb_refl in E.
Qed.

Lemma post_auth_login_reads env body db :
  fst (post_auth_login JWT_SECRET env body db) = db.
Proof.
  unfold post_auth_login.
  destruct (findOne (b_email body) db); [|reflexivity].
  destruct (Bcrypt.compare _ _) as [[|]|]; reflexivity.
Qed.

Lemma get_users_reads principal db : fst (get_users principal db) = db.
Proof. unfold get_users. now destruct (negb _). Qed.

Lemma get_user_reads principal target db :
  fst (get_user principal target db) = db.
Proof.
  unfold get_user. destruct (_ && _); [reflexivity|].
  destruct (findById target db) as [[|]|]; reflexivity.
Qed.

(** A [$push] with [$each] alone puts its entries at the end. *)
Lemma push_each_unmodified env (m : PushModifiers)
    (old : list Transaction) :
  modified m = false ->
  push_each env m old
  = (old ++ cast_history (fresh env) 0 (m_each m))%list.
Proof.
  unfold modified, push_each, sort_of, insert_at.
  destruct (m_position m), (m_slice m), (m_sort m); try discriminate.
  reflexivity.
Qed.

(** One request that is not among those of [rewrites_history] keeps the
    user and the history. *)
Lemma handle_keeps_history env r db target u :
  findById target db = Ok (Some u) ->
  rewrites_history target r = false ->
  exists u',
    findById target (fst (handle JWT_SECRET env r db)) = Ok (Some u')
    /\ history_kept u u'.
Proof.
  intros Found Safe.
  assert (Same : forall db', db' = db ->
            exists u', findById target db' = Ok (Some u')
                       /\ history_kept u u').
  { intros db' ->. exists u. split; [assumption|apply history_kept_refl]. }
  assert (Added : forall doc,
            exists u', findById target (db ++ [doc])%list = Ok (Some u')
                       /\ history_kept u u').
  { intros doc. exists u. split; [|apply history_kept_refl].
    apply findById_found in Found as (oid & Cast & Find).
    apply findById_found. exists oid. split; [assumption|].
    now apply find_app_found. }
  destruct r as [body|body|a body|a|a i|a i body|a i|a i t];
    cbn [handle]; unfold protected;
    try (destruct (authMiddleware JWT_SECRET env a) as [refusal|principal];
         [now apply Same|]).
  - destruct (post_auth_register_cases env body db) as [[E _]|[doc ->]];
      [now apply Same|apply Added].
  - apply Same, post_auth_login_reads.
  - destruct (post_users_cases env principal body db) as [[E _]|[doc ->]];
      [now apply Same|apply Added].
  - apply Same, get_users_reads.
  - apply Same, get_user_reads.
  - destruct (put_user_cases env principal i body db)
      as [[E _]|(oid' & u0 & updateData & Cast' & Find' & Carries & _ & ->)];
      [now apply Same|].
    apply findById_found in Found as (oid & Cast & Find).
    cbn [fst]. destruct (String.eqb_spec oid oid') as [<-|Other].
    + assert (u0 = u) as -> by congruence.
      exists (apply_set env updateData u). split.
      * apply findById_found. exists oid. split; [assumption|].
        apply find_replace_first_same; [|congruence].
        cbn. now apply find_by_id_id in Find.
      * cbn in Safe. unfold same_user in Safe.
        rewrite Cast', Cast, String.eqb_refl in Safe.
        destruct Carries as (_ & _ & _ & _ & _ & Hh & _).
        destruct (b_transaction_history body); [discriminate|].
        exists []. unfold apply_set. cbn [transaction_history].
        rewrite Hh. now rewrite app_nil_r.
    + exists u. split; [|apply history_kept_refl].
      apply findById_found. exists oid. split; [assumption|].
      rewrite find_replace_first_other; auto.
      cbn. now apply find_by_id_id in Find'.
  - destruct (delete_user_cases principal i db) as [E|(oid' & Cast' & ->)];
      [now apply Same|].
    apply findById_found in Found as (oid & Cast & Find).
    exists u. split; [|apply history_kept_refl].
    apply findById_found. exists oid. split; [assumption|].
    rewrite find_remove_first_other; [assumption|].
    now apply (same_user_false i target).
  - destruct (patch_transactions_cases env principal i t db)
      as [[E _]|(oid' & u0 & Cast' & Find' & _ & ->)];
      [now apply Same|].
    apply findById_found in Found as (oid & Cast & Find).
    cbn [fst]. destruct (String.eqb_spec oid oid') as [<-|Other].
    + assert (u0 = u) as -> by congruence.
      exists (apply_update env (Push t) u). split.
      * apply findById_found. exists oid. split; [assumption|].
        apply find_replace_first_same; [|congruence].
        rewrite apply_update_id. now apply find_by_id_id in Find.
      * destruct t as [t|m]; [cbn; eexists; reflexivity|].
        cbn in Safe. unfold same_user in Safe.
        rewrite Cast', Cast, String.eqb_refl in Safe. cbn [andb] in Safe.
        exists (cast_history (fresh env) 0 (m_each m)).
        cbn [apply_update apply_push_each transaction_history].
        now apply push_each_unmodified.
    + exists u. split; [|apply history_kept_refl].
      apply findById_found. exists oid. split; [assumption|].
      rewrite find_replace_first_other; auto.
      rewrite apply_update_id. now apply find_by_id_id in Find'.
Qed.

(** C2, amended.  Over any sequence of requests none of which is an update
    of the user whose body carries a [transaction_history], an append to
    the user whose body has [$each] with [$position], [$slice] or [$sort],
    or the deletion of the user, the user is still there and every entry
    the history had is in it, unchanged and at its position: entries were
    only added at the end. *)
Theorem history_append_only_without_rewrite
    (rs : list (Env * Request)) (db : Db) (target : string) (u : User) :
  findById target db = Ok (Some u) ->
  forallb (fun er => negb (rewrites_history target (snd er))) rs = true ->
  exists u',
    findById target (run JWT_SECRET rs db) = Ok (Some u')
    /\ history_kept u u'.
Proof.
  revert db u. induction rs as [|[env r] rs IH]; intros db u Found Safe.
  - exists u. split; [assumption|apply history_kept_refl].
  - cbn in Safe. apply andb_true_iff in Safe as [Here Later].
    apply negb_true_iff in Here.
    destruct (handle_keeps_history env r db target u Found Here)
      as (v & Found' & Kept).
    destruct (IH _ v Found' Later) as (w & Found'' & Kept').
    exists w. split; [exact Found''|].
    now apply (history_kept_trans u v w).
Qed.

End History.

Section HistoryExamples.
Import Scenario UserModel.
Existing Instance Sample.libs.

(** C2, as stated, fails: Ann's own update with an empty
    [transaction_history] erases the entry her history had. *)
Lemma history_can_be_rewritten :
  findById ann_id db0 = Ok (Some ann)
  /\ transaction_history ann = [coffee]
  /\ exists u',
       findById ann_id
         (fst (handle None env0
                 (PutUser (bearer ann_id "user") ann_id empty_history) db0))
       = Ok (Some u')
       /\ transaction_history u' = []
       /\ ~ history_kept ann u'.
Proof.
  split; [reflexivity|]. split; [reflexivity|].
  eexists. split; [vm_compute; reflexivity|].
  split; [reflexivity|]. intros [added Kept]. discriminate Kept.
Qed.

Example history_erased :
  map transaction_history
    (fst (handle None env0
            (PutUser (bearer ann_id "user") ann_id empty_history) db0))
  = [[]; []].
Proof. vm_compute. reflexivity. Qed.

Example user_deleted :
  fst (handle None env0 (DeleteUser (bearer ann_id "user") ann_id) db0)
  = [bob].
Proof. vm_compute. reflexivity. Qed.

(** An append whose body is [{ $each: [], $slice: 0 }] empties the
    history; with [$position: 0] the new entry goes before the old
    ones. *)
Example history_cut :
  map transaction_history
    (fst (handle None env0
            (PatchTransactions (bearer ann_id "user") ann_id
               (Each {| m_each := []; m_position := None;
                        m_slice := Some 0; m_sort := None |})) db0))
  = [[]; []].
Proof. vm_compute. reflexivity. Qed.

Example history_prepended :
  map (map recipient)
    (map transaction_history
       (fst (handle None env0
               (PatchTransactions (bearer ann_id "user") ann_id
                  (Each {| m_each := [entry "2023-11-15" 0 "bakery" "Pending"];
                           m_position := Some 0;
                           m_slice := None; m_sort := None |})) db0)))
  = [["bakery"; "cafe"]; []].
Proof. vm_compute. reflexivity. Qed.

Lemma history_append_only_without_rewrite_witness :
  exists u',
    findById ann_id
      (run None
         [(env0, PatchTransactions (bearer ann_id "user") ann_id
                   (Entry (entry "2023-11-15" 0 "bakery" "Pending")));
          (env0, PatchTransactions (bearer ann_id "user") ann_id
                   (Each {| m_each := [bare_entry; bare_entry];
                            m_position := None; m_slice := None;
                            m_sort := None |}));
          (env0, PutUser (bearer ann_id "user") ann_id new_wallet);
          (env0, DeleteUser (bearer bob_id "user") bob_id)]
         db0)
    = Ok (Some u')
    /\ history_kept ann u'.
Proof.
  apply (history_append_only_without_rewrite None
           [(env0, PatchTransactions (bearer ann_id "user") ann_id
                     (Entry (entry "2023-11-15" 0 "bakery" "Pending")));
            (env0, PatchTransactions (bearer ann_id "user") ann_id
                     (Each {| m_each := [bare_entry; bare_entry];
                              m_position := None; m_slice := None;
                              m_sort := None |}));
            (env0, PutUser (bearer ann_id "user") ann_id new_wallet);
            (env0, DeleteUser (bearer bob_id "user") bob_id)]
           db0 ann_id ann); reflexivity.
Defined.

End HistoryExamples.

(** ** Tokens *)

Section Tokens.
Context {L : Libs}.
Variable JWT_SECRET : option string.

(** The header ["Bearer <token>"] hands the token to [jwt.verify]. *)
Lemma authMiddleware_bearer (env : Env) (token : string) :
  free_of " " token = true ->
  authMiddleware JWT_SECRET env (Some ("Bearer " ++ token))
  = match Jwt.verify token (secret JWT_SECRET) (now env) with
    | Ok decoded =>
        inr {| Req.id := c_id decoded; Req.role := c_role decoded |}
    | Throw _ => inl (respond 401 (error "Invalid token"))
    end.
Proof.
  intros Free. unfold authMiddleware.
  rewrite prefix_app.
  change ("Bearer " ++ token) with ("Bearer" ++ String " " token).
  rewrite split_on_app by reflexivity.
  rewrite (split_on_free _ _ Free). reflexivity.
Qed.

Lemma seconds_reached (t e : Z) : (t / 1000 >=? e) = negb (t <? e * 1000)%Z.
Proof.
  rewrite Z.geb_leb.
  destruct (Z.ltb_spec t (e * 1000)) as [Before|After]; cbn.
  - apply Z.leb_gt, Z.div_lt_upper_bound; lia.
  - apply Z.leb_le, Z.div_le_lower_bound; lia.
Qed.

(** C6.  For every id and role, [jwt.sign({ id, role }, secret,
    { expiresIn: "1d" })] gives a token; [jwt.verify] under the same
    secret, and [authMiddleware] on the header that carries the token,
    give back exactly that id and that role at every instant before the
    expiry, and fail (401 "Invalid token") from the expiry on. *)
Theorem token_round_trip_until_expiry (id role : string) (issued : Z) :
  exists token,
    Jwt.sign id role (secret JWT_SECRET) "1d" issued = Ok token
    /\ forall env : Env,
         Jwt.verify token (secret JWT_SECRET) (now env)
         = (if (now env <? expiry issued)%Z
            then Ok {| c_id := id; c_role := role;
                       iat := issued / 1000; nbf := None;
                       exp := Some (issued / 1000 + 86400) |}
            else Throw TokenExpiredError)
         /\ authMiddleware JWT_SECRET env (Some ("Bearer " ++ token))
            = (if (now env <? expiry issued)%Z
               then inr {| Req.id := id; Req.role := role |}
               else inl (respond 401 (error "Invalid token"))).
Proof.
  exists (jws_encode (secret JWT_SECRET)
            {| c_id := id; c_role := role; iat := issued / 1000;
               nbf := None; exp := Some (issued / 1000 + 86400) |}).
  split; [reflexivity|]. intros env.
  assert (Verify :
    Jwt.verify
      (jws_encode (secret JWT_SECRET)
         {| c_id := id; c_role := role; iat := issued / 1000;
            nbf := None; exp := Some (issued / 1000 + 86400) |})
      (secret JWT_SECRET) (now env)
    = (if (now env <? expiry issued)%Z
       then Ok {| c_id := id; c_role := role; iat := issued / 1000;
                  nbf := None; exp := Some (issued / 1000 + 86400) |}
       else Throw TokenExpiredError)).
  { unfold Jwt.verify. rewrite jws_decode_encode.
    cbn [nbf exp Jwt.fails].
    rewrite seconds_reached. fold (expiry issued).
    now destruct ((now env <? expiry issued)%Z). }
  split; [exact Verify|].
  rewrite authMiddleware_bearer by apply jws_encode_no_space.
  rewrite Verify. now destruct ((now env <? expiry issued)%Z).
Qed.

(** The token of a successful login is the one signed for the id and the
    role of the user who logged in. *)
Lemma login_issues_token (env : Env) (body : Body) (db : Db) (user : User) :
  UserModel.findOne (b_email body) db = Some user ->
  Bcrypt.compare (b_password body) (password user) = Ok true ->
  exists token,
    Jwt.sign (_id user) (role user) (secret JWT_SECRET) "1d" (now env)
    = Ok token
    /\ post_auth_login JWT_SECRET env body db
       = (db,
          respond 200
            (JObj [("message", JStr "Login successful");
                   ("token", JStr token);
                   ("user",
                     JObj [("id", JStr (_id user));
                           ("username", JStr (username user));
                           ("email", JStr (email user));
                           ("role", JStr (role user))])])).
Proof.
  intros Found Match. unfold post_auth_login. rewrite Found, Match.
  eexists. split; reflexivity.
Qed.

End Tokens.

(** ** What the answers disclose *)

Section Disclosure.
Context {L : Libs}.
Variable JWT_SECRET : option string.

Import Mongoose Schema UserModel.

Lemma returns_stored (db' : Db) (u : User) :
  In u db' -> returns_document db' (toJSON u).
Proof. intros H. exists u. repeat split; assumption. Qed.

(** C5, amended.  Of the successful answers only that of login is
    redacted: it has no [password] member at any depth.  Register, create
    as admin, get user, update user and append transaction answer with the
    stored document in full, password hash included, and list users with
    every stored document in full. *)
Theorem only_login_redacts_password
    (env : Env) (principal : Req.user) (target : string) (body : Body)
    (t : PatchBody) (db : Db) :
  (status_code (snd (post_auth_login JWT_SECRET env body db)) = 200 ->
   has_key "password" (payload (snd (post_auth_login JWT_SECRET env body db)))
   = false)
  /\ (status_code (snd (post_auth_register env body db)) = 201 ->
      returns_document (fst (post_auth_register env body db))
        (payload (snd (post_auth_register env body db))))
  /\ (status_code (snd (post_users env principal body db)) = 201 ->
      returns_document (fst (post_users env principal body db))
        (payload (snd (post_users env principal body db))))
  /\ (status_code (snd (get_users principal db)) = 200 ->
      payload (snd (get_users principal db)) = JArr (map toJSON db))
  /\ (status_code (snd (get_user principal target db)) = 200 ->
      returns_document db (payload (snd (get_user principal target db))))
  /\ (status_code (snd (put_user env principal target body db)) = 200 ->
      returns_document (fst (put_user env principal target body db))
        (payload (snd (put_user env principal target body db))))
  /\ (status_code (snd (patch_transactions env principal target t db)) = 200
      -> returns_document (fst (patch_transactions env principal target t db))
           (payload (snd (patch_transactions env principal target t db)))).
Proof.
  repeat apply conj.
  - unfold post_auth_login.
    destruct (findOne (b_email body) db); [|discriminate].
    destruct (Bcrypt.compare _ _) as [[|]|]; try discriminate.
    intros _. reflexivity.
  - destruct (post_auth_register_cases env body db) as [[_ No]|[doc ->]];
      [contradiction|].
    intros _. apply returns_stored, in_or_app. right. now left.
  - destruct (post_users_cases env principal body db) as [[_ No]|[doc ->]];
      [contradiction|].
    intros _. apply returns_stored, in_or_app. right. now left.
  - unfold get_users. destruct (negb _); [discriminate|]. reflexivity.
  - unfold get_user. destruct (_ && _); [discriminate|].
    unfold findById. destruct (castObjectId target) as [oid|];
      [|discriminate].
    cbn [bind]. destruct (find (by_id oid) db) as [u|] eqn:F;
      [|discriminate].
    intros _. apply returns_stored. now apply find_some in F.
  - destruct (put_user_cases env principal target body db)
      as [[_ No]|(oid & u & updateData & _ & F & _ & _ & ->)];
      [contradiction|].
    intros _. apply returns_stored, In_replace_first. congruence.
  - destruct (patch_transactions_cases env principal target t db)
      as [[_ No]|(oid & u & _ & F & _ & ->)];
      [contradiction|].
    intros _. apply returns_stored, In_replace_first. congruence.
Qed.

End Disclosure.

Section DisclosureExamples.
Import Scenario UserModel.
Existing Instance Sample.libs.

(** C5, as stated, fails: the answer to a registration carries the hash
    that was just stored. *)
Lemma register_returns_password_hash :
  handle None env0
    (PostAuthRegister (registration "eve" "eve@example.org" "pw" "user")) db0
  = ([ann; bob; eve], respond 201 (toJSON eve))
  /\ member "password" (toJSON eve) = Some (JStr (password eve))
  /\ has_key "password" (toJSON eve) = true.
Proof. repeat split; reflexivity. Qed.

Lemma only_login_redacts_password_witness :
  has_key "password"
    (payload
       (snd (post_auth_login None env0
               (credentials "ann@example.org" "hunter2") db0)))
  = false
  /\ returns_document
       (fst (post_auth_register env0
               (registration "eve" "eve@example.org" "pw" "user") db0))
       (payload
          (snd (post_auth_register env0
                  (registration "eve" "eve@example.org" "pw" "user") db0)))
  /\ returns_document db0 (payload (snd (get_user as_ann ann_id db0))).
Proof.
  destruct (only_login_redacts_password None env0 as_ann ann_id
              (credentials "ann@example.org" "hunter2")
              (Entry (entry "2023-11-15" 0 "bakery" "Pending")) db0)
    as (Login & _ & _ & _ & Get & _).
  destruct (only_login_redacts_password None env0 as_ann ann_id
              (registration "eve" "eve@example.org" "pw" "user")
              (Entry (entry "2023-11-15" 0 "bakery" "Pending")) db0)
    as (_ & Register & _).
  split; [apply Login; reflexivity|].
  split; [apply Register; reflexivity|apply Get; reflexivity].
Defined.

Example login_answer :
  payload
    (snd (post_auth_login None env0
            (credentials "ann@example.org" "hunter2") db0))
  = JObj [("message", JStr "Login successful");
          ("token",
            JStr (jws_encode "dev_secret"
                    {| c_id := ann_id; c_role := "user";
                       iat := 1700000000; nbf := None;
                       exp := Some 1700086400 |}));
          ("user",
            JObj [("id", JStr ann_id); ("username", JStr "ann");
                  ("email", JStr "ann@example.org");
                  ("role", JStr "user")])].
Proof. reflexivity. Qed.

Example token_before_and_after_expiry :
  authMiddleware None env0 (bearer ann_id "user") = inr as_ann
  /\ authMiddleware None
       {| now := 1700086400000; rnd := ""; fresh := fun _ => "" |}
       (bearer ann_id "user")
     = inl (respond 401 (error "Invalid token")).
Proof. split; vm_compute; reflexivity. Qed.

End DisclosureExamples.

(** * Further properties *)

(** ** What a request does to the collection *)

Section Effects.
Context {L : Libs}.
Variable JWT_SECRET : option string.

Import Mongoose Schema UserModel.

Lemma existsb_by_id_false (i : string) (db : Db) :
  existsb (by_id i) db = false <-> ~ In i (map _id db).
Proof.
  induction db as [|v db IH]; simpl; [tauto|].
  rewrite orb_false_iff, IH. unfold by_id.
  rewrite String.eqb_neq. tauto.
Qed.

Lemma existsb_by_email_false (e : string) (db : Db) :
  existsb (by_email e) db = false <-> ~ In e (map email db).
Proof.
  induction db as [|v db IH]; simpl; [tauto|].
  rewrite orb_false_iff, IH. unfold by_email.
  rewrite String.eqb_neq. tauto.
Qed.

Lemma NoDup_map_snoc {A B : Type} (f : A -> B) (l : list A) (a : A) :
  NoDup (map f l) -> ~ In (f a) (map f l) -> NoDup (map f (l ++ [a])%list).
Proof.
  intros N Fresh. rewrite map_app. apply NoDup_app; [assumption| |].
  - constructor; [intros []|constructor].
  - intros b Hb [<-|[]]. contradiction.
Qed.

Lemma find_app_last {A : Type} (f : A -> bool) (l r : list A) :
  find f l = None -> find f (l ++ r)%list = find f r.
Proof.
  induction l as [|x l IH]; simpl; [reflexivity|].
  destruct (f x); [discriminate|exact IH].
Qed.

Lemma In_map_remove_first {B : Type} (f : User -> B) (oid : string)
    (db : Db) (b : B) :
  In b (map f (remove_first oid db)) -> In b (map f db).
Proof.
  rewrite !in_map_iff. intros (v & <- & Hv).
  exists v. split; [reflexivity|]. now apply In_remove_first in Hv.
Qed.

Lemma NoDup_map_remove_first {B : Type} (f : User -> B) (oid : string)
    (db : Db) :
  NoDup (map f db) -> NoDup (map f (remove_first oid db)).
Proof.
  induction db as [|v db IH]; simpl; [auto|]. intros N.
  inversion N as [|? ? Fresh N']; subst.
  destruct (by_id oid v); [assumption|]. simpl. constructor; [|auto].
  intros H. apply Fresh. now apply In_map_remove_first in H.
Qed.

Lemma map_id_replace_first (oid : string) (u' : User) (db : Db) :
  _id u' = oid -> map _id (replace_first oid u' db) = map _id db.
Proof.
  intros Hid. induction db as [|v db IH]; simpl; [reflexivity|].
  destruct (by_id oid v) eqn:E; simpl.
  - apply by_id_true in E. congruence.
  - now rewrite IH.
Qed.

Lemma In_replace_first_inv (oid : string) (u' v : User) (db : Db) :
  In v (replace_first oid u' db) -> v = u' \/ In v db.
Proof.
  induction db as [|w db IH]; simpl; [tauto|].
  destruct (by_id oid w); simpl; intuition.
Qed.

Lemma NoDup_email_replace_first (oid : string) (u u' : User) (db : Db) :
  NoDup (map email db) ->
  find (by_id oid) db = Some u ->
  email u' = email u
  \/ existsb (by_email (email u')) (remove_first oid db) = false ->
  NoDup (map email (replace_first oid u' db)).
Proof.
  induction db as [|v db IH]; simpl; [discriminate|].
  intros N Find Free. inversion N as [|? ? Fresh N']; subst.
  destruct (by_id oid v) eqn:E; simpl.
  - injection Find as ->. constructor; [|assumption].
    destruct Free as [->|Free]; [assumption|].
    now apply existsb_by_email_false.
  - constructor.
    + intros H. apply in_map_iff in H as (w & Hw & Hin).
      apply In_replace_first_inv in Hin as [->|Hin].
      * destruct Free as [Same|Free].
        -- apply Fresh. rewrite <- Hw, Same. apply in_map.
           now apply find_some in Find.
        -- simpl in Free. apply orb_false_iff in Free as [Free _].
           unfold by_email in Free. apply String.eqb_neq in Free.
           congruence.
      * apply Fresh. rewrite <- Hw. now apply in_map.
    + apply IH; [assumption|assumption|].
      destruct Free as [Same|Free]; [now left|right].
      simpl in Free. now apply orb_false_iff in Free.
Qed.



(** The indexes hold after each of the four effects. *)
Lemma effect_unique_keys (db db' : Db) :
  effect db db' -> unique_keys db -> unique_keys db'.
Proof.
  intros E [Ids Emails].
  destruct E as [db|db doc Id Email _|db oid u u' Find Hid Free _|db oid].
  - now split.
  - split; apply NoDup_map_snoc; try assumption.
    + now apply existsb_by_id_false.
    + now apply existsb_by_email_false.
  - split.
    + rewrite map_id_replace_first; [assumption|].
      rewrite Hid. now apply find_by_id_id in Find.
    + now apply (NoDup_email_replace_first oid u).
  - split; now apply NoDup_map_remove_first.
Qed.


End Effects.

(** ** What the validators let through *)

Section Validators.
Context {L : Libs}.

Import Mongoose Schema UserModel.

Lemma required_string_passes (p : vpath) (v : option string) :
  required_string p v = [] <-> exists s, v = Some s /\ s <> "".
Proof.
  unfold required_string. destruct v as [s|].
  - destruct (String.eqb_spec s "") as [->|N].
    + split; [discriminate|]. intros (s & [= <-] & N). now elim N.
    + split; [eauto|reflexivity].
  - split; [discriminate|]. intros (s & H & _). discriminate.
Qed.

Lemma enum_passes (p : vpath) (values : list string) (v : option string) :
  enum p values v = [] <-> forall s, v = Some s -> In s values.
Proof.
  unfold enum. destruct v as [s|]; [|split; [discriminate|reflexivity]].
  destruct (existsb (String.eqb s) values) eqn:E.
  - split; [|reflexivity]. intros _ s' [= <-].
    apply existsb_exists in E as (x & Hx & Ex).
    apply String.eqb_eq in Ex. now subst.
  - split; [discriminate|]. intros H.
    assert (existsb (String.eqb s) values = true); [|congruence].
    apply existsb_exists. exists s. split; [now apply H|].
    apply String.eqb_refl.
Qed.

Lemma min_passes (p : vpath) (m : Z) (v : option Z) :
  min p m v = [] <-> forall n, v = Some n -> m <= n.
Proof.
  unfold min. destruct v as [n|]; [|split; [discriminate|reflexivity]].
  destruct (Z.ltb_spec n m) as [Below|Above].
  - split; [discriminate|]. intros H. specialize (H n eq_refl). lia.
  - split; [|reflexivity]. now intros _ n' [= <-].
Qed.

(** An entry passes its validators exactly when it has a date and a
    recipient that are not empty, an amount that is not negative and, if
    it has a status, one of the three of the schema. *)
Lemma validate_transaction_passes (i : nat) (t : TransactionBody) :
  validate_transaction i t = [] <->
  (exists d, t_date t = Some d /\ d <> "")
  /\ (exists n, t_amount t = Some n /\ 0 <= n)
  /\ (exists r, t_recipient t = Some r /\ r <> "")
  /\ (forall s, t_status t = Some s -> In s status_values).
Proof.
  unfold validate_transaction. split.
  - intros V.
    apply app_eq_nil in V as [Hd V]. apply app_eq_nil in V as [Ha V].
    apply app_eq_nil in V as [Hm V]. apply app_eq_nil in V as [Hr Hs].
    apply required_string_passes in Hd, Hr.
    pose proof (proj1 (min_passes _ _ _) Hm) as Pos.
    pose proof (proj1 (enum_passes _ _ _) Hs) as Listed.
    repeat split; auto.
    destruct (t_amount t) as [n|]; [|discriminate]. eauto.
  - intros (Hd & (n & Hn & Pos) & Hr & Hs).
    rewrite (proj2 (required_string_passes _ _) Hd).
    rewrite (proj2 (required_string_passes _ _) Hr).
    rewrite (proj2 (enum_passes _ _ _) Hs).
    rewrite Hn. cbn.
    destruct (Z.ltb_spec n 0); [lia|reflexivity].
Qed.

Lemma cast_transaction_well_formed (i : nat) (id : string)
    (t : TransactionBody) :
  validate_transaction i t = [] ->
  well_formed_transaction (cast_transaction id t).
Proof.
  intros V. apply validate_transaction_passes in V
    as ((d & Hd & Nd) & (n & Hn & Pos) & (r & Hr & Nr) & Hs).
  unfold well_formed_transaction, cast_transaction; cbn.
  rewrite Hd, Hn, Hr. cbn. repeat split; auto.
Qed.

Lemma cast_history_well_formed (ids : nat -> string) (i j : nat)
    (l : list TransactionBody) :
  validate_history i l = [] ->
  Forall well_formed_transaction (cast_history ids j l).
Proof.
  revert i j. induction l as [|t l IH]; intros i j; cbn; [constructor|].
  intros V. apply app_eq_nil in V as [Vt Vl]. constructor.
  - now apply (cast_transaction_well_formed i).
  - now apply (IH (S i)).
Qed.

Lemma validate_user_passes (b : Body) :
  validate_user b = [] <->
  required_string (Path "username") (b_username b) = []
  /\ required_string (Path "email") (b_email b) = []
  /\ required_string (Path "password") (b_password b) = []
  /\ validate_history 0 (or_default (b_transaction_history b) []) = []
  /\ enum (Path "role") role_values (b_role b) = [].
Proof.
  unfold validate_user. split.
  - intros V.
    apply app_eq_nil in V as [Hu V]. apply app_eq_nil in V as [He V].
    apply app_eq_nil in V as [Hp V]. apply app_eq_nil in V as [Hh Hr].
    auto.
  - intros (-> & -> & -> & -> & ->). reflexivity.
Qed.

Lemma new_User_well_formed (env : Env) (b : Body) :
  validate_user b = [] -> well_formed_user (new_User env b).
Proof.
  intros V. apply validate_user_passes in V as (Hu & He & Hp & Hh & Hr).
  apply required_string_passes in Hu as (name & Hname & Nname).
  apply required_string_passes in He as (e & Hemail & Ne).
  apply required_string_passes in Hp as (h & Hhash & Nh).
  unfold well_formed_user, new_User; cbn.
  rewrite Hname, Hemail, Hhash. cbn. repeat split; auto.
  now apply (cast_history_well_formed _ 0).
Qed.

Lemma when_set_required_passes (p : vpath) (v : option string) :
  when_set (required_string p) v = [] <-> v <> Some "".
Proof.
  destruct v as [s|]; cbn; [|split; [discriminate|reflexivity]].
  destruct (String.eqb_spec s "") as [->|N].
  - split; [discriminate|]. intros H. now elim H.
  - split; [congruence|reflexivity].
Qed.

Lemma kept_or_given (v : option string) (old : string) :
  v <> Some "" -> old <> "" -> or_default v old <> "".
Proof. destruct v as [s|]; cbn; congruence. Qed.

Lemma apply_set_well_formed (env : Env) (b : Body) (u : User) :
  validate_set b = [] -> well_formed_user u ->
  well_formed_user (apply_set env b u).
Proof.
  intros V (Wu & We & Wp & Wh).
  apply validate_set_passes in V as (Hu & He & Hp & Hh & Hr).
  apply when_set_required_passes in Hu, He, Hp.
  unfold well_formed_user, apply_set; cbn.
  repeat split; try (apply kept_or_given; assumption).
  destruct (b_transaction_history b) as [l|]; [|assumption].
  now apply (cast_history_well_formed _ 0).
Qed.

Lemma apply_push_well_formed (env : Env) (t : TransactionBody) (u : User) :
  validate_transaction 0 t = [] -> well_formed_user u ->
  well_formed_user (apply_push env t u).
Proof.
  intros V (Wu & We & Wp & Wh).
  unfold well_formed_user, apply_push; cbn. repeat split; auto.
  apply Forall_app. split; [assumption|]. constructor; [|constructor].
  now apply (cast_transaction_well_formed 0).
Qed.

(** The modifiers of a [$push] only place, rearrange and drop entries:
    what holds of every old and of every new entry holds of every entry
    of the result. *)
Lemma Forall_firstn {A : Type} (P : A -> Prop) (n : nat) (l : list A) :
  Forall P l -> Forall P (firstn n l).
Proof.
  intros H. revert n. induction H as [|a l Ha Hl IH]; intros [|n]; cbn;
    constructor; auto.
Qed.

Lemma Forall_skipn {A : Type} (P : A -> Prop) (n : nat) (l : list A) :
  Forall P l -> Forall P (skipn n l).
Proof.
  intros H. revert n. induction H as [|a l Ha Hl IH]; intros [|n]; cbn;
    auto.
Qed.

Lemma Forall_insert_at (P : Transaction -> Prop) (position : option Z)
    (old items : list Transaction) :
  Forall P old -> Forall P items -> Forall P (insert_at position old items).
Proof.
  intros Ho Hi. unfold insert_at. destruct position as [p|].
  - apply Forall_app. split; [now apply Forall_firstn|].
    apply Forall_app. split; [assumption|now apply Forall_skipn].
  - apply Forall_app. now split.
Qed.

Lemma Forall_slice (P : Transaction -> Prop) (n : Z)
    (l : list Transaction) :
  Forall P l -> Forall P (slice n l).
Proof.
  intros H. unfold slice.
  destruct (n <? 0)%Z; [now apply Forall_skipn|now apply Forall_firstn].
Qed.

Lemma Forall_push_each (P : Transaction -> Prop) (env : Env)
    (m : PushModifiers) (old : list Transaction) :
  Forall P old ->
  Forall P (cast_history (fresh env) 0 (m_each m)) ->
  Forall P (push_each env m old).
Proof.
  intros Ho Hi. unfold push_each.
  pose proof (Forall_insert_at P (m_position m) old _ Ho Hi) as Inserted.
  assert (Sorted :
    Forall P
      match sort_of m with
      | Some spec =>
          sort_entries spec
            (insert_at (m_position m) old
               (cast_history (fresh env) 0 (m_each m)))
      | None =>
          insert_at (m_position m) old
            (cast_history (fresh env) 0 (m_each m))
      end).
  { destruct (sort_of m) as [spec|]; [|assumption].
    exact (Permutation_Forall (sort_entries_permutes spec _) Inserted). }
  destruct (m_slice m) as [n|]; [now apply Forall_slice|assumption].
Qed.

Lemma apply_push_each_well_formed (env : Env) (m : PushModifiers)
    (u : User) :
  validate_history 0 (m_each m) = [] -> well_formed_user u ->
  well_formed_user (apply_push_each env m u).
Proof.
  intros V (Wu & We & Wp & Wh).
  unfold well_formed_user, apply_push_each; cbn [username email password
    transaction_history].
  repeat split; auto.
  apply Forall_push_each; [assumption|].
  now apply (cast_history_well_formed _ 0).
Qed.

End Validators.

(** ** The invariants of the collection *)

Section Invariants.
Context {L : Libs}.
Variable JWT_SECRET : option string.

Import Mongoose Schema UserModel.

Lemma save_effect env b db db' doc :
  save env b db = Ok (db', doc) -> effect db db'.
Proof.
  unfold save. destruct (validate_user b) eqn:V; [|discriminate].
  destruct (existsb (by_id _) db) eqn:Id; [discriminate|].
  destruct (existsb (by_email _) db) eqn:Email; [discriminate|].
  intros [= <- <-]. apply Inserted; try assumption.
  now apply new_User_well_formed.
Qed.

Lemma findByIdAndUpdate_effect env target upd db db' res :
  findByIdAndUpdate env target upd db = Ok (db', res) -> effect db db'.
Proof.
  unfold findByIdAndUpdate.
  destruct (castObjectId target) as [oid|]; [|discriminate].
  destruct (update_validators upd) eqn:V; [|discriminate].
  destruct (unreadable upd); [discriminate|].
  destruct (find (by_id oid) db) as [u|] eqn:F;
    [|intros [= <- <-]; constructor].
  destruct (negb _ && existsb _ _) eqn:Clash; [discriminate|].
  intros [= <- <-]. apply (Replaced db oid u); [assumption| | |].
  - apply apply_update_id.
  - apply andb_false_iff in Clash as [Same|Free]; [left|now right].
    apply negb_false_iff in Same. now apply String.eqb_eq.
  - destruct upd as [b|[t|m]]; cbn [update_validators apply_update] in *.
    + now apply apply_set_well_formed.
    + now apply apply_push_well_formed.
    + now apply apply_push_each_well_formed.
Qed.

Lemma findByIdAndDelete_effect target db db' res :
  findByIdAndDelete target db = Ok (db', res) -> effect db db'.
Proof.
  unfold findByIdAndDelete.
  destruct (castObjectId target) as [oid|]; [|discriminate].
  destruct (find (by_id oid) db); intros [= <- <-]; constructor.
Qed.

Lemma post_auth_register_effect env body db :
  effect db (fst (post_auth_register env body db)).
Proof.
  unfold post_auth_register.
  destruct (findOne (b_email body) db); [constructor|].
  destruct (Bcrypt.hash _ _); [|constructor]. cbn [bind].
  match goal with
  | |- context [save env ?b db] =>
      destruct (save env b db) as [[db' doc]|e] eqn:S
  end; [|constructor].
  now apply save_effect in S.
Qed.

Lemma post_users_effect env principal body db :
  effect db (fst (post_users env principal body db)).
Proof.
  unfold post_users.
  destruct (negb (Req.role principal =? "admin")); [constructor|].
  destruct (if truthy (b_password body) then _ else _); [|constructor].
  cbn [bind].
  match goal with
  | |- context [save env ?b db] =>
      destruct (save env b db) as [[db' doc]|e] eqn:S
  end; [|constructor].
  now apply save_effect in S.
Qed.

Lemma put_user_effect env principal target body db :
  effect db (fst (put_user env principal target body db)).
Proof.
  unfold put_user. destruct (_ && _); [constructor|]. cbv zeta.
  destruct (if truthy (b_password body) then _ else _) as [updateData|];
    [|constructor].
  cbn [bind].
  destruct (findByIdAndUpdate env target (Set_ updateData) db)
    as [[db' res]|e] eqn:U; [|constructor].
  apply findByIdAndUpdate_effect in U. now destruct res.
Qed.

Lemma patch_transactions_effect env principal target (t : PatchBody) db :
  effect db (fst (patch_transactions env principal target t db)).
Proof.
  unfold patch_transactions. destruct (_ && _); [constructor|].
  destruct (findByIdAndUpdate env target (Push t) db)
    as [[db' res]|e] eqn:U; [|constructor].
  apply findByIdAndUpdate_effect in U. now destruct res.
Qed.

Lemma delete_user_effect principal target db :
  effect db (fst (delete_user principal target db)).
Proof.
  unfold delete_user. destruct (_ && _); [constructor|].
  destruct (findByIdAndDelete target db) as [[db' res]|e] eqn:D;
    [|constructor].
  apply findByIdAndDelete_effect in D. now destruct res.
Qed.

(** Whatever the request, the collection is left as it was, or gets one
    document more at its end, or has one document replaced by a document
    of the same id, or has one document less. *)
Lemma handle_effect env r db :
  effect db (fst (handle JWT_SECRET env r db)).
Proof.
  destruct r as [body|body|a body|a|a i|a i body|a i|a i t];
    cbn [handle]; unfold protected;
    try (destruct (authMiddleware JWT_SECRET env a) as [refusal|principal];
         [constructor|]).
  - apply post_auth_register_effect.
  - rewrite post_auth_login_reads. constructor.
  - apply post_users_effect.
  - rewrite get_users_reads. constructor.
  - rewrite get_user_reads. constructor.
  - apply put_user_effect.
  - apply delete_user_effect.
  - apply patch_transactions_effect.
Qed.

(** X1.  The unique indexes are an invariant of the server: if no two
    documents share an [_id] or an [email], the same holds after any
    sequence of requests. *)
Theorem run_keeps_keys_unique (rs : list (Env * Request)) (db : Db) :
  unique_keys db -> unique_keys (run JWT_SECRET rs db).
Proof.
  revert db. induction rs as [|[env r] rs IH]; intros db U; [exact U|].
  cbn [run]. apply IH.
  exact (effect_unique_keys _ _ (handle_effect env r db) U).
Qed.


End Invariants.

(** ** Requests that are refused *)

Section Refusals.
Context {L : Libs}.
Variable JWT_SECRET : option string.

Import Mongoose Schema UserModel.

Lemma delete_user_done principal target db :
  status_code (snd (delete_user principal target db)) <> 200 ->
  fst (delete_user principal target db) = db.
Proof.
  unfold delete_user, findByIdAndDelete.
  destruct (_ && _); [reflexivity|].
  destruct (castObjectId target) as [oid|]; [|reflexivity].
  destruct (find (by_id oid) db); [|reflexivity].
  cbn. intros H. now elim H.
Qed.

(** X3.  A request that is not answered 200 or 201 leaves the collection
    exactly as it was: no route stores anything and then reports a
    failure. *)
Theorem refused_request_changes_nothing
    (env : Env) (r : Request) (db : Db) :
  status_code (snd (handle JWT_SECRET env r db)) <> 200 ->
  status_code (snd (handle JWT_SECRET env r db)) <> 201 ->
  fst (handle JWT_SECRET env r db) = db.
Proof.
  destruct r as [body|body|a body|a|a i|a i body|a i|a i t];
    cbn [handle]; unfold protected;
    try (destruct (authMiddleware JWT_SECRET env a) as [refusal|principal];
         [reflexivity|]);
    intros Not200 Not201.
  - destruct (post_auth_register_cases env body db) as [[E _]|[doc E]];
      [exact E|]. rewrite E in Not201. now elim Not201.
  - apply post_auth_login_reads.
  - destruct (post_users_cases env principal body db) as [[E _]|[doc E]];
      [exact E|]. rewrite E in Not201. now elim Not201.
  - apply get_users_reads.
  - apply get_user_reads.
  - destruct (put_user_cases env principal i body db)
      as [[E _]|(oid & u & upd & _ & _ & _ & _ & E)]; [exact E|].
    rewrite E in Not200. now elim Not200.
  - now apply delete_user_done.
  - destruct (patch_transactions_cases env principal i t db)
      as [[E _]|(oid & u & _ & _ & _ & E)]; [exact E|].
    rewrite E in Not200. now elim Not200.
Qed.

(** X4.  A request to a route behind [authMiddleware] that has no
    [Authorization] header, or one that does not start with ["Bearer "],
    is answered 401 "Unauthorized" and the route is not run: the
    collection is as it was. *)
Theorem request_without_bearer_refused
    (env : Env) (r : Request) (a : option string) (db : Db) :
  authorization_of r = Some a ->
  (forall h, a = Some h -> prefix "Bearer " h = false) ->
  handle JWT_SECRET env r db = (db, Unauthorized).
Proof.
  intros Header NoBearer.
  assert (Refused : authMiddleware JWT_SECRET env a = inl Unauthorized).
  { unfold authMiddleware. destruct a as [h|]; [|reflexivity].
    rewrite (NoBearer h eq_refl). cbn. now rewrite orb_true_r. }
  destruct r; cbn in Header; try discriminate;
    injection Header as <-; cbn [handle]; unfold protected;
    now rewrite Refused.
Qed.

(** X5.  A route behind [authMiddleware] runs only for a header that
    starts with ["Bearer "] and whose second piece decodes under the
    server's secret to claims that carry no [nbf] or whose [nbf] the clock
    has reached, and that carry no [exp] or whose [exp] the clock has not
    reached; it runs as the user of those claims. *)
Theorem route_runs_under_verified_claims
    (env : Env) (a : option string) (user : Req.user) :
  authMiddleware JWT_SECRET env a = inr user ->
  exists h c,
    a = Some h
    /\ prefix "Bearer " h = true
    /\ jws_decode (secret JWT_SECRET) (nth 1 (split_on " " h) "") = Some c
    /\ (forall n, nbf c = Some n -> n <= now env / 1000)
    /\ (forall e, exp c = Some e -> now env / 1000 < e)
    /\ user = {| Req.id := c_id c; Req.role := c_role c |}.
Proof.
  unfold authMiddleware. destruct a as [h|]; [|discriminate].
  destruct (h =? ""); [discriminate|]. cbn [orb].
  destruct (prefix "Bearer " h) eqn:P; [|discriminate]. cbn [negb].
  unfold Jwt.verify.
  destruct (jws_decode _ _) as [c|] eqn:D; [|discriminate].
  cbv zeta.
  destruct (Jwt.fails (nbf c) _) eqn:Active; [discriminate|].
  destruct (Jwt.fails (exp c) _) eqn:Expired; [discriminate|].
  intros [= <-]. exists h, c.
  split; [reflexivity|]. split; [exact P|]. split; [exact D|].
  split; [|split; [|reflexivity]].
  - intros n E. rewrite E in Active. cbn in Active.
    destruct (Z.gtb_spec n (now env / 1000)); [discriminate|assumption].
  - intros e E. rewrite E in Expired. cbn in Expired.
    destruct (Z.geb_spec (now env / 1000) e); [discriminate|assumption].
Qed.

(** What follows the token after a second space is not read. *)
Lemma split_bearer (token rest : string) :
  free_of " " token = true ->
  nth 1 (split_on " " ("Bearer " ++ token ++ String " " rest)) "" = token.
Proof.
  intros Free.
  change ("Bearer " ++ token ++ String " " rest)
    with ("Bearer" ++ String " " (token ++ String " " rest)).
  rewrite split_on_app by reflexivity.
  now rewrite split_on_app by assumption.
Qed.

(** X6.  [authHeader.split(" ")[1]]: what follows the token after a
    second space is ignored, so a header with trailing text is treated as
    the header with the token alone. *)
Theorem text_after_token_ignored (env : Env) (token rest : string) :
  free_of " " token = true ->
  authMiddleware JWT_SECRET env (Some ("Bearer " ++ token ++ " " ++ rest))
  = authMiddleware JWT_SECRET env (Some ("Bearer " ++ token)).
Proof.
  intros Free. rewrite (authMiddleware_bearer _ env token Free).
  unfold authMiddleware. change (" " ++ rest) with (String " " rest).
  rewrite (split_bearer token rest Free).
  rewrite prefix_app. reflexivity.
Qed.

End Refusals.

(** ** Registering, logging in and using the token *)

Section Sessions.
Context {L : Libs}.
Variable JWT_SECRET : option string.

Import Mongoose Schema UserModel.

Lemma length_append (s r : string) :
  String.length (s ++ r) = (String.length s + String.length r)%nat.
Proof. induction s as [|a s IH]; cbn; [reflexivity|now rewrite IH]. Qed.

Lemma substring_prefix (s r : string) :
  substring 0 (String.length s) (s ++ r) = s.
Proof.
  induction s as [|a s IH]; cbn; [now destruct r|now rewrite IH].
Qed.

(** [bcrypt.compare] accepts a password against its own hash, for a salt
    of 29 characters and a digest of 31. *)
Lemma compare_own_hash (pw salt : string) :
  String.length salt = 29%nat ->
  String.length (digest pw salt) = 31%nat ->
  Bcrypt.compare (Some pw) (salt ++ digest pw salt) = Ok true.
Proof.
  intros Hs Hd. unfold Bcrypt.compare.
  rewrite length_append, Hs, Hd. cbn [Nat.add Nat.eqb negb].
  rewrite <- Hs at 1. rewrite substring_prefix.
  cbn [Bcrypt.hash bind]. now rewrite String.eqb_refl.
Qed.

Lemma genSalt_length (rnd : string) :
  String.length rnd = 22%nat ->
  String.length (Bcrypt.genSalt 10 rnd) = 29%nat.
Proof. intros H. cbn. now rewrite H. Qed.

(** A token signed under the server's secret is accepted from its
    [nbf] on, and until it expires: at every instant when it carries
    neither. *)
Lemma signed_token_accepted (env : Env) (c : claims) :
  (forall n, nbf c = Some n -> n <= now env / 1000) ->
  (forall e, exp c = Some e -> now env / 1000 < e) ->
  authMiddleware JWT_SECRET env
    (Some ("Bearer " ++ jws_encode (secret JWT_SECRET) c))
  = inr {| Req.id := c_id c; Req.role := c_role c |}.
Proof.
  intros Active Early.
  rewrite authMiddleware_bearer by apply jws_encode_no_space.
  unfold Jwt.verify. rewrite jws_decode_encode. cbv zeta.
  assert (Jwt.fails (nbf c) (fun start => (start >? now env / 1000)%Z)
          = false) as ->.
  { destruct (nbf c) as [n|]; [|reflexivity]. cbn.
    specialize (Active n eq_refl).
    destruct (Z.gtb_spec n (now env / 1000)); [lia|reflexivity]. }
  assert (Jwt.fails (exp c) (fun expiry => now env / 1000 >=? expiry)
          = false) as ->.
  { destruct (exp c) as [e|]; [|reflexivity]. cbn.
    specialize (Early e eq_refl).
    destruct (Z.geb_spec (now env / 1000) e); [lia|reflexivity]. }
  reflexivity.
Qed.

(** X7.  The token a successful login returns opens the protected routes
    as the user who logged in, with the role stored for that user, at any
    instant before the token expires. *)
Theorem login_token_authenticates
    (env env' : Env) (body : Body) (db : Db) (user : User) :
  findOne (b_email body) db = Some user ->
  Bcrypt.compare (b_password body) (password user) = Ok true ->
  now env' < expiry (now env) ->
  exists token,
    status_code (snd (post_auth_login JWT_SECRET env body db)) = 200
    /\ member "token" (payload (snd (post_auth_login JWT_SECRET env body db)))
       = Some (JStr token)
    /\ authMiddleware JWT_SECRET env' (Some ("Bearer " ++ token))
       = inr {| Req.id := _id user; Req.role := role user |}.
Proof.
  intros Found Match Early.
  destruct (login_issues_token JWT_SECRET env body db user Found Match)
    as (token & Signed & ->).
  exists token. split; [reflexivity|]. split; [reflexivity|].
  cbn in Signed. injection Signed as <-.
  apply (signed_token_accepted env'); cbn [nbf exp]; [discriminate|].
  intros e [= <-].
  apply Z.div_lt_upper_bound; [lia|]. unfold expiry in Early. lia.
Qed.

(** X8.  With [JWT_SECRET] unset or empty the server signs and verifies
    with the secret ["dev_secret"] written in the source: a token made
    with that secret is accepted for whatever id and role it names, from
    its [nbf] on and until it expires: at every instant when it carries
    neither. *)
Theorem default_secret_tokens_accepted (env : Env) (c : claims) :
  JWT_SECRET = None \/ JWT_SECRET = Some "" ->
  (forall n, nbf c = Some n -> n <= now env / 1000) ->
  (forall e, exp c = Some e -> now env / 1000 < e) ->
  authMiddleware JWT_SECRET env (Some ("Bearer " ++ jws_encode "dev_secret" c))
  = inr {| Req.id := c_id c; Req.role := c_role c |}.
Proof.
  intros Unset Active Early.
  assert (secret JWT_SECRET = "dev_secret") as <-
    by (unfold secret; destruct Unset as [->| ->]; reflexivity).
  now apply signed_token_accepted.
Qed.

(** What a registration stores: the four keys it reads, the hash in the
    place of the password, and the defaults of the schema. *)
Lemma post_auth_register_done env body db :
  status_code (snd (post_auth_register env body db)) = 201 ->
  exists pw,
    b_password body = Some pw
    /\ findOne (b_email body) db = None
    /\ validate_user
         {| b_username := b_username body; b_email := b_email body;
            b_password :=
              Some (Bcrypt.genSalt 10 (rnd env)
                    ++ digest pw (Bcrypt.genSalt 10 (rnd env)));
            b_balance := None; b_wallet := None; b_seed := None;
            b_transaction_history := None; b_role := b_role body |} = []
    /\ existsb (by_id (fresh env 0)) db = false
    /\ existsb (by_email (or_default (b_email body) "")) db = false
    /\ post_auth_register env body db
       = let u :=
           {| _id := fresh env 0;
              username := or_default (b_username body) "";
              email := or_default (b_email body) "";
              password :=
                Bcrypt.genSalt 10 (rnd env)
                ++ digest pw (Bcrypt.genSalt 10 (rnd env));
              balance := 0; wallet := ""; seed := "";
              transaction_history := [];
              role := or_default (b_role body) "user";
              createdAt := now env; updatedAt := now env |} in
         ((db ++ [u])%list, respond 201 (toJSON u)).
Proof.
  unfold post_auth_register.
  destruct (findOne (b_email body) db); [discriminate|].
  destruct (b_password body) as [pw|]; [|discriminate].
  cbn [Bcrypt.hash bind]. unfold save.
  match goal with
  | |- context [validate_user ?b] => destruct (validate_user b) eqn:V
  end; [|discriminate].
  cbn [new_User _id email or_default b_email b_username b_password
       b_balance b_wallet b_seed b_transaction_history b_role
       cast_history fresh].
  destruct (existsb (by_id (fresh env 0)) db) eqn:Id; [discriminate|].
  destruct (existsb (by_email _) db) eqn:Email; [discriminate|].
  intros _. exists pw. repeat split; auto.
Qed.

(** What lets a registration through, for a body whose fields are
    strings where they are present. *)
Lemma post_auth_register_accepts (env : Env) (body : Body) (db : Db) :
  status_code (snd (post_auth_register env body db)) = 201
  <-> (exists name, b_username body = Some name /\ name <> "")
      /\ (exists e, b_email body = Some e /\ e <> ""
                    /\ ~ In e (map email db))
      /\ b_password body <> None
      /\ (forall r, b_role body = Some r -> In r role_values)
      /\ ~ In (fresh env 0) (map _id db).
Proof.
  split.
  - intros Done.
    destruct (post_auth_register_done env body db Done)
      as (pw & Hpw & _ & V & Id & Email & _).
    apply validate_user_passes in V as (Hu & He & _ & _ & Hr).
    cbn in Hu, He, Hr.
    apply required_string_passes in Hu, He.
    destruct He as (e & He & Ne). rewrite He in Email. cbn in Email.
    repeat split.
    + exact Hu.
    + exists e. repeat split; auto. now apply existsb_by_email_false.
    + congruence.
    + exact (proj1 (enum_passes _ _ _) Hr).
    + now apply existsb_by_id_false.
  - intros ((name & Hname & Nname) & (e & He & Ne & Fresh) & Hpw & Hr & Id).
    unfold post_auth_register, findOne. rewrite He.
    rewrite find_nothing.
    2:{ intros v Hv. apply not_true_iff_false. unfold by_email.
        rewrite String.eqb_eq. intros E. apply Fresh. rewrite <- E.
        now apply in_map. }
    destruct (b_password body) as [pw|]; [|now elim Hpw].
    cbn [Bcrypt.hash bind]. unfold save.
    match goal with
    | |- context [validate_user ?b] =>
        assert (validate_user b = []) as ->
    end.
    { apply validate_user_passes.
      cbn [b_username b_email b_password b_transaction_history b_role
           or_default validate_history].
      rewrite Hname.
      rewrite !required_string_given by (assumption || discriminate).
      repeat split; auto. now apply enum_passes. }
    cbn [new_User _id email or_default b_email].
    rewrite (proj2 (existsb_by_id_false _ _) Id).
    rewrite (proj2 (existsb_by_email_false _ _) Fresh). reflexivity.
Qed.

(** A registration is answered 201, or 400 with the collection left as
    it was. *)
Lemma post_auth_register_status (env : Env) (body : Body) (db : Db) :
  status_code (snd (post_auth_register env body db)) = 201
  \/ (status_code (snd (post_auth_register env body db)) = 400
      /\ fst (post_auth_register env body db) = db).
Proof.
  unfold post_auth_register.
  destruct (findOne (b_email body) db); [right; split; reflexivity|].
  destruct (Bcrypt.hash _ _); [|right; split; reflexivity]. cbn [bind].
  match goal with
  | |- context [save env ?b db] => destruct (save env b db) as [[db' doc]|e]
  end; [left|right; split]; reflexivity.
Qed.

(** X9.  A registration whose body has a username and an email that are
    not empty, a password (which may be empty) and a role that, if given,
    is ["user"] or ["admin"], under an email that no stored user has, is
    accepted (201) when the generated id is fresh: the user is stored
    last, under that name and that email.  A registration whose username
    or email is absent or empty, whose email is that of a stored user,
    whose password is absent, or whose role is a string other than
    ["user"] and ["admin"], is refused (400) and the collection stays as
    it was. *)
Theorem register_accepted_or_refused
    (env : Env) (accepted refused : Body) (name e : string) (db : Db) :
  b_username accepted = Some name -> name <> "" ->
  b_email accepted = Some e -> e <> "" -> ~ In e (map email db) ->
  b_password accepted <> None ->
  (forall r, b_role accepted = Some r -> In r role_values) ->
  ~ In (fresh env 0) (map _id db) ->
  registration_refused refused db ->
  (exists u,
     post_auth_register env accepted db
     = ((db ++ [u])%list, respond 201 (toJSON u))
     /\ _id u = fresh env 0 /\ username u = name /\ email u = e)
  /\ fst (post_auth_register env refused db) = db
  /\ status_code (snd (post_auth_register env refused db)) = 400.
Proof.
  intros Hname Nname He Ne Free Hpw Hr Id Refused. split.
  - assert (Done : status_code (snd (post_auth_register env accepted db))
                   = 201).
    { apply post_auth_register_accepts.
      split; [exists name; now split|].
      split; [exists e; now repeat split|]. auto. }
    destruct (post_auth_register_done env accepted db Done)
      as (pw & _ & _ & _ & _ & _ & ->).
    cbv zeta. eexists. split; [reflexivity|]. cbn.
    rewrite Hname, He. repeat split.
  - destruct (post_auth_register_status env refused db)
      as [Done|[Status Same]]; [exfalso|now split].
    apply post_auth_register_accepts in Done
      as ((name' & Hname' & Nname') & (e' & He' & Ne' & Free') & Hpw' & Hr'
          & _).
    destruct Refused as [R|[R|[R|[R|[(x & R & Taken)|[R|(r & R & Out)]]]]]];
      try congruence.
    now apply Out, Hr'.
Qed.

(** X10.  Registration reads the username, the email, the password and
    the role of the body and nothing else: whatever balance, wallet, seed
    or history the body carries, the user is created with balance 0, an
    empty wallet, seed and history, both timestamps at the instant of the
    request, the role ["user"] when none is given, and the bcrypt hash of
    the password in the place of the password. *)
Theorem register_applies_defaults (env : Env) (body : Body) (db : Db) :
  status_code (snd (post_auth_register env body db)) = 201 ->
  exists u,
    post_auth_register env body db
    = ((db ++ [u])%list, respond 201 (toJSON u))
    /\ balance u = 0 /\ wallet u = "" /\ seed u = ""
    /\ transaction_history u = []
    /\ createdAt u = now env /\ updatedAt u = now env
    /\ role u = or_default (b_role body) "user"
    /\ Bcrypt.hash (b_password body) (Bcrypt.genSalt 10 (rnd env))
       = Ok (password u).
Proof.
  intros Done.
  destruct (post_auth_register_done env body db Done)
    as (pw & Hpw & _ & _ & _ & _ & ->).
  cbv zeta. eexists. split; [reflexivity|]. cbn.
  rewrite Hpw. repeat split; reflexivity.
Qed.

(** X11.  Who has registered can log in: after a registration that was
    accepted, a login with the same email and password on the resulting
    collection is answered 200 with the profile of the new user.  (The
    salt has its 22 random characters and the digest its 31.) *)
Theorem register_then_login
    (env env' : Env) (body : Body) (db : Db) (e pw : string) :
  status_code (snd (post_auth_register env body db)) = 201 ->
  b_email body = Some e ->
  b_password body = Some pw ->
  String.length (rnd env) = 22%nat ->
  String.length (digest pw (Bcrypt.genSalt 10 (rnd env))) = 31%nat ->
  exists token,
    post_auth_login JWT_SECRET env'
      {| b_username := None; b_email := Some e; b_password := Some pw;
         b_balance := None; b_wallet := None; b_seed := None;
         b_transaction_history := None; b_role := None |}
      (fst (post_auth_register env body db))
    = (fst (post_auth_register env body db),
       respond 200
         (JObj [("message", JStr "Login successful");
                ("token", JStr token);
                ("user",
                  JObj [("id", JStr (fresh env 0));
                        ("username",
                          JStr (or_default (b_username body) ""));
                        ("email", JStr e);
                        ("role",
                          JStr (or_default (b_role body) "user"))])])).
Proof.
  intros Done He Hpw Hrnd Hdigest.
  destruct (post_auth_register_done env body db Done)
    as (pw' & Hpw' & Unknown & _ & _ & _ & ->).
  assert (pw' = pw) as -> by congruence.
  cbv zeta. cbn [fst].
  match goal with
  | |- context [(db ++ [?u])%list] => set (new := u)
  end.
  assert (Found : findOne (Some e) (db ++ [new])%list = Some new).
  { unfold findOne in *. rewrite He in Unknown.
    rewrite find_app_last by assumption.
    cbn. unfold by_email. subst new. cbn. rewrite He. cbn.
    now rewrite String.eqb_refl. }
  assert (Match : Bcrypt.compare (Some pw) (password new) = Ok true).
  { subst new. cbn [password].
    apply compare_own_hash; [now apply genSalt_length|assumption]. }
  destruct (login_issues_token JWT_SECRET env'
              {| b_username := None; b_email := Some e;
                 b_password := Some pw; b_balance := None;
                 b_wallet := None; b_seed := None;
                 b_transaction_history := None; b_role := None |}
              (db ++ [new])%list new Found Match)
    as (token & _ & ->).
  exists token. subst new. cbn. now rewrite He.
Qed.

End Sessions.

(** ** The routes of the administrator *)

Section Administration.
Context {L : Libs}.

Import Mongoose Schema UserModel.

(** X12.  [POST /users] and [GET /users] let a request past exactly when
    the role of the principal is ["admin"], whatever its id; an admin gets
    from [GET /users] every stored document, in the order of the
    collection, and the collection is as it was. *)
Theorem admin_only_routes
    (env : Env) (user : Req.user) (body : Body) (db : Db) :
  (allowed (post_users env user body db) <-> Req.role user = "admin")
  /\ (allowed (get_users user db) <-> Req.role user = "admin")
  /\ get_users user db
     = (db,
        if Req.role user =? "admin"
        then respond 200 (JArr (map toJSON db))
        else AdminOnly).
Proof.
  unfold allowed. split; [|split].
  - unfold post_users.
    destruct (String.eqb_spec (Req.role user) "admin") as [Admin|Other];
      cbn [negb].
    + split; [auto|intros _].
      destruct (if truthy (b_password body) then _ else _); cbn;
        [|discriminate].
      destruct (save _ _ _) as [[db' doc]|e]; cbn; discriminate.
    + cbn. split; [intros H; now elim H|contradiction].
  - unfold get_users.
    destruct (String.eqb_spec (Req.role user) "admin") as [Admin|Other];
      cbn; split; auto; try discriminate.
    intros H. now elim H.
  - unfold get_users. now destruct (Req.role user =? "admin").
Qed.

(** X13.  What an admin creates with [POST /users]: a body with a name, an
    email no stored user has, a password that is not empty, a role that
    (if given) is of the schema and a history whose entries pass their
    validators is stored at the end of the collection, with the balance,
    the wallet and the seed of the body (or the defaults), the history of
    the body, and the hash of the password. *)
Theorem admin_creates_user
    (env : Env) (user : Req.user) (body : Body) (db : Db)
    (name e pw : string) :
  Req.role user = "admin" ->
  b_username body = Some name -> name <> "" ->
  b_email body = Some e -> e <> "" -> ~ In e (map email db) ->
  b_password body = Some pw -> pw <> "" ->
  (forall r, b_role body = Some r -> In r role_values) ->
  validate_history 0 (or_default (b_transaction_history body) []) = [] ->
  ~ In (fresh env 0) (map _id db) ->
  exists u,
    post_users env user body db
    = ((db ++ [u])%list, respond 201 (toJSON u))
    /\ _id u = fresh env 0
    /\ username u = name /\ email u = e
    /\ password u
       = Bcrypt.genSalt 10 (rnd env)
         ++ digest pw (Bcrypt.genSalt 10 (rnd env))
    /\ balance u = or_default (b_balance body) 0
    /\ wallet u = or_default (b_wallet body) ""
    /\ seed u = or_default (b_seed body) ""
    /\ role u = or_default (b_role body) "user"
    /\ transaction_history u
       = cast_history (fresh env) 1
           (or_default (b_transaction_history body) []).
Proof.
  intros Admin Hname Nname He Ne Fresh Hpw Npw Hr Hh Id.
  unfold post_users. rewrite Admin. cbn [String.eqb Ascii.eqb Bool.eqb negb].
  unfold truthy. rewrite Hpw. apply String.eqb_neq in Npw. rewrite Npw.
  cbn [negb Bcrypt.hash bind]. cbv zeta. unfold save.
  match goal with
  | |- context [validate_user ?b] =>
      assert (validate_user b = []) as ->
  end.
  { apply validate_user_passes.
    cbn [b_username b_email b_password b_transaction_history b_role].
    rewrite Hname, He.
    rewrite !required_string_given by (assumption || discriminate).
    repeat split; auto. now apply enum_passes. }
  cbn [new_User _id email b_email]. rewrite He. cbn [or_default].
  rewrite (proj2 (existsb_by_id_false _ _) Id).
  rewrite (proj2 (existsb_by_email_false _ _) Fresh).
  eexists. split; [reflexivity|]. cbn. rewrite Hname.
  repeat split; reflexivity.
Qed.

(** X14.  [POST /users] does not look the email up; the unique index
    does: with the email of a stored user the request is answered 400 and
    nothing is stored. *)
Theorem admin_cannot_reuse_email
    (env : Env) (user : Req.user) (body : Body) (db : Db) (e : string) :
  Req.role user = "admin" ->
  b_email body = Some e -> In e (map email db) ->
  fst (post_users env user body db) = db
  /\ status_code (snd (post_users env user body db)) = 400.
Proof.
  intros Admin He Taken. unfold post_users. rewrite Admin.
  cbn [String.eqb Ascii.eqb Bool.eqb negb].
  destruct (if truthy (b_password body) then _ else _) as [h|];
    [|split; reflexivity].
  cbn [bind]. unfold save.
  match goal with
  | |- context [validate_user ?b] => destruct (validate_user b)
  end; [|split; reflexivity].
  destruct (existsb (by_id _) db); [split; reflexivity|].
  cbn [new_User email b_email]. rewrite He. cbn [or_default].
  destruct (existsb (by_email e) db) eqn:Email; [split; reflexivity|].
  apply existsb_by_email_false in Email. contradiction.
Qed.

End Administration.

(** ** Reading and deleting a user *)

Section ReadingDeleting.
Context {L : Libs}.

Import Mongoose Schema UserModel.

Lemma get_user_found principal target db u :
  self_or_admin principal target ->
  findById target db = Ok (Some u) ->
  get_user principal target db = (db, respond 200 (toJSON u)).
Proof.
  intros Auth Found. apply guard_false in Auth.
  unfold get_user. now rewrite Auth, Found.
Qed.

(** X15.  Reading after writing: when an update ([PUT]) or an append
    ([PATCH]) was done, a [GET /users/:id] of the same user by the same
    principal on the resulting collection returns the very document the
    write returned. *)
Theorem get_returns_what_was_written
    (env : Env) (principal : Req.user) (target : string) (body : Body)
    (t : PatchBody) (db1 db2 : Db) :
  status_code (snd (put_user env principal target body db1)) = 200 ->
  status_code (snd (patch_transactions env principal target t db2)) = 200 ->
  get_user principal target (fst (put_user env principal target body db1))
  = (fst (put_user env principal target body db1),
     respond 200 (payload (snd (put_user env principal target body db1))))
  /\ get_user principal target
       (fst (patch_transactions env principal target t db2))
     = (fst (patch_transactions env principal target t db2),
        respond 200
          (payload (snd (patch_transactions env principal target t db2)))).
Proof.
  intros Put Patch. split.
  - assert (Auth : self_or_admin principal target).
    { apply (put_user_allowed env principal target body db1).
      unfold allowed. rewrite Put. discriminate. }
    destruct (put_user_cases env principal target body db1)
      as [[_ No]|(oid & u & upd & Cast & Find & _ & _ & ->)];
      [contradiction|].
    cbn [fst snd payload respond]. apply get_user_found; [assumption|].
    apply findById_found. exists oid. split; [assumption|].
    apply find_replace_first_same; [|congruence].
    cbn. now apply find_by_id_id in Find.
  - assert (Auth : self_or_admin principal target).
    { apply (patch_transactions_allowed env principal target t db2).
      unfold allowed. rewrite Patch. discriminate. }
    destruct (patch_transactions_cases env principal target t db2)
      as [[_ No]|(oid & u & Cast & Find & _ & ->)]; [contradiction|].
    cbn [fst snd payload respond]. apply get_user_found; [assumption|].
    apply findById_found. exists oid. split; [assumption|].
    apply find_replace_first_same; [|congruence].
    rewrite apply_update_id. now apply find_by_id_id in Find.
Qed.

Lemma find_remove_first_same (oid : string) (db : Db) :
  NoDup (map _id db) -> find (by_id oid) (remove_first oid db) = None.
Proof.
  induction db as [|v db IH]; simpl; [reflexivity|]. intros N.
  inversion N as [|? ? Fresh N']; subst.
  destruct (by_id oid v) eqn:E; simpl.
  - apply by_id_true in E. apply find_nothing. intros w Hw.
    apply not_true_iff_false. rewrite by_id_true. intros Same.
    apply Fresh. rewrite E, <- Same. now apply in_map.
  - rewrite E. auto.
Qed.

Lemma length_remove_first (oid : string) (db : Db) :
  find (by_id oid) db <> None ->
  S (length (remove_first oid db)) = length db.
Proof.
  induction db as [|v db IH]; simpl; [congruence|].
  destruct (by_id oid v); simpl; auto.
Qed.

(** X16.  [DELETE /users/:id] by the user or an admin: an existing user is
    removed (200 "User deleted successfully"), the collection has one
    document less, the id is no longer found (a [GET] gives 404) and the
    other users are as they were; on an id no document has the answer is
    404 and nothing changes.  (Ids are unique in the collection.) *)
Theorem delete_removes_the_user
    (principal : Req.user) (target : string) (db : Db) (u : User)
    (principal' : Req.user) (absent : string) :
  self_or_admin principal target ->
  findById target db = Ok (Some u) ->
  NoDup (map _id db) ->
  self_or_admin principal' absent ->
  findById absent db = Ok None ->
  (exists db',
     delete_user principal target db
     = (db', respond 200 (JObj [("message", JStr "User deleted successfully")]))
     /\ S (length db') = length db
     /\ findById target db' = Ok None
     /\ get_user principal target db' = (db', NotFound)
     /\ (forall other,
           castObjectId other <> castObjectId target ->
           findById other db' = findById other db))
  /\ delete_user principal' absent db = (db, NotFound).
Proof.
  intros Auth Found Unique Auth' Absent. split.
  - apply guard_false in Auth.
    apply findById_found in Found as (oid & Cast & Find).
    exists (remove_first oid db).
    assert (Gone : findById target (remove_first oid db) = Ok None).
    { apply findById_absent. exists oid. split; [assumption|].
      now apply find_remove_first_same. }
    repeat split.
    + unfold delete_user, findByIdAndDelete.
      now rewrite Auth, Cast, Find.
    + apply length_remove_first. congruence.
    + exact Gone.
    + unfold get_user. now rewrite Auth, Gone.
    + intros other Other. unfold findById.
      destruct (castObjectId other) as [o|]; [|reflexivity].
      rewrite find_remove_first_other; [reflexivity|congruence].
  - apply guard_false in Auth'. unfold delete_user, findByIdAndDelete.
    apply findById_absent in Absent as (oid & Cast & Find).
    now rewrite Auth', Cast, Find.
Qed.

End ReadingDeleting.

(** ** Appending and updating, further *)

Section Writing.
Context {L : Libs}.
Variable JWT_SECRET : option string.

Import Mongoose Schema UserModel.



(** X18.  An append that is done touches nothing but the history and the
    modification time of the user it names: the other fields of that user
    are as they were, the collection has the same number of documents,
    and every other id finds the document it found. *)
Theorem append_changes_history_only
    (env : Env) (principal : Req.user) (target : string)
    (t : PatchBody) (db : Db) :
  status_code (snd (patch_transactions env principal target t db)) = 200 ->
  exists u u',
    findById target db = Ok (Some u)
    /\ findById target (fst (patch_transactions env principal target t db))
       = Ok (Some u')
    /\ _id u' = _id u /\ username u' = username u /\ email u' = email u
    /\ password u' = password u /\ balance u' = balance u
    /\ wallet u' = wallet u /\ seed u' = seed u /\ role u' = role u
    /\ createdAt u' = createdAt u /\ updatedAt u' = now env
    /\ length (fst (patch_transactions env principal target t db))
       = length db
    /\ (forall other,
          castObjectId other <> castObjectId target ->
          findById other
            (fst (patch_transactions env principal target t db))
          = findById other db).
Proof.
  intros Done.
  destruct (patch_transactions_cases env principal target t db)
    as [[_ No]|(oid & u & Cast & Find & _ & ->)]; [contradiction|].
  cbn [fst]. exists u, (apply_update env (Push t) u).
  split; [apply findById_found; eauto|].
  split.
  { apply findById_found. exists oid. split; [assumption|].
    apply find_replace_first_same; [|congruence].
    rewrite apply_update_id. now apply find_by_id_id in Find. }
  assert (Fields :
    forall v : User,
      _id (apply_update env (Push t) v) = _id v
      /\ username (apply_update env (Push t) v) = username v
      /\ email (apply_update env (Push t) v) = email v
      /\ password (apply_update env (Push t) v) = password v
      /\ balance (apply_update env (Push t) v) = balance v
      /\ wallet (apply_update env (Push t) v) = wallet v
      /\ seed (apply_update env (Push t) v) = seed v
      /\ role (apply_update env (Push t) v) = role v
      /\ createdAt (apply_update env (Push t) v) = createdAt v
      /\ updatedAt (apply_update env (Push t) v) = now env).
  { intros v. destruct t as [t|m]; cbn; repeat split. }
  destruct (Fields u) as (F1 & F2 & F3 & F4 & F5 & F6 & F7 & F8 & F9 & F10).
  repeat (split; [assumption|]). split.
  - clear. generalize (apply_update env (Push t) u). intros u'.
    induction db as [|v db IH]; cbn; [reflexivity|].
    destruct (by_id oid v); cbn; congruence.
  - intros other Other. unfold findById.
    destruct (castObjectId other) as [o|]; [|reflexivity].
    rewrite find_replace_first_other; [reflexivity| |congruence].
    rewrite apply_update_id. now apply find_by_id_id in Find.
Qed.



(** An update by an authorized principal, of an existing user, with a
    body that passes the validators and an email that is free, is done. *)
Lemma put_user_done env principal target body db oid u :
  self_or_admin principal target ->
  castObjectId target = Some oid ->
  find (by_id oid) db = Some u ->
  validate_set body = [] ->
  email_free body u db ->
  exists updateData,
    carries env body updateData
    /\ put_user env principal target body db
       = (replace_first oid (apply_set env updateData u) db,
          respond 200 (toJSON (apply_set env updateData u))).
Proof.
  intros Auth Cast Find Valid Free.
  destruct (put_user_authorized env principal target body db Auth)
    as (updateData & Carries & Passes & ->).
  exists updateData. split; [assumption|].
  unfold findByIdAndUpdate. rewrite Cast. cbn [update_validators].
  rewrite (Passes Valid), Find. cbn [apply_update].
  destruct Carries as (_ & He & _).
  assert (negb (email (apply_set env updateData u) =? email u)
          && existsb (by_email (email (apply_set env updateData u)))
               (remove_first oid db) = false) as ->; [|reflexivity].
  unfold apply_set; cbn [email]. rewrite He.
  destruct (b_email body) as [e|] eqn:E; cbn [or_default];
    [|now rewrite String.eqb_refl].
  destruct (Free e E) as [->|Other]; [now rewrite String.eqb_refl|].
  rewrite existsb_nothing; [apply andb_false_r|].
  intros v Hv. apply In_remove_first in Hv.
  apply not_true_iff_false. unfold by_email. rewrite String.eqb_eq.
  now apply Other.
Qed.

(** X19.  Nothing but the schema stands between a user and their own
    role and balance: a [PUT /users/:id] by the user themself with the
    role ["admin"] in the body makes them an admin, and a balance in the
    body, of any sign, becomes their balance. *)
Theorem user_sets_own_role_and_balance
    (env : Env) (principal : Req.user) (target : string) (body : Body)
    (db : Db) (u : User) (n : Z) :
  Req.id principal = target ->
  findById target db = Ok (Some u) ->
  b_role body = Some "admin" ->
  b_balance body = Some n ->
  validate_set body = [] ->
  email_free body u db ->
  exists u',
    put_user env principal target body db
    = (fst (put_user env principal target body db),
       respond 200 (toJSON u'))
    /\ findById target (fst (put_user env principal target body db))
       = Ok (Some u')
    /\ role u' = "admin" /\ balance u' = n.
Proof.
  intros Self Found Hrole Hbalance Valid Free.
  apply findById_found in Found as (oid & Cast & Find).
  destruct (put_user_done env principal target body db oid u
              (or_introl Self) Cast Find Valid Free)
    as (updateData & (_ & _ & Hb & _ & _ & _ & Hr & _) & ->).
  cbn [fst]. exists (apply_set env updateData u).
  split; [reflexivity|]. split.
  - apply findById_found. exists oid. split; [assumption|].
    apply find_replace_first_same; [|congruence].
    cbn. now apply find_by_id_id in Find.
  - cbn. now rewrite Hr, Hrole, Hb, Hbalance.
Qed.

Lemma find_by_email_replace_first (oid e : string) (u u' : User) (db : Db) :
  find (by_email e) db = Some u ->
  find (by_id oid) db = Some u ->
  email u' = e ->
  find (by_email e) (replace_first oid u' db) = Some u'.
Proof.
  intros Hemail Hid He. induction db as [|v db IH]; cbn in *;
    [discriminate|].
  destruct (by_id oid v) eqn:I; cbn.
  - unfold by_email at 1. now rewrite He, String.eqb_refl.
  - destruct (by_email e v) eqn:E; [|auto].
    injection Hemail as ->. apply find_some in Hid as [_ Hid]. congruence.
Qed.

(** X20.  Changing the password: after a [PUT /users/:id] that carries a
    new password and was done, a login with the user's email and the new
    password on the resulting collection is answered 200.  (The user is
    the one their email finds, the body leaves the email alone, the salt
    has its 22 random characters and the digest its 31.) *)
Theorem login_with_new_password
    (env env' : Env) (principal : Req.user) (target : string) (body : Body)
    (db : Db) (u : User) (pw : string) :
  status_code (snd (put_user env principal target body db)) = 200 ->
  findById target db = Ok (Some u) ->
  findOne (Some (email u)) db = Some u ->
  b_email body = None ->
  b_password body = Some pw -> pw <> "" ->
  String.length (rnd env) = 22%nat ->
  String.length (digest pw (Bcrypt.genSalt 10 (rnd env))) = 31%nat ->
  status_code
    (snd (post_auth_login JWT_SECRET env'
            {| b_username := None; b_email := Some (email u);
               b_password := Some pw; b_balance := None;
               b_wallet := None; b_seed := None;
               b_transaction_history := None; b_role := None |}
            (fst (put_user env principal target body db))))
  = 200.
Proof.
  intros Done Found Mine Hemail Hpw Npw Hrnd Hdigest.
  apply findById_found in Found as (oid & Cast & Find).
  destruct (put_user_cases env principal target body db)
    as [[_ No]|(oid' & u0 & updateData & Cast' & Find' & Carries & _ & ->)];
    [contradiction|].
  assert (oid' = oid) as -> by congruence.
  assert (u0 = u) as -> by congruence.
  destruct Carries as (_ & He & _ & _ & _ & _ & _ & _ & Hhash).
  destruct Hhash as [Hhash Given].
  { rewrite Hpw. cbn. apply String.eqb_neq in Npw. now rewrite Npw. }
  rewrite Hpw in Hhash.
  destruct (b_password updateData) as [h|] eqn:Hh; [|congruence].
  cbn [Bcrypt.hash or_default] in Hhash. injection Hhash as Hhash.
  cbn [fst]. set (u' := apply_set env updateData u).
  assert (Email : email u' = email u).
  { subst u'. cbn. now rewrite He, Hemail. }
  assert (Found' : findOne (Some (email u)) (replace_first oid u' db)
                   = Some u').
  { unfold findOne in *.
    now apply (find_by_email_replace_first oid (email u) u). }
  assert (Match : Bcrypt.compare (Some pw) (password u') = Ok true).
  { subst u'. cbn [apply_set password]. rewrite Hh. cbn [or_default].
    rewrite <- Hhash.
    apply (compare_own_hash pw (Bcrypt.genSalt 10 (rnd env)));
      [now apply genSalt_length|assumption]. }
  destruct (login_issues_token JWT_SECRET env'
              {| b_username := None; b_email := Some (email u);
                 b_password := Some pw; b_balance := None;
                 b_wallet := None; b_seed := None;
                 b_transaction_history := None; b_role := None |}
              (replace_first oid u' db) u' Found' Match)
    as (token & _ & ->).
  reflexivity.
Qed.

(** X21.  [if (password)]: an update whose password is the empty string,
    or that has none, leaves the stored hash as it is. *)
Theorem empty_password_keeps_hash
    (env : Env) (principal : Req.user) (target : string) (body : Body)
    (db : Db) (u : User) :
  findById target db = Ok (Some u) ->
  b_password body = Some "" \/ b_password body = None ->
  exists u',
    findById target (fst (put_user env principal target body db))
    = Ok (Some u')
    /\ password u' = password u.
Proof.
  intros Found Empty.
  destruct (put_user_cases env principal target body db)
    as [[-> _]|(oid & u0 & updateData & Cast & Find & Carries & _ & ->)].
  - now exists u.
  - apply findById_found in Found as (oid' & Cast' & Find').
    assert (oid' = oid) as -> by congruence.
    assert (u0 = u) as -> by congruence.
    exists (apply_set env updateData u). cbn [fst]. split.
    + apply findById_found. exists oid. split; [assumption|].
      apply find_replace_first_same; [|congruence].
      cbn. now apply find_by_id_id in Find.
    + destruct Carries as (_ & _ & _ & _ & _ & _ & _ & Hnone & _).
      cbn. rewrite Hnone; [reflexivity|].
      destruct Empty as [-> | ->]; reflexivity.
Qed.

Lemma post_users_not_admin env principal body db :
  Req.role principal <> "admin" ->
  post_users env principal body db = (db, AdminOnly).
Proof.
  intros No. unfold post_users. apply String.eqb_neq in No.
  now rewrite No.
Qed.

Lemma put_user_forbidden env principal target body db :
  ~ self_or_admin principal target ->
  put_user env principal target body db = (db, Forbidden).
Proof.
  intros No. unfold put_user.
  destruct (_ && _) eqn:G; [reflexivity|].
  apply guard_false in G. contradiction.
Qed.

Lemma delete_user_forbidden principal target db :
  ~ self_or_admin principal target ->
  delete_user principal target db = (db, Forbidden).
Proof.
  intros No. unfold delete_user.
  destruct (_ && _) eqn:G; [reflexivity|].
  apply guard_false in G. contradiction.
Qed.

Lemma patch_transactions_forbidden env principal target t db :
  ~ self_or_admin principal target ->
  patch_transactions env principal target t db = (db, Forbidden).
Proof.
  intros No. unfold patch_transactions.
  destruct (_ && _) eqn:G; [reflexivity|].
  apply guard_false in G. contradiction.
Qed.

(** X22.  A principal who is not an admin cannot touch another user's
    document: whatever request they send to a route behind
    [authMiddleware], every id other than their own finds after it the
    document it found before. *)
Theorem non_admin_leaves_others_alone
    (env : Env) (r : Request) (a : option string) (user : Req.user)
    (db : Db) (other : string) :
  authorization_of r = Some a ->
  authMiddleware JWT_SECRET env a = inr user ->
  Req.role user <> "admin" ->
  castObjectId (Req.id user) <> Some other ->
  find (by_id other) (fst (handle JWT_SECRET env r db))
  = find (by_id other) db.
Proof.
  intros Header Auth NotAdmin Other.
  assert (Own : forall target,
            self_or_admin user target -> target = Req.id user).
  { intros target [Self|Admin]; [now symmetry|contradiction]. }
  destruct r as [body|body|a' body|a'|a' i|a' i body|a' i|a' i t];
    cbn in Header; try discriminate; injection Header as ->;
    cbn [handle]; unfold protected; rewrite Auth.
  - now rewrite (post_users_not_admin env user body db NotAdmin).
  - now rewrite get_users_reads.
  - now rewrite get_user_reads.
  - destruct (put_user_cases env user i body db)
      as [[-> _]|(oid & u & upd & Cast & Find & _ & _ & E)];
      [reflexivity|].
    assert (Self : self_or_admin user i).
    { apply (put_user_allowed env user i body db).
      unfold allowed. rewrite E. discriminate. }
    apply Own in Self as ->. rewrite E. cbn [fst].
    apply find_replace_first_other; [|congruence].
    cbn. now apply find_by_id_id in Find.
  - destruct (delete_user_cases user i db) as [->|(oid & Cast & E)];
      [reflexivity|].
    destruct (guard_false user i) as [_ Back].
    assert (Self : self_or_admin user i \/ ~ self_or_admin user i).
    { unfold self_or_admin.
      destruct (String.eqb_spec (Req.id user) i); [now left; left|].
      right. intros [?|?]; contradiction. }
    destruct Self as [Self|Not].
    + apply Own in Self as ->. rewrite E.
      apply find_remove_first_other. congruence.
    + now rewrite (delete_user_forbidden user i db Not).
  - destruct (patch_transactions_cases env user i t db)
      as [[-> _]|(oid & u & Cast & Find & _ & E)]; [reflexivity|].
    assert (Self : self_or_admin user i).
    { apply (patch_transactions_allowed env user i t db).
      unfold allowed. rewrite E. discriminate. }
    apply Own in Self as ->. rewrite E. cbn [fst].
    apply find_replace_first_other; [|congruence].
    rewrite apply_update_id. now apply find_by_id_id in Find.
Qed.

End Writing.

(** ** The further properties on the scenario *)

Section FurtherExamples.
Import Scenario Mongoose Schema UserModel.
Existing Instance Sample.libs.

Lemma db0_unique_keys : unique_keys db0.
Proof.
  split; repeat constructor; simpl; intuition discriminate.
Qed.

Lemma db0_well_formed : Forall well_formed_user db0.
Proof.
  repeat constructor; simpl; try discriminate; auto.
Qed.

Lemma run_keeps_keys_unique_witness : unique_keys (run None day db0).
Proof.
  apply (run_keeps_keys_unique None day db0).
  split; repeat constructor; simpl; intuition discriminate.
Defined.


Example after_the_day :
  map username (run None day db0) = ["ann"; "eve"].
Proof. vm_compute. reflexivity. Qed.

Lemma refused_request_changes_nothing_witness :
  fst (handle None env0
         (PatchTransactions (bearer ann_id "user") ann_id
            (Entry (entry "2023-11-15" (-1) "bakery" "Pending"))) db0)
  = db0.
Proof.
  apply (refused_request_changes_nothing None env0
           (PatchTransactions (bearer ann_id "user") ann_id
              (Entry (entry "2023-11-15" (-1) "bakery" "Pending"))) db0);
    vm_compute; discriminate.
Defined.

Lemma request_without_bearer_refused_witness :
  handle None env0 (DeleteUser (Some "Basic YW5uOmh1bnRlcjI=") ann_id) db0
  = (db0, Unauthorized).
Proof.
  apply (request_without_bearer_refused None env0
           (DeleteUser (Some "Basic YW5uOmh1bnRlcjI=") ann_id)
           (Some "Basic YW5uOmh1bnRlcjI=") db0).
  - reflexivity.
  - intros h [= <-]. reflexivity.
Defined.

Lemma route_runs_under_verified_claims_witness :
  exists h c,
    bearer ann_id "user" = Some h
    /\ prefix "Bearer " h = true
    /\ jws_decode (secret None) (nth 1 (split_on " " h) "") = Some c
    /\ (forall n, nbf c = Some n -> n <= now env0 / 1000)
    /\ (forall e, exp c = Some e -> now env0 / 1000 < e)
    /\ as_ann = {| Req.id := c_id c; Req.role := c_role c |}.
Proof.
  apply (route_runs_under_verified_claims None env0
           (bearer ann_id "user") as_ann).
  vm_compute. reflexivity.
Defined.

Lemma text_after_token_ignored_witness :
  authMiddleware None env0
    (Some ("Bearer " ++ token ann_id "user" ++ " " ++ "and more"))
  = authMiddleware None env0 (Some ("Bearer " ++ token ann_id "user")).
Proof.
  apply (text_after_token_ignored None env0 (token ann_id "user")
           "and more").
  vm_compute. reflexivity.
Defined.

Lemma login_token_authenticates_witness :
  exists tk,
    status_code
      (snd (post_auth_login None env0
              (credentials "ann@example.org" "hunter2") db0)) = 200
    /\ member "token"
         (payload
            (snd (post_auth_login None env0
                    (credentials "ann@example.org" "hunter2") db0)))
       = Some (JStr tk)
    /\ authMiddleware None env0 (Some ("Bearer " ++ tk))
       = inr {| Req.id := _id ann; Req.role := role ann |}.
Proof.
  apply (login_token_authenticates None env0 env0
           (credentials "ann@example.org" "hunter2") db0 ann);
    reflexivity.
Defined.

Lemma default_secret_tokens_accepted_witness :
  authMiddleware None env0
    (Some ("Bearer "
           ++ jws_encode "dev_secret"
                {| c_id := bob_id; c_role := "admin";
                   iat := 1700000000; nbf := None;
                   exp := Some 1700086400 |}))
  = inr {| Req.id := bob_id; Req.role := "admin" |}.
Proof.
  apply (default_secret_tokens_accepted None env0
           {| c_id := bob_id; c_role := "admin";
              iat := 1700000000; nbf := None;
              exp := Some 1700086400 |}).
  - left. reflexivity.
  - discriminate.
  - intros e [= <-]. reflexivity.
Defined.

(** A token signed with the default secret that carries no expiry is
    accepted at every instant; one whose [nbf] lies ahead is refused. *)
Example token_not_yet_active :
  authMiddleware None env0
    (Some ("Bearer "
           ++ jws_encode "dev_secret"
                {| c_id := bob_id; c_role := "admin";
                   iat := 1700000000; nbf := Some 1700000001;
                   exp := None |}))
  = inl InvalidToken.
Proof. vm_compute. reflexivity. Qed.

Example token_without_expiry :
  forall env : Env,
    authMiddleware None env
      (Some ("Bearer "
             ++ jws_encode "dev_secret"
                  {| c_id := bob_id; c_role := "admin";
                     iat := 1700000000; nbf := None;
                     exp := None |}))
    = inr {| Req.id := bob_id; Req.role := "admin" |}.
Proof. intros env. vm_compute. reflexivity. Qed.

Lemma register_applies_defaults_witness :
  exists u,
    post_auth_register env0 greedy db0
    = ((db0 ++ [u])%list, respond 201 (toJSON u))
    /\ balance u = 0 /\ wallet u = "" /\ seed u = ""
    /\ transaction_history u = []
    /\ createdAt u = now env0 /\ updatedAt u = now env0
    /\ role u = or_default (b_role greedy) "user"
    /\ Bcrypt.hash (b_password greedy) (Bcrypt.genSalt 10 (rnd env0))
       = Ok (password u).
Proof.
  apply (register_applies_defaults env0 greedy db0).
  vm_compute. reflexivity.
Defined.

Lemma register_then_login_witness :
  exists tk,
    post_auth_login None env0
      {| b_username := None; b_email := Some "eve@example.org";
         b_password := Some "pw"; b_balance := None; b_wallet := None;
         b_seed := None; b_transaction_history := None; b_role := None |}
      (fst (post_auth_register env0 greedy db0))
    = (fst (post_auth_register env0 greedy db0),
       respond 200
         (JObj [("message", JStr "Login successful");
                ("token", JStr tk);
                ("user",
                  JObj [("id", JStr (fresh env0 0));
                        ("username",
                          JStr (or_default (b_username greedy) ""));
                        ("email", JStr "eve@example.org");
                        ("role",
                          JStr (or_default (b_role greedy) "user"))])])).
Proof.
  apply (register_then_login None env0 env0 greedy db0
           "eve@example.org" "pw"); reflexivity.
Defined.

Lemma admin_creates_user_witness :
  exists u,
    post_users env0 as_root carol_draft db0
    = ((db0 ++ [u])%list, respond 201 (toJSON u))
    /\ _id u = fresh env0 0
    /\ username u = "carol" /\ email u = "carol@example.org"
    /\ password u
       = Bcrypt.genSalt 10 (rnd env0)
         ++ digest "opensesame" (Bcrypt.genSalt 10 (rnd env0))
    /\ balance u = or_default (b_balance carol_draft) 0
    /\ wallet u = or_default (b_wallet carol_draft) ""
    /\ seed u = or_default (b_seed carol_draft) ""
    /\ role u = or_default (b_role carol_draft) "user"
    /\ transaction_history u
       = cast_history (fresh env0) 1
           (or_default (b_transaction_history carol_draft) []).
Proof.
  apply (admin_creates_user env0 as_root carol_draft db0
           "carol" "carol@example.org" "opensesame");
    try reflexivity; try discriminate.
  - simpl. intuition discriminate.
  - simpl. intuition discriminate.
Defined.

Lemma admin_cannot_reuse_email_witness :
  fst (post_users env0 as_root
         (registration "ann2" "ann@example.org" "secret" "user") db0)
  = db0
  /\ status_code
       (snd (post_users env0 as_root
               (registration "ann2" "ann@example.org" "secret" "user") db0))
     = 400.
Proof.
  apply (admin_cannot_reuse_email env0 as_root
           (registration "ann2" "ann@example.org" "secret" "user") db0
           "ann@example.org"); try reflexivity.
  left. reflexivity.
Defined.

Lemma get_returns_what_was_written_witness :
  get_user as_ann ann_id (fst (put_user env0 as_ann ann_id new_wallet db0))
  = (fst (put_user env0 as_ann ann_id new_wallet db0),
     respond 200 (payload (snd (put_user env0 as_ann ann_id new_wallet db0))))
  /\ get_user as_ann ann_id
       (fst (patch_transactions env0 as_ann ann_id (Entry bare_entry) db0))
     = (fst (patch_transactions env0 as_ann ann_id (Entry bare_entry) db0),
        respond 200
          (payload (snd (patch_transactions env0 as_ann ann_id
                           (Entry bare_entry) db0)))).
Proof.
  apply (get_returns_what_was_written env0 as_ann ann_id new_wallet
           (Entry bare_entry) db0 db0); reflexivity.
Defined.

Lemma delete_removes_the_user_witness :
  (exists db',
     delete_user as_ann ann_id db0
     = (db', respond 200 (JObj [("message", JStr "User deleted successfully")]))
     /\ S (length db') = length db0
     /\ findById ann_id db' = Ok None
     /\ get_user as_ann ann_id db' = (db', NotFound)
     /\ (forall other,
           castObjectId other <> castObjectId ann_id ->
           findById other db' = findById other db0))
  /\ delete_user as_root new_id db0 = (db0, NotFound).
Proof.
  apply (delete_removes_the_user as_ann ann_id db0 ann as_root new_id);
    try reflexivity.
  - left. reflexivity.
  - repeat constructor; simpl; intuition discriminate.
  - right. reflexivity.
Defined.


Example cut_and_first_place :
  map (map recipient)
    (map transaction_history
       (fst (patch_transactions env0 as_ann ann_id (Each first_place) db0)))
  = [["bob"; "cafe"]; []]
  /\ map transaction_history
       (fst (patch_transactions env0 as_ann ann_id (Each cut) db0))
     = [[]; []].
Proof. split; reflexivity. Qed.

(** Under [$sort: { amount: -1 }] and [$slice: -1] only the entry of the
    least amount is kept; a [$sort] MongoDB cannot read is refused. *)
Example sorted_and_sliced :
  map (map amount)
    (map transaction_history
       (fst (patch_transactions env0 as_ann ann_id
               (Each {| m_each := [bare_entry]; m_position := None;
                        m_slice := Some (-1);
                        m_sort := Some (JObj [("amount", JNum (-1))]) |})
               db0)))
  = [[3]; []]
  /\ patch_transactions env0 as_ann ann_id
       (Each {| m_each := [bare_entry]; m_position := None;
                m_slice := None; m_sort := Some (JStr "amount") |}) db0
     = (db0, respond 400 (error "The $sort is invalid")).
Proof. split; reflexivity. Qed.

Lemma register_accepted_or_refused_witness :
  (exists u,
     post_auth_register env0
       (registration "eve" "eve@example.org" "pw" "user") db0
     = ((db0 ++ [u])%list, respond 201 (toJSON u))
     /\ _id u = fresh env0 0 /\ username u = "eve"
     /\ email u = "eve@example.org")
  /\ fst (post_auth_register env0
            (registration "eve" "eve@example.org" "pw" "root") db0)
     = db0
  /\ status_code
       (snd (post_auth_register env0
               (registration "eve" "eve@example.org" "pw" "root") db0))
     = 400.
Proof.
  apply (register_accepted_or_refused env0
           (registration "eve" "eve@example.org" "pw" "user")
           (registration "eve" "eve@example.org" "pw" "root")
           "eve" "eve@example.org" db0);
    try reflexivity; try discriminate.
  - simpl. intuition discriminate.
  - intros r [= <-]. simpl. auto.
  - simpl. intuition discriminate.
  - unfold registration_refused. do 6 right. exists "root".
    split; [reflexivity|]. simpl. intuition discriminate.
Defined.


Example bare_entry_is_pending :
  map transaction_history
    (fst (patch_transactions env0 as_ann ann_id (Entry bare_entry) db0))
  = [[coffee;
      {| tx_id := new_id; date := "2023-11-16"; amount := 3;
         recipient := "bob"; status := "Pending" |}];
     []].
Proof. reflexivity. Qed.

Lemma append_changes_history_only_witness :
  exists u u',
    findById ann_id db0 = Ok (Some u)
    /\ findById ann_id
         (fst (patch_transactions env0 as_ann ann_id (Entry bare_entry) db0))
       = Ok (Some u')
    /\ _id u' = _id u /\ username u' = username u /\ email u' = email u
    /\ password u' = password u /\ balance u' = balance u
    /\ wallet u' = wallet u /\ seed u' = seed u /\ role u' = role u
    /\ createdAt u' = createdAt u /\ updatedAt u' = now env0
    /\ length
         (fst (patch_transactions env0 as_ann ann_id (Entry bare_entry) db0))
       = length db0
    /\ (forall other,
          castObjectId other <> castObjectId ann_id ->
          findById other
            (fst (patch_transactions env0 as_ann ann_id (Entry bare_entry)
                    db0))
          = findById other db0).
Proof.
  apply (append_changes_history_only env0 as_ann ann_id (Entry bare_entry)
           db0).
  reflexivity.
Defined.

Lemma user_sets_own_role_and_balance_witness :
  exists u',
    put_user env0 as_ann ann_id promotion db0
    = (fst (put_user env0 as_ann ann_id promotion db0),
       respond 200 (toJSON u'))
    /\ findById ann_id (fst (put_user env0 as_ann ann_id promotion db0))
       = Ok (Some u')
    /\ role u' = "admin" /\ balance u' = -5.
Proof.
  apply (user_sets_own_role_and_balance env0 as_ann ann_id promotion db0
           ann (-5)); try reflexivity.
  intros e [=].
Defined.

Lemma login_with_new_password_witness :
  status_code
    (snd (post_auth_login None env0
            {| b_username := None; b_email := Some (email ann);
               b_password := Some "correct horse"; b_balance := None;
               b_wallet := None; b_seed := None;
               b_transaction_history := None; b_role := None |}
            (fst (put_user env0 as_ann ann_id
                    (new_password "correct horse") db0))))
  = 200.
Proof.
  apply (login_with_new_password None env0 env0 as_ann ann_id
           (new_password "correct horse") db0 ann "correct horse");
    try reflexivity.
  discriminate.
Defined.

Lemma empty_password_keeps_hash_witness :
  exists u',
    findById ann_id (fst (put_user env0 as_ann ann_id (new_password "") db0))
    = Ok (Some u')
    /\ password u' = password ann.
Proof.
  apply (empty_password_keeps_hash env0 as_ann ann_id (new_password "")
           db0 ann); [reflexivity|].
  left. reflexivity.
Defined.

Lemma non_admin_leaves_others_alone_witness :
  find (by_id bob_id)
    (fst (handle None env0
            (PutUser (bearer ann_id "user") bob_id promotion) db0))
  = find (by_id bob_id) db0.
Proof.
  apply (non_admin_leaves_others_alone None env0
           (PutUser (bearer ann_id "user") bob_id promotion)
           (bearer ann_id "user") as_ann db0 bob_id).
  - reflexivity.
  - vm_compute. reflexivity.
  - discriminate.
  - vm_compute. discriminate.
Defined.

End FurtherExamples.
